(** * Lutris option forms: a model of [lutris/gui/config/boxes.py]

    The development embeds [ConfigBox] (the form renderer, its edit and
    reset handlers and its visibility engine) as state-passing functions
    over an explicit store of toolkit objects, and proves the properties
    the specification states about them.

    Conventions.
    - Python values are the inductive [pyval]; [py_eqb] is [==],
      [py_truthy] is truth-value testing.
    - Option descriptors are dictionaries with a fixed set of known keys;
      they are the record [option_dict], a field being [None] when the key
      is absent from the dictionary.
    - Gtk objects that the handlers reach through more than one reference
      (reset buttons, wrappers, message boxes) live in maps from object
      identities to their state; the widget tree refers to them by
      identity.
    - Code of [lutris.gui.config.widget_generator], [lutris.config] and
      [lutris.settings] is not part of the file modelled here: the widget
      generator, the cascade recomputation and the stored setting are
      parameters of the model.
    - [str.lower] belongs to the Python runtime: it is the parameter
      [lower] of the model. [ascii_lower] is what it does to ASCII text,
      and the properties worded with letter case are stated for the
      texts on which the two agree. *)

From Stdlib Require Import ZArith Ascii String.
From stdpp Require Import gmap strings list fin_maps.

Set Warnings "-register-all".

(** ** Python values *)

Inductive exn :=
| KeyError (k : string)
| TypeError (msg : string)
| AttributeError (msg : string)
| Raised (msg : string).

(** [VCallable c r] is a zero-argument callable object of identity [c];
    calling it returns [v] when [r = inr v] and raises [e] when
    [r = inl e]. *)
Inductive pyval :=
| VNone
| VBool (b : bool)
| VInt (z : Z)
| VStr (s : string)
| VList (l : list pyval)
| VCallable (c : nat) (r : exn + pyval).

(** [callable(x)] *)
Definition callable (x : pyval) : bool :=
  match x with VCallable _ _ => true | _ => false end.

(** Truth-value testing, as [if x:] and [not x] do it. *)
Definition py_truthy (x : pyval) : bool :=
  match x with
  | VNone => false
  | VBool b => b
  | VInt z => negb (z =? 0)%Z
  | VStr s => negb (String.eqb s "")
  | VList l => match l with [] => false | _ => true end
  | VCallable _ _ => true
  end.

(** [x == y]. Booleans compare as the integers 0 and 1; callables compare
    by identity. *)
Fixpoint py_eqb (x y : pyval) {struct x} : bool :=
  match x, y with
  | VNone, VNone => true
  | VBool a, VBool b => Bool.eqb a b
  | VBool a, VInt z => (Z.b2z a =? z)%Z
  | VInt z, VBool b => (z =? Z.b2z b)%Z
  | VInt a, VInt b => (a =? b)%Z
  | VStr a, VStr b => String.eqb a b
  | VList a, VList b =>
      (fix list_eqb (l1 l2 : list pyval) {struct l1} : bool :=
         match l1, l2 with
         | [], [] => true
         | u :: l1', v :: l2' => py_eqb u v && list_eqb l1' l2'
         | _, _ => false
         end) a b
  | VCallable a _, VCallable b _ => Nat.eqb a b
  | _, _ => false
  end.

(** [x != y] *)
Definition py_neb (x y : pyval) : bool := negb (py_eqb x y).

(** [d.get(k)] on a dictionary with string keys. *)
Definition dict_get (d : gmap string pyval) (k : string) : pyval :=
  default VNone (d !! k).

(** ** Strings: [str.lower] and [in] *)

(** A string is the sequence of the bytes of its UTF-8 encoding; a text
    occurs in another exactly when its bytes occur in the bytes of the
    other.

    [str.lower] follows the case tables of the Python runtime and is
    sensitive to context: a capital sigma lowers to one of two letters,
    by its place in the word. It is a parameter of the model: the
    visibility engine and everything that calls it are defined over an
    arbitrary [lower], and the properties are proved for every one. *)
Class Lowering := lower : string -> string.

(** What [str.lower] does to text of ASCII characters: the letters
    [A]..[Z] move to [a]..[z] and every other character stays. *)
Definition ascii_lower_char (a : ascii) : ascii :=
  let n := N_of_ascii a in
  if ((65 <=? n) && (n <=? 90))%N then ascii_of_N (n + 32) else a.

Fixpoint ascii_lower (s : string) : string :=
  match s with
  | EmptyString => EmptyString
  | String a s' => String (ascii_lower_char a) (ascii_lower s')
  end.

Definition ascii_lowering : Lowering := ascii_lower.

(** What [str.lower] does to text of ASCII characters and unaccented
    Greek capitals, written without marks between the letters of a word.
    In UTF-8 the capitals alpha to omicron are the bytes 206 145 to
    206 159 and move to 206 177 .. 206 191; pi to omega are 206 160 to
    206 169 and move to 207 128 .. 207 137; the capital sigma, 206 163,
    moves to the final sigma 207 130 when a letter comes before it and
    none after it, and to 207 131 otherwise. *)
Definition starts_letter (a : ascii) : bool :=
  let n := N_of_ascii a in
  ((65 <=? n) && (n <=? 90) || (97 <=? n) && (n <=? 122) || (n =? 206) || (n =? 207))%N.

Definition continues_letter (a : ascii) : bool :=
  let n := N_of_ascii a in ((128 <=? n) && (n <=? 191))%N.

Fixpoint greek_lower_from (after_letter : bool) (s : string) : string :=
  match s with
  | EmptyString => EmptyString
  | String a s' =>
      let plain_ :=
        String (ascii_lower_char a)
          (greek_lower_from
             (if continues_letter a then after_letter else starts_letter a) s') in
      if (N_of_ascii a =? 206)%N then
        match s' with
        | String b s'' =>
            let m := N_of_ascii b in
            if (m =? 163)%N then
              let before_letter :=
                match s'' with
                | String c _ => starts_letter c
                | EmptyString => false
                end in
              let sigma := if after_letter && negb before_letter then 130%N else 131%N in
              String (ascii_of_N 207) (String (ascii_of_N sigma) (greek_lower_from true s''))
            else if ((145 <=? m) && (m <=? 159))%N then
              String a (String (ascii_of_N (m + 32)) (greek_lower_from true s''))
            else if ((160 <=? m) && (m <=? 169) && negb (m =? 162))%N then
              String (ascii_of_N 207) (String (ascii_of_N (m - 32)) (greek_lower_from true s''))
            else plain_
        | EmptyString => plain_
        end
      else plain_
  end.

Definition greek_lower (s : string) : string := greek_lower_from false s.

Definition greek_lowering : Lowering := greek_lower.

Fixpoint is_prefix (p s : string) : bool :=
  match p, s with
  | EmptyString, _ => true
  | String a p', String b s' => Ascii.eqb a b && is_prefix p' s'
  | String _ _, EmptyString => false
  end.

(** [needle in hay] on strings. *)
Fixpoint str_in (needle hay : string) : bool :=
  if is_prefix needle hay then true
  else match hay with
       | EmptyString => false
       | String _ hay' => str_in needle hay'
       end.

(** Truth value of a string: non-empty. *)
Definition str_truthy (s : string) : bool := negb (String.eqb s "").

(** ** Exceptions, [continue], and state: the monad of the handlers *)

Inductive outcome (A : Type) :=
| Normal (a : A)
| Continue
| Raise (e : exn).
Arguments Normal {A} a.
Arguments Continue {A}.
Arguments Raise {A} e.

(** A computation over a state [S]. A raised exception leaves the state
    as the statements executed so far made it. *)
Definition M (S A : Type) : Type := S -> outcome A * S.

Definition ret {S A} (a : A) : M S A := fun s => (Normal a, s).

Definition bind {S A B} (m : M S A) (f : A -> M S B) : M S B :=
  fun s =>
    match m s with
    | (Normal a, s') => f a s'
    | (Continue, s') => (Continue, s')
    | (Raise e, s') => (Raise e, s')
    end.

Definition raise {S A} (e : exn) : M S A := fun s => (Raise e, s).
Definition continue {S A} : M S A := fun s => (Continue, s).
Definition get {S} : M S S := fun s => (Normal s, s).
Definition gets {S A} (f : S -> A) : M S A := fun s => (Normal (f s), s).
Definition modify {S} (f : S -> S) : M S unit := fun s => (Normal tt, f s).

Declare Scope py_scope.
Delimit Scope py_scope with py.
Notation "'let*' x ':=' m 'in' k" := (bind m (fun x => k))
  (at level 10, x name, m at level 100, k at level 200) : py_scope.
Notation "m ';;' k" := (bind m (fun _ => k))
  (at level 100, k at level 200, right associativity) : py_scope.

(** ** The layered configuration store

    [LutrisConfig] as [ConfigBox] reads it (source lines 146-154): for
    each of the three configuration sections, the effective dictionary and
    the raw dictionary of the level being edited. *)

Inductive section_name := SecGame | SecRunner | SecSystem.

Record LutrisConfig := {
  game_config : gmap string pyval;
  raw_game_config : gmap string pyval;
  runner_config : gmap string pyval;
  raw_runner_config : gmap string pyval;
  system_config : gmap string pyval;
  raw_system_config : gmap string pyval;
  (** Modelled from the spec: the values the ancestor layers (and the
      option defaults) supply for each section, from which the store
      recomputes the effective dictionaries. *)
  inherited_game : gmap string pyval;
  inherited_runner : gmap string pyval;
  inherited_system : gmap string pyval
}.

(** The dictionary [self.config] refers to when it is bound to section
    [sec], and the one [self.raw_config] refers to. *)
Definition effective_of (sec : section_name) (lc : LutrisConfig) : gmap string pyval :=
  match sec with
  | SecGame => game_config lc
  | SecRunner => runner_config lc
  | SecSystem => system_config lc
  end.

Definition raw_of (sec : section_name) (lc : LutrisConfig) : gmap string pyval :=
  match sec with
  | SecGame => raw_game_config lc
  | SecRunner => raw_runner_config lc
  | SecSystem => raw_system_config lc
  end.

Definition inherited_of (sec : section_name) (lc : LutrisConfig) : gmap string pyval :=
  match sec with
  | SecGame => inherited_game lc
  | SecRunner => inherited_runner lc
  | SecSystem => inherited_system lc
  end.

(** In-place mutation of the dictionary a reference is bound to. *)
Definition update_effective (sec : section_name)
    (f : gmap string pyval -> gmap string pyval) (lc : LutrisConfig) : LutrisConfig :=
  match sec with
  | SecGame =>
      {| game_config := f (game_config lc); raw_game_config := raw_game_config lc;
         runner_config := runner_config lc; raw_runner_config := raw_runner_config lc;
         system_config := system_config lc; raw_system_config := raw_system_config lc;
         inherited_game := inherited_game lc; inherited_runner := inherited_runner lc;
         inherited_system := inherited_system lc |}
  | SecRunner =>
      {| game_config := game_config lc; raw_game_config := raw_game_config lc;
         runner_config := f (runner_config lc); raw_runner_config := raw_runner_config lc;
         system_config := system_config lc; raw_system_config := raw_system_config lc;
         inherited_game := inherited_game lc; inherited_runner := inherited_runner lc;
         inherited_system := inherited_system lc |}
  | SecSystem =>
      {| game_config := game_config lc; raw_game_config := raw_game_config lc;
         runner_config := runner_config lc; raw_runner_config := raw_runner_config lc;
         system_config := f (system_config lc); raw_system_config := raw_system_config lc;
         inherited_game := inherited_game lc; inherited_runner := inherited_runner lc;
         inherited_system := inherited_system lc |}
  end.

Definition update_raw (sec : section_name)
    (f : gmap string pyval -> gmap string pyval) (lc : LutrisConfig) : LutrisConfig :=
  match sec with
  | SecGame =>
      {| game_config := game_config lc; raw_game_config := f (raw_game_config lc);
         runner_config := runner_config lc; raw_runner_config := raw_runner_config lc;
         system_config := system_config lc; raw_system_config := raw_system_config lc;
         inherited_game := inherited_game lc; inherited_runner := inherited_runner lc;
         inherited_system := inherited_system lc |}
  | SecRunner =>
      {| game_config := game_config lc; raw_game_config := raw_game_config lc;
         runner_config := runner_config lc; raw_runner_config := f (raw_runner_config lc);
         system_config := system_config lc; raw_system_config := raw_system_config lc;
         inherited_game := inherited_game lc; inherited_runner := inherited_runner lc;
         inherited_system := inherited_system lc |}
  | SecSystem =>
      {| game_config := game_config lc; raw_game_config := raw_game_config lc;
         runner_config := runner_config lc; raw_runner_config := raw_runner_config lc;
         system_config := system_config lc; raw_system_config := f (raw_system_config lc);
         inherited_game := inherited_game lc; inherited_runner := inherited_runner lc;
         inherited_system := inherited_system lc |}
  end.

(** ** Option descriptors

    A descriptor is a dictionary; each field below is the value stored
    under the key of that name, [None] when the key is absent. *)

Record option_dict := {
  o_option : option string;
  o_type : option string;
  o_label : option string;
  o_help : option string;
  o_section : option string;
  o_scope : option (list string);
  o_advanced : option pyval;
  o_visible : option pyval;
  o_choices : option pyval;
  o_condition : option pyval;
  o_warning : option pyval;
  o_error : option pyval;
  o_default : option pyval
}.

(** [option["visible"] = v], [option["choices"] = v], [option["condition"] = v] *)
Definition set_o_visible (v : pyval) (o : option_dict) : option_dict :=
  {| o_option := o_option o; o_type := o_type o; o_label := o_label o;
     o_help := o_help o; o_section := o_section o; o_scope := o_scope o;
     o_advanced := o_advanced o; o_visible := Some v; o_choices := o_choices o;
     o_condition := o_condition o; o_warning := o_warning o; o_error := o_error o;
     o_default := o_default o |}.

Definition set_o_choices (v : pyval) (o : option_dict) : option_dict :=
  {| o_option := o_option o; o_type := o_type o; o_label := o_label o;
     o_help := o_help o; o_section := o_section o; o_scope := o_scope o;
     o_advanced := o_advanced o; o_visible := o_visible o; o_choices := Some v;
     o_condition := o_condition o; o_warning := o_warning o; o_error := o_error o;
     o_default := o_default o |}.

Definition set_o_condition (v : pyval) (o : option_dict) : option_dict :=
  {| o_option := o_option o; o_type := o_type o; o_label := o_label o;
     o_help := o_help o; o_section := o_section o; o_scope := o_scope o;
     o_advanced := o_advanced o; o_visible := o_visible o; o_choices := o_choices o;
     o_condition := Some v; o_warning := o_warning o; o_error := o_error o;
     o_default := o_default o |}.

(** [option.get(key)] for a key holding an arbitrary value. *)
Definition o_get (f : option pyval) : pyval := default VNone f.

(** ** Toolkit objects *)

(** A reset button, with the arguments its "clicked" handler was
    connected with (source lines 210-216). *)
Record reset_button := {
  rb_visible : bool;
  rb_no_show_all : bool;
  rb_option : option_dict;
  rb_wrapper : nat
}.

(** A wrapper: the control the widget generator built for a descriptor
    and a value, the style providers added to its style context (oldest
    first), its sensitivity and its tooltip text. [w_builds] counts how
    many times the generator built the control into this wrapper. *)
Record wrapper_box := {
  w_option : option_dict;
  w_value : pyval;
  w_builds : nat;
  w_styles : list (string * string);
  w_sensitive : bool;
  w_tooltip : option string
}.

Inductive box_kind := WarningBox | ErrorBox | GeneratorErrorBox.

(** A [ConfigWarningBox] or [ConfigErrorBox]. *)
Record message_box := {
  mb_kind : box_kind;
  mb_tag : pyval;
  mb_key : option string;
  mb_wrapper : option nat
}.

(** The container packed for one option (source lines 241-279). *)
Record option_container := {
  lutris_option_key : string;
  lutris_option_label : string;
  lutris_option_helptext : string;
  oc_advanced : bool;
  oc_visible : bool;
  oc_no_show_all : bool;
  oc_wrapper : nat;
  oc_reset_btn : nat;
  oc_messages : list nat
}.

(** Children of the form: option rows, section frames with the rows of
    their [vbox], and other widgets (information box, separator,
    placeholder label), which carry no [lutris_option_label]. *)
Inductive widget :=
| OptionContainer (c : option_container)
| SectionFrame (id : nat) (section : string) (visible : bool) (vbox : list widget)
| Plain (name : string) (visible : bool) (no_show_all : bool).

Record Game := {
  directory : string;
  has_runner : bool;
  runner_working_dir : string
}.

(** ** The form and the objects it owns

    The attributes of [ConfigBox.__init__] (source lines 30-45), the
    children packed into the box, the objects reachable from it, and the
    effects on its collaborators that the properties observe: the entries
    written to the logger, the producers called (option key, field,
    callable identity), the message boxes asked to re-evaluate, and the
    number of reads of the stored settings. [config] and [raw_config]
    are references into [lutris_config], [None] until a render pass binds
    them. [config_section] is [None] for the base class
    ([NotImplemented]). *)

Record ConfigBox := {
  options : list option_dict;
  config_level : string;
  lutris_config : LutrisConfig;
  game : option Game;
  config_section : option section_name;
  config : option section_name;
  raw_config : option section_name;
  reset_buttons : gmap string nat;
  wrappers : gmap string nat;
  warning_boxes : list (string * list nat);
  error_boxes : list (string * list nat);
  _advanced_visibility : bool;
  _filter : string;
  children : list widget;
  button_store : gmap nat reset_button;
  wrapper_store : gmap nat wrapper_box;
  message_store : gmap nat message_box;
  next_id : nat;
  log : list (pyval * exn);
  calls : list (string * string * nat);
  validation_log : list nat;
  settings_reads : nat
}.

Definition set_lutris_config (f : LutrisConfig -> LutrisConfig) (s : ConfigBox) : ConfigBox :=
  {| options := options s; config_level := config_level s;
     lutris_config := f (lutris_config s); game := game s;
     config_section := config_section s; config := config s;
     raw_config := raw_config s; reset_buttons := reset_buttons s;
     wrappers := wrappers s; warning_boxes := warning_boxes s;
     error_boxes := error_boxes s;
     _advanced_visibility := _advanced_visibility s; _filter := _filter s;
     children := children s; button_store := button_store s;
     wrapper_store := wrapper_store s; message_store := message_store s;
     next_id := next_id s; log := log s; calls := calls s;
     validation_log := validation_log s;
     settings_reads := settings_reads s |}.

Definition set_config (f : option section_name -> option section_name) (s : ConfigBox) : ConfigBox :=
  {| options := options s; config_level := config_level s;
     lutris_config := lutris_config s; game := game s;
     config_section := config_section s; config := f (config s);
     raw_config := raw_config s; reset_buttons := reset_buttons s;
     wrappers := wrappers s; warning_boxes := warning_boxes s;
     error_boxes := error_boxes s;
     _advanced_visibility := _advanced_visibility s; _filter := _filter s;
     children := children s; button_store := button_store s;
     wrapper_store := wrapper_store s; message_store := message_store s;
     next_id := next_id s; log := log s; calls := calls s;
     validation_log := validation_log s;
     settings_reads := settings_reads s |}.

Definition set_raw_config (f : option section_name -> option section_name) (s : ConfigBox) : ConfigBox :=
  {| options := options s; config_level := config_level s;
     lutris_config := lutris_config s; game := game s;
     config_section := config_section s; config := config s;
     raw_config := f (raw_config s); reset_buttons := reset_buttons s;
     wrappers := wrappers s; warning_boxes := warning_boxes s;
     error_boxes := error_boxes s;
     _advanced_visibility := _advanced_visibility s; _filter := _filter s;
     children := children s; button_store := button_store s;
     wrapper_store := wrapper_store s; message_store := message_store s;
     next_id := next_id s; log := log s; calls := calls s;
     validation_log := validation_log s;
     settings_reads := settings_reads s |}.

Definition set_reset_buttons (f : gmap string nat -> gmap string nat) (s : ConfigBox) : ConfigBox :=
  {| options := options s; config_level := config_level s;
     lutris_config := lutris_config s; game := game s;
     config_section := config_section s; config := config s;
     raw_config := raw_config s; reset_buttons := f (reset_buttons s);
     wrappers := wrappers s; warning_boxes := warning_boxes s;
     error_boxes := error_boxes s;
     _advanced_visibility := _advanced_visibility s; _filter := _filter s;
     children := children s; button_store := button_store s;
     wrapper_store := wrapper_store s; message_store := message_store s;
     next_id := next_id s; log := log s; calls := calls s;
     validation_log := validation_log s;
     settings_reads := settings_reads s |}.

Definition set_wrappers (f : gmap string nat -> gmap string nat) (s : ConfigBox) : ConfigBox :=
  {| options := options s; config_level := config_level s;
     lutris_config := lutris_config s; game := game s;
     config_section := config_section s; config := config s;
     raw_config := raw_config s; reset_buttons := reset_buttons s;
     wrappers := f (wrappers s); warning_boxes := warning_boxes s;
     error_boxes := error_boxes s;
     _advanced_visibility := _advanced_visibility s; _filter := _filter s;
     children := children s; button_store := button_store s;
     wrapper_store := wrapper_store s; message_store := message_store s;
     next_id := next_id s; log := log s; calls := calls s;
     validation_log := validation_log s;
     settings_reads := settings_reads s |}.

Definition set_warning_boxes (f : list (string * list nat) -> list (string * list nat)) (s : ConfigBox) : ConfigBox :=
  {| options := options s; config_level := config_level s;
     lutris_config := lutris_config s; game := game s;
     config_section := config_section s; config := config s;
     raw_config := raw_config s; reset_buttons := reset_buttons s;
     wrappers := wrappers s; warning_boxes := f (warning_boxes s);
     error_boxes := error_boxes s;
     _advanced_visibility := _advanced_visibility s; _filter := _filter s;
     children := children s; button_store := button_store s;
     wrapper_store := wrapper_store s; message_store := message_store s;
     next_id := next_id s; log := log s; calls := calls s;
     validation_log := validation_log s;
     settings_reads := settings_reads s |}.

Definition set_error_boxes (f : list (string * list nat) -> list (string * list nat)) (s : ConfigBox) : ConfigBox :=
  {| options := options s; config_level := config_level s;
     lutris_config := lutris_config s; game := game s;
     config_section := config_section s; config := config s;
     raw_config := raw_config s; reset_buttons := reset_buttons s;
     wrappers := wrappers s; warning_boxes := warning_boxes s;
     error_boxes := f (error_boxes s);
     _advanced_visibility := _advanced_visibility s; _filter := _filter s;
     children := children s; button_store := button_store s;
     wrapper_store := wrapper_store s; message_store := message_store s;
     next_id := next_id s; log := log s; calls := calls s;
     validation_log := validation_log s;
     settings_reads := settings_reads s |}.

Definition set_advanced_visibility (f : bool -> bool) (s : ConfigBox) : ConfigBox :=
  {| options := options s; config_level := config_level s;
     lutris_config := lutris_config s; game := game s;
     config_section := config_section s; config := config s;
     raw_config := raw_config s; reset_buttons := reset_buttons s;
     wrappers := wrappers s; warning_boxes := warning_boxes s;
     error_boxes := error_boxes s;
     _advanced_visibility := f (_advanced_visibility s);
     _filter := _filter s; children := children s;
     button_store := button_store s; wrapper_store := wrapper_store s;
     message_store := message_store s; next_id := next_id s; log := log s;
     calls := calls s; validation_log := validation_log s;
     settings_reads := settings_reads s |}.

Definition set_filter (f : string -> string) (s : ConfigBox) : ConfigBox :=
  {| options := options s; config_level := config_level s;
     lutris_config := lutris_config s; game := game s;
     config_section := config_section s; config := config s;
     raw_config := raw_config s; reset_buttons := reset_buttons s;
     wrappers := wrappers s; warning_boxes := warning_boxes s;
     error_boxes := error_boxes s;
     _advanced_visibility := _advanced_visibility s;
     _filter := f (_filter s); children := children s;
     button_store := button_store s; wrapper_store := wrapper_store s;
     message_store := message_store s; next_id := next_id s; log := log s;
     calls := calls s; validation_log := validation_log s;
     settings_reads := settings_reads s |}.

Definition set_children (f : list widget -> list widget) (s : ConfigBox) : ConfigBox :=
  {| options := options s; config_level := config_level s;
     lutris_config := lutris_config s; game := game s;
     config_section := config_section s; config := config s;
     raw_config := raw_config s; reset_buttons := reset_buttons s;
     wrappers := wrappers s; warning_boxes := warning_boxes s;
     error_boxes := error_boxes s;
     _advanced_visibility := _advanced_visibility s; _filter := _filter s;
     children := f (children s); button_store := button_store s;
     wrapper_store := wrapper_store s; message_store := message_store s;
     next_id := next_id s; log := log s; calls := calls s;
     validation_log := validation_log s;
     settings_reads := settings_reads s |}.

Definition set_button_store (f : gmap nat reset_button -> gmap nat reset_button) (s : ConfigBox) : ConfigBox :=
  {| options := options s; config_level := config_level s;
     lutris_config := lutris_config s; game := game s;
     config_section := config_section s; config := config s;
     raw_config := raw_config s; reset_buttons := reset_buttons s;
     wrappers := wrappers s; warning_boxes := warning_boxes s;
     error_boxes := error_boxes s;
     _advanced_visibility := _advanced_visibility s; _filter := _filter s;
     children := children s; button_store := f (button_store s);
     wrapper_store := wrapper_store s; message_store := message_store s;
     next_id := next_id s; log := log s; calls := calls s;
     validation_log := validation_log s;
     settings_reads := settings_reads s |}.

Definition set_wrapper_store (f : gmap nat wrapper_box -> gmap nat wrapper_box) (s : ConfigBox) : ConfigBox :=
  {| options := options s; config_level := config_level s;
     lutris_config := lutris_config s; game := game s;
     config_section := config_section s; config := config s;
     raw_config := raw_config s; reset_buttons := reset_buttons s;
     wrappers := wrappers s; warning_boxes := warning_boxes s;
     error_boxes := error_boxes s;
     _advanced_visibility := _advanced_visibility s; _filter := _filter s;
     children := children s; button_store := button_store s;
     wrapper_store := f (wrapper_store s);
     message_store := message_store s; next_id := next_id s; log := log s;
     calls := calls s; validation_log := validation_log s;
     settings_reads := settings_reads s |}.

Definition set_message_store (f : gmap nat message_box -> gmap nat message_box) (s : ConfigBox) : ConfigBox :=
  {| options := options s; config_level := config_level s;
     lutris_config := lutris_config s; game := game s;
     config_section := config_section s; config := config s;
     raw_config := raw_config s; reset_buttons := reset_buttons s;
     wrappers := wrappers s; warning_boxes := warning_boxes s;
     error_boxes := error_boxes s;
     _advanced_visibility := _advanced_visibility s; _filter := _filter s;
     children := children s; button_store := button_store s;
     wrapper_store := wrapper_store s;
     message_store := f (message_store s); next_id := next_id s;
     log := log s; calls := calls s; validation_log := validation_log s;
     settings_reads := settings_reads s |}.

Definition set_next_id (f : nat -> nat) (s : ConfigBox) : ConfigBox :=
  {| options := options s; config_level := config_level s;
     lutris_config := lutris_config s; game := game s;
     config_section := config_section s; config := config s;
     raw_config := raw_config s; reset_buttons := reset_buttons s;
     wrappers := wrappers s; warning_boxes := warning_boxes s;
     error_boxes := error_boxes s;
     _advanced_visibility := _advanced_visibility s; _filter := _filter s;
     children := children s; button_store := button_store s;
     wrapper_store := wrapper_store s; message_store := message_store s;
     next_id := f (next_id s); log := log s; calls := calls s;
     validation_log := validation_log s;
     settings_reads := settings_reads s |}.

Definition set_log (f : list (pyval * exn) -> list (pyval * exn)) (s : ConfigBox) : ConfigBox :=
  {| options := options s; config_level := config_level s;
     lutris_config := lutris_config s; game := game s;
     config_section := config_section s; config := config s;
     raw_config := raw_config s; reset_buttons := reset_buttons s;
     wrappers := wrappers s; warning_boxes := warning_boxes s;
     error_boxes := error_boxes s;
     _advanced_visibility := _advanced_visibility s; _filter := _filter s;
     children := children s; button_store := button_store s;
     wrapper_store := wrapper_store s; message_store := message_store s;
     next_id := next_id s; log := f (log s); calls := calls s;
     validation_log := validation_log s;
     settings_reads := settings_reads s |}.

Definition set_calls (f : list (string * string * nat) -> list (string * string * nat)) (s : ConfigBox) : ConfigBox :=
  {| options := options s; config_level := config_level s;
     lutris_config := lutris_config s; game := game s;
     config_section := config_section s; config := config s;
     raw_config := raw_config s; reset_buttons := reset_buttons s;
     wrappers := wrappers s; warning_boxes := warning_boxes s;
     error_boxes := error_boxes s;
     _advanced_visibility := _advanced_visibility s; _filter := _filter s;
     children := children s; button_store := button_store s;
     wrapper_store := wrapper_store s; message_store := message_store s;
     next_id := next_id s; log := log s; calls := f (calls s);
     validation_log := validation_log s;
     settings_reads := settings_reads s |}.

Definition set_validation_log (f : list nat -> list nat) (s : ConfigBox) : ConfigBox :=
  {| options := options s; config_level := config_level s;
     lutris_config := lutris_config s; game := game s;
     config_section := config_section s; config := config s;
     raw_config := raw_config s; reset_buttons := reset_buttons s;
     wrappers := wrappers s; warning_boxes := warning_boxes s;
     error_boxes := error_boxes s;
     _advanced_visibility := _advanced_visibility s; _filter := _filter s;
     children := children s; button_store := button_store s;
     wrapper_store := wrapper_store s; message_store := message_store s;
     next_id := next_id s; log := log s; calls := calls s;
     validation_log := f (validation_log s);
     settings_reads := settings_reads s |}.

Definition set_settings_reads (f : nat -> nat) (s : ConfigBox) : ConfigBox :=
  {| options := options s; config_level := config_level s;
     lutris_config := lutris_config s; game := game s;
     config_section := config_section s; config := config s;
     raw_config := raw_config s; reset_buttons := reset_buttons s;
     wrappers := wrappers s; warning_boxes := warning_boxes s;
     error_boxes := error_boxes s;
     _advanced_visibility := _advanced_visibility s; _filter := _filter s;
     children := children s; button_store := button_store s;
     wrapper_store := wrapper_store s; message_store := message_store s;
     next_id := next_id s; log := log s; calls := calls s;
     validation_log := validation_log s;
     settings_reads := f (settings_reads s) |}.

(** ** Object updates *)

Definition rb_set_visible (v : bool) (b : reset_button) : reset_button :=
  {| rb_visible := v; rb_no_show_all := rb_no_show_all b;
     rb_option := rb_option b; rb_wrapper := rb_wrapper b |}.

Definition rb_set_no_show_all (v : bool) (b : reset_button) : reset_button :=
  {| rb_visible := rb_visible b; rb_no_show_all := v;
     rb_option := rb_option b; rb_wrapper := rb_wrapper b |}.

(** [Gtk.Widget.show_all] reaching a button: it is shown unless it is
    flagged no-show-all. *)
Definition rb_show_all (b : reset_button) : reset_button :=
  if rb_no_show_all b then b else rb_set_visible true b.

Definition w_add_style (property_ value : string) (w : wrapper_box) : wrapper_box :=
  {| w_option := w_option w; w_value := w_value w; w_builds := w_builds w;
     w_styles := w_styles w ++ [(property_, value)];
     w_sensitive := w_sensitive w; w_tooltip := w_tooltip w |}.

Definition w_set_sensitive (v : bool) (w : wrapper_box) : wrapper_box :=
  {| w_option := w_option w; w_value := w_value w; w_builds := w_builds w;
     w_styles := w_styles w; w_sensitive := v; w_tooltip := w_tooltip w |}.

Definition w_set_tooltip (text : string) (w : wrapper_box) : wrapper_box :=
  {| w_option := w_option w; w_value := w_value w; w_builds := w_builds w;
     w_styles := w_styles w; w_sensitive := w_sensitive w; w_tooltip := Some text |}.

(** The generator building a control for [o] and [v] into an existing
    wrapper. *)
Definition w_rebuild (o : option_dict) (v : pyval) (w : wrapper_box) : wrapper_box :=
  {| w_option := o; w_value := v; w_builds := S (w_builds w);
     w_styles := w_styles w; w_sensitive := w_sensitive w; w_tooltip := w_tooltip w |}.

Definition new_wrapper (o : option_dict) (v : pyval) : wrapper_box :=
  {| w_option := o; w_value := v; w_builds := 1; w_styles := [];
     w_sensitive := true; w_tooltip := None |}.

Definition oc_set_visibility (v : bool) (c : option_container) : option_container :=
  {| lutris_option_key := lutris_option_key c;
     lutris_option_label := lutris_option_label c;
     lutris_option_helptext := lutris_option_helptext c;
     oc_advanced := oc_advanced c; oc_visible := v; oc_no_show_all := negb v;
     oc_wrapper := oc_wrapper c; oc_reset_btn := oc_reset_btn c;
     oc_messages := oc_messages c |}.

Definition oc_show (c : option_container) : option_container :=
  {| lutris_option_key := lutris_option_key c;
     lutris_option_label := lutris_option_label c;
     lutris_option_helptext := lutris_option_helptext c;
     oc_advanced := oc_advanced c; oc_visible := true;
     oc_no_show_all := oc_no_show_all c;
     oc_wrapper := oc_wrapper c; oc_reset_btn := oc_reset_btn c;
     oc_messages := oc_messages c |}.

(** The value the effective style of a wrapper gives a property: that of
    the provider added last, all providers having the same priority. *)
Definition style_value (property_ : string) (styles : list (string * string)) : option string :=
  snd <$> head (filter (fun p => fst p = property_) (reverse styles)).

(** The weight a wrapper is rendered with. *)
Inductive weight := plain | bold | italic.

Definition rendered_weight (w : wrapper_box) : weight :=
  if decide (style_value "font-weight" (w_styles w) = Some "bold") then bold
  else if decide (style_value "font-style" (w_styles w) = Some "italic") then italic
  else plain.

(** ** Insertion-ordered [defaultdict(list)] *)

(** [d[k].append(x)] *)
Fixpoint dd_append (k : string) (x : nat) (d : list (string * list nat)) : list (string * list nat) :=
  match d with
  | [] => [(k, [x])]
  | (k', l) :: d' =>
      if String.eqb k k' then (k', l ++ [x]) :: d'
      else (k', l) :: dd_append k x d'
  end.

(** All boxes, in the order [for box_list in d.values(): for box in box_list]
    visits them. *)
Definition dd_boxes (d : list (string * list nat)) : list nat :=
  concat (map snd d).

(** ** Collaborators outside the modelled file

    [generate_widget dir option value] is [WidgetGenerator.generate_widget]
    of a generator whose [default_directory] is [dir]: it raises, or
    reports the default value, the default-tooltip text and the tags of
    the error widgets it created. [update_cascaded_config] is the method
    of [LutrisConfig]; [read_setting] is [settings.read_setting];
    [expanduser] is [os.path.expanduser]. *)

Record gen_output := {
  default_value : pyval;
  tooltip_default : pyval;
  error_widgets : list pyval
}.

Record Externals := {
  generate_widget : pyval -> option_dict -> pyval -> exn + gen_output;
  update_cascaded_config : LutrisConfig -> LutrisConfig;
  read_setting : string -> pyval;
  expanduser : string -> string
}.

Section Text.

Context {L : Lowering}.

(** ** The visibility engine (source lines 47-97) *)

(** The decision taken for one option row (source lines 83-88);
    [filter_text] is the lowered filter. *)
Definition row_visible (advanced_visibility : bool) (filter_text : string)
    (c : option_container) : bool :=
  let widget_visible := advanced_visibility || negb (oc_advanced c) in
  if widget_visible && str_truthy filter_text then
    let label := lower (lutris_option_label c) in
    let helptext := lower (lutris_option_helptext c) in
    if negb (str_in filter_text label) && negb (str_in filter_text helptext)
    then false
    else widget_visible
  else widget_visible.

(** The loop of [update_widgets] over a list of widgets (source lines
    76-95), given what it does to each widget: the widgets afterwards and
    [visible_count]. *)
Definition update_each (update : widget -> widget * nat)
    : list widget -> list widget * nat :=
  fix loop (widgets : list widget) : list widget * nat :=
    match widgets with
    | [] => ([], 0)
    | x :: xs =>
        let '(x', n) := update x in
        let '(xs', m) := loop xs in
        (x' :: xs', n + m)
    end.

(** The body of that loop for one widget: the widget afterwards and what
    it adds to [visible_count]. *)
Fixpoint update_widget (advanced_visibility : bool) (filter_text : string)
    (w : widget) {struct w} : widget * nat :=
  match w with
  | SectionFrame id section _ vbox =>
      let '(vbox', frame_visible_count) :=
        update_each (update_widget advanced_visibility filter_text) vbox in
      (SectionFrame id section (0 <? frame_visible_count) vbox', frame_visible_count)
  | OptionContainer c =>
      let widget_visible := row_visible advanced_visibility filter_text c in
      (OptionContainer (oc_set_visibility widget_visible c),
       if widget_visible then 1 else 0)
  | Plain name _ _ =>
      (* no "advanced" class and no [lutris_option_label] attribute *)
      (Plain name true false, 1)
  end.

Definition update_widgets (advanced_visibility : bool) (filter_text : string)
    : list widget -> list widget * nat :=
  update_each (update_widget advanced_visibility filter_text).

(** The reset buttons of the option rows satisfying [P], at any depth. *)
Fixpoint buttons_of (P : option_container -> bool) (w : widget) : list nat :=
  match w with
  | OptionContainer c => if P c then [oc_reset_btn c] else []
  | SectionFrame _ _ _ vbox => flat_map (buttons_of P) vbox
  | Plain _ _ _ => []
  end.

Definition show_buttons (bs : list nat) (store : gmap nat reset_button) : gmap nat reset_button :=
  foldr (fun b st => alter rb_show_all b st) store bs.

Definition update_option_visibility (s : ConfigBox) : ConfigBox :=
  let filter_text := lower (_filter s) in
  let widgets := fst (update_widgets (_advanced_visibility s) filter_text (children s)) in
  (* [widget.show_all()] on each row made visible reaches its reset button *)
  set_button_store (show_buttons (flat_map (buttons_of oc_visible) widgets))
    (set_children (fun _ => widgets) s).

(** The property setters (source lines 51-67). *)
Definition set_advanced_visibility_to (value : bool) (s : ConfigBox) : ConfigBox :=
  update_option_visibility (set_advanced_visibility (fun _ => value) s).

Definition set_filter_to (value : string) (s : ConfigBox) : ConfigBox :=
  update_option_visibility (set_filter (fun _ => value) s).

(** [self.show_all()]: every descendant not flagged no-show-all is shown. *)
Fixpoint show_all_widget (w : widget) : widget :=
  match w with
  | OptionContainer c => if oc_no_show_all c then w else OptionContainer (oc_show c)
  | SectionFrame id section _ vbox => SectionFrame id section true (map show_all_widget vbox)
  | Plain name v no_show_all => if no_show_all then w else Plain name true no_show_all
  end.

Definition show_all (s : ConfigBox) : ConfigBox :=
  set_button_store
    (show_buttons (flat_map (buttons_of (fun c => negb (oc_no_show_all c))) (children s)))
    (set_children (map show_all_widget) s).

Section Engine.

Variable ext : Externals.

Local Open Scope py_scope.

(** *** Dictionary accesses through [self.config] and [self.raw_config] *)

(** [d[key]] on a descriptor *)
Definition getitem {S A} (key : string) (field : option A) : M S A :=
  match field with
  | Some v => ret v
  | None => raise (KeyError key)
  end.

(** [self.config.get(k)] *)
Definition config_get (k : string) : M ConfigBox pyval :=
  fun s =>
    match config s with
    | None => (Raise (AttributeError "'NoneType' object has no attribute 'get'"), s)
    | Some sec => (Normal (dict_get (effective_of sec (lutris_config s)) k), s)
    end.

(** [self.config[k]] *)
Definition config_getitem (k : string) : M ConfigBox pyval :=
  fun s =>
    match config s with
    | None => (Raise (TypeError "'NoneType' object is not subscriptable"), s)
    | Some sec =>
        match effective_of sec (lutris_config s) !! k with
        | Some v => (Normal v, s)
        | None => (Raise (KeyError k), s)
        end
    end.

(** [self.config[k] = v] *)
Definition config_setitem (k : string) (v : pyval) : M ConfigBox unit :=
  fun s =>
    match config s with
    | None => (Raise (TypeError "'NoneType' object does not support item assignment"), s)
    | Some sec => (Normal tt, set_lutris_config (update_effective sec (insert k v)) s)
    end.

(** [self.raw_config[k] = v] *)
Definition raw_config_setitem (k : string) (v : pyval) : M ConfigBox unit :=
  fun s =>
    match raw_config s with
    | None => (Raise (TypeError "'NoneType' object does not support item assignment"), s)
    | Some sec => (Normal tt, set_lutris_config (update_raw sec (insert k v)) s)
    end.

(** [k in self.raw_config] *)
Definition raw_config_contains (k : string) : M ConfigBox bool :=
  fun s =>
    match raw_config s with
    | None => (Raise (TypeError "argument of type 'NoneType' is not iterable"), s)
    | Some sec => (Normal (bool_decide (is_Some (raw_of sec (lutris_config s) !! k))), s)
    end.

(** [self.raw_config.pop(k, None)] *)
Definition raw_config_pop (k : string) : M ConfigBox unit :=
  fun s =>
    match raw_config s with
    | None => (Raise (AttributeError "'NoneType' object has no attribute 'pop'"), s)
    | Some sec => (Normal tt, set_lutris_config (update_raw sec (delete k)) s)
    end.

(** *** Styling and validation (source lines 287-294, 341-347) *)

Definition set_style_property (property_ value : string) (wrapper : nat)
    (s : ConfigBox) : ConfigBox :=
  set_wrapper_store (alter (w_add_style property_ value) wrapper) s.

(** [box.update_warning(self.lutris_config)] *)
Definition update_warning (box : nat) (s : ConfigBox) : ConfigBox :=
  set_validation_log (fun l => l ++ [box]) s.

Definition update_warnings (s : ConfigBox) : ConfigBox :=
  let s :=
    foldl (fun s box_list => foldl (fun s box => update_warning box s) s box_list)
      s (map snd (warning_boxes s)) in
  foldl (fun s box_list => foldl (fun s box => update_warning box s) s box_list)
    s (map snd (error_boxes s)).

(** *** The widget generator (source lines 120-133) *)

(** The [default_directory] given to a new generator. *)
Definition get_widget_generator (s : ConfigBox) : pyval :=
  match game s with
  | Some g =>
      if str_truthy (directory g) then VStr (directory g)
      else if has_runner g then VStr (runner_working_dir g)
      else
        let game_path := dict_get (system_config (lutris_config s)) "game_path" in
        if py_truthy game_path then game_path else VStr (expanduser ext "~")
  | None =>
      let game_path := dict_get (system_config (lutris_config s)) "game_path" in
      if py_truthy game_path then game_path else VStr (expanduser ext "~")
  end.

Definition fresh : M ConfigBox nat :=
  fun s => (Normal (next_id s), set_next_id S s).

(** Creation of a reset button, and of a message box. *)
Definition new_reset_button (b : reset_button) : M ConfigBox nat :=
  let* id := fresh in
  modify (set_button_store (insert id b)) ;;
  ret id.

Definition new_message_box (b : message_box) : M ConfigBox nat :=
  let* id := fresh in
  modify (set_message_store (insert id b)) ;;
  ret id.

(** Creation of message boxes, one per tag. *)
Fixpoint new_boxes (kind : box_kind) (key : option string) (wrapper : option nat)
    (tags : list pyval) : M ConfigBox (list nat) :=
  match tags with
  | [] => ret []
  | tag :: tags' =>
      let* box := new_message_box {| mb_kind := kind; mb_tag := tag;
                                     mb_key := key; mb_wrapper := wrapper |} in
      let* rest := new_boxes kind key wrapper tags' in
      ret (box :: rest)
  end.

(** [gen.generate_widget(opt, value, wrapper=wrapper)]: the wrapper
    holding the control, what the generator reports, and the error
    widgets it created. With no wrapper given a new one is made. *)
Definition gen_generate_widget (gen : pyval) (opt : option_dict) (value : pyval)
    (wrapper : option nat) : M ConfigBox (nat * gen_output * list nat) :=
  match generate_widget ext gen opt value with
  | inl ex => raise ex
  | inr out =>
      let* w :=
        match wrapper with
        | Some w => modify (set_wrapper_store (alter (w_rebuild opt value) w)) ;; ret w
        | None =>
            let* w := fresh in
            modify (set_wrapper_store (insert w (new_wrapper opt value))) ;; ret w
        end in
      let* errors := new_boxes GeneratorErrorBox (o_option opt) (Some w) (error_widgets out) in
      ret (w, out, errors)
  end.

(** *** The edit handler (source lines 296-309) *)

Definition on_option_changed (option_name : string) (value : pyval) : M ConfigBox unit :=
  raw_config_setitem option_name value ;;
  config_setitem option_name value ;;
  let* reset_btn := gets (fun s => reset_buttons s !! option_name) in
  let* wrapper := gets (fun s => wrappers s !! option_name) in
  match reset_btn with
  | Some btn => modify (set_button_store (alter (rb_set_visible true) btn))
  | None => ret tt
  end ;;
  match wrapper with
  | Some w => modify (set_style_property "font-weight" "bold" w)
  | None => ret tt
  end ;;
  modify update_warnings.

(** *** The reset handler (source lines 323-339) *)

Definition on_reset_button_clicked (btn : nat) (opt : option_dict) (wrapper : nat)
    : M ConfigBox unit :=
  let* option_key := getitem "option" (o_option opt) in
  let* current_value := config_getitem option_key in
  modify (set_button_store (alter (rb_set_visible false) btn)) ;;
  modify (set_style_property "font-weight" "normal" wrapper) ;;
  raw_config_pop option_key ;;
  modify (set_lutris_config (update_cascaded_config ext)) ;;
  let* reset_value := config_get option_key in
  if py_eqb current_value reset_value then ret tt
  else
    let* gen := gets get_widget_generator in
    gen_generate_widget gen opt reset_value (Some wrapper) ;;
    modify update_warnings.

(** A click on a reset button: the handler runs with the arguments it was
    connected with. *)
Definition click_reset (btn : nat) : M ConfigBox unit :=
  let* b := gets (fun s => button_store s !! btn) in
  match b with
  | Some b => on_reset_button_clicked btn (rb_option b) (rb_wrapper b)
  | None => ret tt
  end.

(** *** The render pass (source lines 135-285) *)

(** The local variables of [generate_widgets] that outlive one iteration
    of its loop, next to the form itself. [current_vbox] is [None] for
    the form and [Some id] for the [vbox] of the section frame [id]. *)
Record pass := {
  self : ConfigBox;
  current_section : option string;
  current_vbox : option nat
}.

Definition on_self {A} (m : M ConfigBox A) : M pass A :=
  fun p =>
    let '(r, s) := m (self p) in
    (r, {| self := s; current_section := current_section p;
           current_vbox := current_vbox p |}).

Definition set_current_section (v : option string) : M pass unit :=
  modify (fun p => {| self := self p; current_section := v;
                      current_vbox := current_vbox p |}).

Definition set_current_vbox (v : option nat) : M pass unit :=
  modify (fun p => {| self := self p; current_section := current_section p;
                      current_vbox := v |}).

(** Calling a producer stored in field [field] of the descriptor of
    [option_key]. *)
Definition call_producer (option_key field : string) (f : pyval) : M ConfigBox pyval :=
  match f with
  | VCallable c r =>
      modify (set_calls (fun l => l ++ [(option_key, field, c)])) ;;
      match r with
      | inl ex => raise ex
      | inr v => ret v
      end
  | _ => raise (TypeError "object is not callable")
  end.

(** [vbox.pack_start(w, ...)] where [vbox] is the form or the box of a
    section frame. *)
Definition pack_in_frame (frame : nat) (w : widget) (ws : list widget) : list widget :=
  map (fun x =>
         match x with
         | SectionFrame id section v vbox =>
             if Nat.eqb id frame then SectionFrame id section v (vbox ++ [w]) else x
         | _ => x
         end) ws.

Definition pack_start (vbox : option nat) (w : widget) (s : ConfigBox) : ConfigBox :=
  set_children
    (fun ch => match vbox with
               | None => ch ++ [w]
               | Some frame => pack_in_frame frame w ch
               end) s.

Definition newlines : string := String "010" (String "010" EmptyString).

(** [helptext + "\n\n" if helptext else ""] *)
Definition help_prefix (helptext : option string) : string :=
  match helptext with
  | Some h => if str_truthy h then h +:+ newlines else ""
  | None => ""
  end.

Definition italic_note : string :=
  "<i>(Italic indicates that this option is modified in a lower configuration level.)</i>".

(** Resolution of the [visible] entry (source lines 171-176). *)
Definition resolve_visible (option_key : string) (opt : option_dict)
    : M ConfigBox option_dict :=
  match o_visible opt with
  | Some visible =>
      let* visible :=
        if callable visible
        then call_producer option_key "visible" visible
        else ret visible in
      if negb (py_truthy visible) then continue
      else ret (set_o_visible visible opt)
  | None => ret opt
  end.

(** Resolution of the [choices] entry (source lines 178-179). *)
Definition resolve_choices (option_key : string) (opt : option_dict)
    : M ConfigBox option_dict :=
  if callable (o_get (o_choices opt)) then
    let* type := getitem "type" (o_type opt) in
    if negb (String.eqb type "choice_with_search") then
      let* choices := call_producer option_key "choices" (o_get (o_choices opt)) in
      ret (set_o_choices choices opt)
    else ret opt
  else ret opt.

(** Resolution of the [condition] entry (source lines 180-181). *)
Definition resolve_condition (option_key : string) (opt : option_dict)
    : M ConfigBox option_dict :=
  if callable (o_get (o_condition opt)) then
    let* condition := call_producer option_key "condition" (o_get (o_condition opt)) in
    ret (set_o_condition condition opt)
  else ret opt.

(** The first part of the body of the [try] statement (source lines
    165-181): the scope test, the effective value, and the resolution of
    the producers. Returns the option key, the value and the descriptor
    with its resolved fields; [option0] is the copy of the descriptor. *)
Definition resolve_option (option0 : option_dict)
    : M ConfigBox (string * pyval * option_dict) :=
  let opt := option0 in
  let* level := gets config_level in
  match o_scope opt with
  | Some scope => if negb (bool_decide (level ∈ scope)) then continue else ret tt
  | None => ret tt
  end ;;
  let* option_key := getitem "option" (o_option opt) in
  let* value := config_get option_key in
  let* opt := resolve_visible option_key opt in
  let* opt := resolve_choices option_key opt in
  let* opt := resolve_condition option_key opt in
  ret (option_key, value, opt).

(** The section switch (source lines 183-190). *)
Definition enter_section (opt : option_dict) : M pass unit :=
  let* section := gets current_section in
  if bool_decide (o_section opt ≠ section) then
    set_current_section (o_section opt) ;;
    match o_section opt with
    | Some name =>
        if str_truthy name then
          let* frame := on_self fresh in
          set_current_vbox (Some frame) ;;
          on_self (modify (pack_start None (SectionFrame frame name false [])))
        else set_current_vbox None
    | None => set_current_vbox None
    end
  else ret tt.

(** The construction of the row (source lines 192-278): the container
    that line 279 packs. *)
Definition build_row (gen : pyval) (opt : option_dict) (option_key : string)
    (value : pyval) : M ConfigBox option_container :=
  (* Generate option widget *)
  let* generated := gen_generate_widget gen opt value None in
  let wrapper := generated.1.1 in
  let default_ := default_value generated.1.2 in
  let tooltip_default := tooltip_default generated.1.2 in
  modify (set_wrappers (insert option_key wrapper)) ;;
  let* in_raw := raw_config_contains option_key in
  (if in_raw then modify (set_style_property "font-weight" "bold" wrapper)
   else if py_neb value default_
        then modify (set_style_property "font-style" "italic" wrapper)
        else ret tt) ;;
  (* Reset button *)
  let* reset_btn := new_reset_button {| rb_visible := false; rb_no_show_all := false;
                                        rb_option := opt; rb_wrapper := wrapper |} in
  modify (set_reset_buttons (insert option_key reset_btn)) ;;
  let* in_raw := raw_config_contains option_key in
  (if negb in_raw
   then modify (set_button_store
                  (alter (fun b => rb_set_no_show_all true (rb_set_visible false b))
                         reset_btn))
   else ret tt) ;;
  (* Tooltip *)
  let helptext := o_help opt in
  let helptext :=
    match tooltip_default with
    | VStr text => Some (help_prefix helptext +:+ "<b>Default</b>: " +:+ text)
    | _ => helptext
    end in
  let* from_below :=
    if py_neb value default_
    then (let* in_raw := raw_config_contains option_key in ret (negb in_raw))
    else ret false in
  let helptext :=
    if from_below then Some (help_prefix helptext +:+ italic_note) else helptext in
  match helptext with
  | Some text =>
      if str_truthy text
      then modify (set_wrapper_store (alter (w_set_tooltip text) wrapper))
      else ret tt
  | None => ret tt
  end ;;
  (* Grey out option if condition unmet *)
  match o_condition opt with
  | Some condition =>
      if negb (py_truthy condition)
      then modify (set_wrapper_store (alter (w_set_sensitive false) wrapper))
      else ret tt
  | None => ret tt
  end ;;
  let* warnings :=
    match o_warning opt with
    | Some tag =>
        let* warning := new_message_box {| mb_kind := WarningBox; mb_tag := tag;
                                           mb_key := Some option_key;
                                           mb_wrapper := None |} in
        modify (update_warning warning) ;;
        modify (set_warning_boxes (dd_append option_key warning)) ;;
        ret [warning]
    | None => ret []
    end in
  let* error_widgets :=
    match o_error opt with
    | Some tag =>
        let* error := new_message_box {| mb_kind := ErrorBox; mb_tag := tag;
                                         mb_key := Some option_key;
                                         mb_wrapper := Some wrapper |} in
        modify (update_warning error) ;;
        ret (generated.2 ++ [error])
    | None => ret generated.2
    end in
  modify (set_error_boxes
            (fun d => foldl (fun d error_widget => dd_append option_key error_widget d)
                        d error_widgets)) ;;
  (* Hide if advanced *)
  let advanced := py_truthy (o_get (o_advanced opt)) in
  let* label := getitem "label" (o_label opt) in
  ret {| lutris_option_key := option_key;
         lutris_option_label := label;
         lutris_option_helptext := default "" (o_help opt);
         oc_advanced := advanced;
         oc_visible := true;
         oc_no_show_all := false;
         oc_wrapper := wrapper;
         oc_reset_btn := reset_btn;
         oc_messages := warnings ++ error_widgets |}.

(** The body of the [try] statement for one descriptor (source lines
    165-279). *)
Definition generate_option (gen : pyval) (option0 : option_dict) : M pass unit :=
  let* resolved := on_self (resolve_option option0) in
  let option_key := resolved.1.1 in
  let value := resolved.1.2 in
  let opt := resolved.2 in
  enter_section opt ;;
  let* option_container := on_self (build_row gen opt option_key value) in
  let* vbox := gets current_vbox in
  on_self (modify (pack_start vbox (OptionContainer option_container))).

(** One iteration of the loop: the [try] body, and the [except Exception]
    clause logging the failure under [option.get("option")]. *)
Definition generate_option_guarded (gen : pyval) (option0 : option_dict) (p : pass) : pass :=
  match generate_option gen option0 p with
  | (Raise ex, p') =>
      {| self := set_log (fun l => l ++ [(default VNone (VStr <$> o_option option0), ex)]) (self p');
         current_section := current_section p';
         current_vbox := current_vbox p' |}
  | (_, p') => p'
  end.

(** Select config section (source lines 146-154). *)
Definition select_config_section (s : ConfigBox) : ConfigBox :=
  match config_section s with
  | Some SecGame => set_config (fun _ => Some SecGame) (set_raw_config (fun _ => Some SecGame) s)
  | Some SecRunner => set_config (fun _ => Some SecRunner) (set_raw_config (fun _ => Some SecRunner) s)
  | Some SecSystem => set_config (fun _ => Some SecSystem) (set_raw_config (fun _ => Some SecSystem) s)
  | None => s
  end.

(** The loop over [self.options]. *)
Definition generate_rows (gen : pyval) (opts : list option_dict) (p : pass) : pass :=
  foldl (fun p option0 => generate_option_guarded gen option0 p) p opts.

Definition generate_widgets (s : ConfigBox) : ConfigBox :=
  match options s with
  | [] =>
      show_all (set_children (fun ch => ch ++ [Plain "no_options_label" false false]) s)
  | _ :: _ =>
      let s := select_config_section s in
      let gen := get_widget_generator s in
      let p := generate_rows gen (options s)
                 {| self := s; current_section := None; current_vbox := None |} in
      let s := show_all (self p) in
      let s := set_settings_reads S s in
      let show_advanced := py_eqb (read_setting ext "show_advanced_options") (VStr "True") in
      set_advanced_visibility_to show_advanced s
  end.

End Engine.

(** ** The cascade of the configuration store *)

(** Modelled from the spec: [LutrisConfig.update_cascaded_config], which
    is not part of the modelled file. The specification describes it as
    recomputing the effective values from the ancestor layers after a key
    was removed from the raw dictionary: in every section the effective
    dictionary becomes the raw dictionary of this layer laid over the
    values the ancestor layers supply. *)
Definition cascade_update (lc : LutrisConfig) : LutrisConfig :=
  {| game_config := raw_game_config lc ∪ inherited_game lc;
     raw_game_config := raw_game_config lc;
     runner_config := raw_runner_config lc ∪ inherited_runner lc;
     raw_runner_config := raw_runner_config lc;
     system_config := raw_system_config lc ∪ inherited_system lc;
     raw_system_config := raw_system_config lc;
     inherited_game := inherited_game lc;
     inherited_runner := inherited_runner lc;
     inherited_system := inherited_system lc |}.

(** The externals with the cascade of the specification, for a given
    widget generator and settings. *)
Definition with_cascade (ext : Externals) : Externals :=
  {| generate_widget := generate_widget ext;
     update_cascaded_config := cascade_update;
     read_setting := read_setting ext;
     expanduser := expanduser ext |}.

(** ** Sample collaborators and forms, used to run the model *)

(** A generator that fails on descriptors of type ["broken"], and
    otherwise reports the descriptor's ["default"] entry as default value
    and no error widgets. *)
Definition sample_generate_widget (dir : pyval) (opt : option_dict) (value : pyval)
    : exn + gen_output :=
  if bool_decide (o_type opt = Some "broken")
  then inl (Raised "unknown widget type")
  else inr {| default_value := o_get (o_default opt);
              tooltip_default := VNone;
              error_widgets := [] |}.

Definition sample_ext (show_advanced : string) : Externals :=
  {| generate_widget := sample_generate_widget;
     update_cascaded_config := cascade_update;
     read_setting := fun name =>
       if String.eqb name "show_advanced_options" then VStr show_advanced else VNone;
     expanduser := fun _ => "/home/user" |}.

Definition empty_option : option_dict :=
  {| o_option := None; o_type := None; o_label := None; o_help := None;
     o_section := None; o_scope := None; o_advanced := None; o_visible := None;
     o_choices := None; o_condition := None; o_warning := None; o_error := None;
     o_default := None |}.

(** A descriptor with a key, a type, a label and a section. *)
Definition simple_option (key type label : string) (section : option string) : option_dict :=
  {| o_option := Some key; o_type := Some type; o_label := Some label; o_help := None;
     o_section := section; o_scope := None; o_advanced := None; o_visible := None;
     o_choices := None; o_condition := None; o_warning := None; o_error := None;
     o_default := None |}.

Definition empty_config : LutrisConfig :=
  {| game_config := ∅; raw_game_config := ∅; runner_config := ∅;
     raw_runner_config := ∅; system_config := ∅; raw_system_config := ∅;
     inherited_game := ∅; inherited_runner := ∅; inherited_system := ∅ |}.

(** A form as [__init__] leaves it, for the system section. *)
Definition new_box (level : string) (lc : LutrisConfig) (opts : list option_dict) : ConfigBox :=
  {| options := opts; config_level := level; lutris_config := lc; game := None;
     config_section := Some SecSystem; config := None; raw_config := None;
     reset_buttons := ∅; wrappers := ∅; warning_boxes := []; error_boxes := [];
     _advanced_visibility := false; _filter := ""; children := [];
     button_store := ∅; wrapper_store := ∅; message_store := ∅; next_id := 0;
     log := []; calls := []; validation_log := []; settings_reads := 0 |}.

(** ** Notions the properties are stated with *)

(** *** Case-insensitive matching, as the specification words it *)

(** [a] and [b] are the same character, or the upper-case and lower-case
    forms of the same letter. *)
Definition upper_of (a b : ascii) : Prop :=
  (65 <= N_of_ascii a <= 90)%N /\ N_of_ascii b = (N_of_ascii a + 32)%N.

Definition same_letter (a b : ascii) : Prop :=
  a = b \/ upper_of a b \/ upper_of b a.

Fixpoint same_ignoring_case (s t : string) : Prop :=
  match s, t with
  | EmptyString, EmptyString => True
  | String a s', String b t' => same_letter a b /\ same_ignoring_case s' t'
  | _, _ => False
  end.

(** [needle] occurs in [hay] when letter case is ignored. *)
Definition caseless_substring (needle hay : string) : Prop :=
  exists pre mid post,
    hay = pre +:+ mid +:+ post /\ same_ignoring_case mid needle.

(** *** Matching, as the source decides it *)

(** [needle] occurs in [hay]: what [needle in hay] decides. *)
Definition occurs_in (needle hay : string) : Prop :=
  exists pre post, hay = pre +:+ needle +:+ post.

(** [str.lower] lowers [t] as it lowers ASCII text; it does so for every
    text of ASCII characters. *)
Definition lowers_as_ascii (t : string) : Prop := lower t = ascii_lower t.

(** *** What a reset shows of a button and of a control *)

(** The button [b] is hidden in [st'], and is otherwise as it was in
    [st]. *)
Definition button_hidden (b : nat) (st st' : gmap nat reset_button) : Prop :=
  forall rb, st !! b = Some rb ->
    exists rb', st' !! b = Some rb' /\
      rb_visible rb' = false /\
      rb_no_show_all rb' = rb_no_show_all rb /\
      rb_option rb' = rb_option rb /\
      rb_wrapper rb' = rb_wrapper rb.

(** The control of the wrapper [w] is in [st'] the one it was in [st]:
    built as many times, for the same descriptor and value. *)
Definition control_kept (w : nat) (st st' : gmap nat wrapper_box) : Prop :=
  forall wb, st !! w = Some wb ->
    exists wb', st' !! w = Some wb' /\
      w_builds wb' = w_builds wb /\
      w_option wb' = w_option wb /\
      w_value wb' = w_value wb.

(** The control of the wrapper [w] was built once more between [st] and
    [st'], for the descriptor [o] and the value [v]. *)
Definition control_rebuilt (w : nat) (o : option_dict) (v : pyval)
    (st st' : gmap nat wrapper_box) : Prop :=
  forall wb, st !! w = Some wb ->
    exists wb', st' !! w = Some wb' /\
      w_builds wb' = S (w_builds wb) /\
      w_option wb' = o /\
      w_value wb' = v.

(** The weight of the wrapper [w] is back to normal in [st']. *)
Definition weight_cleared (w : nat) (st st' : gmap nat wrapper_box) : Prop :=
  forall wb, st !! w = Some wb ->
    exists wb', st' !! w = Some wb' /\
      style_value "font-weight" (w_styles wb') = Some "normal" /\
      rendered_weight wb' <> bold.

(** *** Widget trees *)

(** [widget_in w ws]: [w] occurs in the tree [ws], at any depth. *)
Inductive widget_in (w : widget) : list widget -> Prop :=
| widget_in_here ws : w ∈ ws -> widget_in w ws
| widget_in_frame id section v vbox ws :
    SectionFrame id section v vbox ∈ ws -> widget_in w vbox -> widget_in w ws.

(** A leaf (an option row or another plain widget) that is shown. *)
Definition visible_leaf (w : widget) : Prop :=
  match w with
  | OptionContainer c => oc_visible c = true
  | Plain _ v _ => v = true
  | SectionFrame _ _ _ _ => False
  end.

Definition is_row (w : widget) : Prop :=
  match w with OptionContainer _ => True | _ => False end.

(** The tree with every visibility flag erased: what a change of
    visibility leaves untouched. *)
Fixpoint erase_visibility (w : widget) : widget :=
  match w with
  | OptionContainer c => OptionContainer (oc_set_visibility false c)
  | SectionFrame id section _ vbox => SectionFrame id section false (map erase_visibility vbox)
  | Plain name _ _ => Plain name false false
  end.

(** The option rows of a tree, in display order. *)
Fixpoint rows_of (w : widget) : list option_container :=
  match w with
  | OptionContainer c => [c]
  | SectionFrame _ _ _ vbox => flat_map rows_of vbox
  | Plain _ _ _ => []
  end.

Definition rows (ws : list widget) : list option_container := flat_map rows_of ws.

(** The number of shown leaves below a widget. *)
Fixpoint visible_leaves (w : widget) : nat :=
  match w with
  | OptionContainer c => if oc_visible c then 1 else 0
  | Plain _ v _ => if v then 1 else 0
  | SectionFrame _ _ _ vbox => sum_list (map visible_leaves vbox)
  end.

Definition visible_count (ws : list widget) : nat := sum_list (map visible_leaves ws).

(** What the visibility engine establishes at one node of the tree, for
    the settings [adv] and the lowered filter [filter_text]. *)
Definition settled (adv : bool) (filter_text : string) (w : widget) : Prop :=
  match w with
  | OptionContainer c =>
      oc_visible c = row_visible adv filter_text c /\ oc_no_show_all c = negb (oc_visible c)
  | SectionFrame _ _ v vbox => v = (0 <? visible_count vbox)
  | Plain _ v _ => v = true
  end.

(** *** A rendered form used in examples

    Two rows in a section and one row outside of it, rendered with
    advanced options hidden: the first row is labelled "Wine version",
    the second is an advanced option. *)
Definition wine_options : list option_dict :=
  [ simple_option "version" "choice" "Wine version" (Some "Wine");
    {| o_option := Some "dxvk"; o_type := Some "bool"; o_label := Some "Enable DXVK";
       o_help := Some "Use the Vulkan backend"; o_section := Some "Wine";
       o_scope := None; o_advanced := Some (VBool true); o_visible := None;
       o_choices := None; o_condition := None; o_warning := Some (VStr "check");
       o_error := None; o_default := Some (VBool false) |};
    simple_option "prefix" "directory" "Prefix" None ].

Definition wine_config : LutrisConfig :=
  {| game_config := ∅; raw_game_config := ∅; runner_config := ∅;
     raw_runner_config := ∅;
     system_config := {[ "version" := VStr "9.0"; "dxvk" := VBool true; "prefix" := VStr "/p" ]};
     raw_system_config := {[ "version" := VStr "9.0" ]};
     inherited_game := ∅; inherited_runner := ∅;
     inherited_system := {[ "version" := VStr "8.0"; "dxvk" := VBool true; "prefix" := VStr "/p" ]} |}.

Definition wine_box : ConfigBox :=
  generate_widgets (sample_ext "False") (new_box "system" wine_config wine_options).

(** *** A form with one overridden option and nothing inherited

    The raw dictionary overrides the only option, and no other layer
    supplies a value for it: once the key is reset, the effective
    dictionary does not hold it any more. *)
Definition only_option : option_dict := simple_option "only" "bool" "Only" None.

Definition only_config : LutrisConfig :=
  {| game_config := ∅; raw_game_config := ∅; runner_config := ∅;
     raw_runner_config := ∅;
     system_config := {[ "only" := VBool true ]};
     raw_system_config := {[ "only" := VBool true ]};
     inherited_game := ∅; inherited_runner := ∅; inherited_system := ∅ |}.

Definition only_box : ConfigBox :=
  generate_widgets (sample_ext "False") (new_box "system" only_config [only_option]).

(** *** A form with a Greek label *)
Definition odos_option : option_dict := simple_option "street" "string" "ΟΔΟΣ" None.

Definition odos_box : ConfigBox :=
  generate_widgets (sample_ext "False") (new_box "system" empty_config [odos_option]).

(** *** A form with a row that fails late

    The first descriptor has no ["label"] entry: building its row fails
    at the very end (source line 277), after its wrapper and reset button
    were registered. *)
Definition unlabelled_option : option_dict :=
  {| o_option := Some "nolabel"; o_type := Some "bool"; o_label := None;
     o_help := None; o_section := None; o_scope := None; o_advanced := None;
     o_visible := None; o_choices := None; o_condition := None;
     o_warning := None; o_error := None; o_default := None |}.

Definition unlabelled_box : ConfigBox :=
  generate_widgets (sample_ext "False")
    (new_box "system" empty_config [unlabelled_option; simple_option "ok" "bool" "Ok" None]).

(** *** Edit followed by reset *)

(** The state after [on_option_changed k v] followed by the reset handler
    of the row, whatever the outcome of the two calls. *)
Definition edit_then_reset (ext : Externals) (k : string) (v : pyval)
    (btn : nat) (opt : option_dict) (wrapper : nat) (s : ConfigBox) : ConfigBox :=
  (on_reset_button_clicked ext btn opt wrapper (on_option_changed k v s).2).2.

(** The round trip restores the effective entry of [k] and leaves [k]
    out of the raw dictionary. *)
Definition roundtrip_restores (ext : Externals) (k : string) (v : pyval)
    (btn : nat) (opt : option_dict) (wrapper : nat) (sec : section_name)
    (s : ConfigBox) : Prop :=
  let s' := edit_then_reset ext k v btn opt wrapper s in
  effective_of sec (lutris_config s') !! k = effective_of sec (lutris_config s) !! k /\
  raw_of sec (lutris_config s') !! k = None.

(** The invariant of the layer state: both references are bound
    together, and every key of the raw dictionary is a key of the
    effective dictionary. *)
Definition raw_within_effective (s : ConfigBox) : Prop :=
  config s = raw_config s /\
  forall sec, config s = Some sec ->
    dom (raw_of sec (lutris_config s)) ⊆ dom (effective_of sec (lutris_config s)).

(** The descriptor the reset button of the "version" row of the sample
    form was connected with. *)
Definition version_option : option_dict :=
  simple_option "version" "choice" "Wine version" (Some "Wine").

(** *** Reasoning about computations *)

(** [hoare P m Q]: from a state satisfying [P], the computation [m] ends
    with an outcome and a state satisfying [Q]. *)
Definition hoare {S A} (P : S -> Prop) (m : M S A) (Q : outcome A -> S -> Prop) : Prop :=
  forall s, P s -> Q (m s).1 (m s).2.

(** The part of the form a render pass only reads. *)
Definition env (s : ConfigBox) :=
  (options s, config_level s, lutris_config s, game s, config_section s,
   config s, raw_config s, _advanced_visibility s, _filter s, settings_reads s).

(** No object is stored under an identity that is still to be handed
    out. *)
Definition store_fresh (s : ConfigBox) : Prop :=
  forall id, next_id s <= id ->
    wrapper_store s !! id = None /\
    button_store s !! id = None /\
    message_store s !! id = None.

(** The style providers the render pass adds to a new wrapper (source
    lines 199-202). *)
Definition styles_for (in_raw : bool) (value default_ : pyval) : list (string * string) :=
  if in_raw then [("font-weight", "bold")]
  else if py_neb value default_ then [("font-style", "italic")]
  else [].

(** The weight the specification assigns to a key: bold when the raw
    dictionary holds it, italic when it does not and the effective value
    differs from the default, plain otherwise. *)
Definition weight_for (raw : gmap string pyval) (k : string) (value default_ : pyval)
    : weight :=
  match raw !! k with
  | Some _ => bold
  | None => if py_eqb value default_ then plain else italic
  end.

(** What holds of a state [s] reached from [s0] while a row is being
    built: nothing of the environment, the tree and the logs has changed,
    and the wrappers that existed in [s0] are untouched. *)
Definition building (s0 s : ConfigBox) : Prop :=
  env s = env s0 /\
  children s = children s0 /\
  log s = log s0 /\
  calls s = calls s0 /\
  next_id s0 <= next_id s /\
  (forall id, id < next_id s0 -> wrapper_store s !! id = wrapper_store s0 !! id) /\
  store_fresh s.

(** In addition, the wrapper [w] of the row has been created for [opt]
    and [value] and carries the style providers [styles]. *)
Definition wrapper_built (opt : option_dict) (value : pyval)
    (styles : list (string * string)) (w : nat) (s0 s : ConfigBox) : Prop :=
  building s0 s /\
  w = next_id s0 /\
  w < next_id s /\
  exists wb, wrapper_store s !! w = Some wb /\
             w_option wb = opt /\ w_value wb = value /\
             w_builds wb = 1 /\ w_styles wb = styles.

(** A change of state that the construction of the row of wrapper [w]
    tolerates: it leaves the environment, the tree and the logs alone,
    hands out identities only upwards, and may change, of wrapper [w],
    only its sensitivity and tooltip. *)
Definition benign (w : nat) (s s' : ConfigBox) : Prop :=
  env s' = env s /\
  children s' = children s /\
  log s' = log s /\
  calls s' = calls s /\
  next_id s <= next_id s' /\
  (forall id, id <> w -> wrapper_store s' !! id = wrapper_store s !! id) /\
  (forall wb, wrapper_store s !! w = Some wb ->
     exists wb', wrapper_store s' !! w = Some wb' /\
                 w_option wb' = w_option wb /\ w_value wb' = w_value wb /\
                 w_builds wb' = w_builds wb /\ w_styles wb' = w_styles wb) /\
  (store_fresh s -> store_fresh s').

(** [keeps w m]: whatever its outcome, [m] changes the state in a way
    the construction of the row of wrapper [w] tolerates. *)
Definition keeps {A} (w : nat) (m : M ConfigBox A) : Prop :=
  forall s, benign w s (m s).2.

(** [returns V m]: [m] never ends in [continue], and a value it returns
    satisfies [V]. *)
Definition returns {S A} (V : A -> Prop) (m : M S A) : Prop :=
  forall s, match (m s).1 with
            | Normal a => V a
            | Continue => False
            | Raise _ => True
            end.

(** *** Producers and their resolution *)

(** The state with [new] appended to the record of producer calls. *)
Definition add_calls (new : list (string * string * nat)) (s : ConfigBox) : ConfigBox :=
  set_calls (fun l => l ++ new) s.

(** The calls recorded for one field. *)
Definition calls_of (field : string) (l : list (string * string * nat))
    : list (string * string * nat) :=
  filter (fun e => e.1.2 = field) l.

(** [after] is the entry [before] with a producer replaced by the value
    it returns. *)
Definition resolved_field (before after : option pyval) : Prop :=
  match before with
  | Some (VCallable c ret) => exists v, ret = inr v /\ after = Some v
  | _ => after = before
  end.

(** The entries that no step of the render pass writes. *)
Definition same_static (o o' : option_dict) : Prop :=
  o_option o' = o_option o /\ o_type o' = o_type o /\ o_label o' = o_label o /\
  o_help o' = o_help o /\ o_section o' = o_section o /\ o_scope o' = o_scope o /\
  o_advanced o' = o_advanced o /\ o_warning o' = o_warning o /\
  o_error o' = o_error o /\ o_default o' = o_default o.

(** The producer calls a descriptor gives rise to when all three fields
    are reached. *)
Definition visible_calls (key : string) (o : option_dict) : list (string * string * nat) :=
  match o_visible o with
  | Some (VCallable c _) => [(key, "visible", c)]
  | _ => []
  end.

Definition choices_calls (key : string) (o : option_dict) : list (string * string * nat) :=
  match o_get (o_choices o) with
  | VCallable c _ =>
      if bool_decide (o_type o = Some "choice_with_search") then [] else [(key, "choices", c)]
  | _ => []
  end.

Definition condition_calls (key : string) (o : option_dict) : list (string * string * nat) :=
  match o_get (o_condition o) with
  | VCallable c _ => [(key, "condition", c)]
  | _ => []
  end.

Definition expected_calls (o : option_dict) : list (string * string * nat) :=
  let key := default "" (o_option o) in
  visible_calls key o ++ choices_calls key o ++ condition_calls key o.

(** *** Well-formed forms and passes *)

Definition frame_below (n : nat) (w : widget) : Prop :=
  match w with
  | SectionFrame id _ _ _ => id < n
  | _ => True
  end.

Definition not_frame (f : nat) (w : widget) : Prop :=
  match w with
  | SectionFrame id _ _ _ => id <> f
  | _ => True
  end.

(** Identities are handed out once: nothing is stored under an identity
    still to be handed out, and the frames and the wrappers of the tree
    have identities already handed out. *)
Definition well_formed (s : ConfigBox) : Prop :=
  store_fresh s /\
  Forall (frame_below (next_id s)) (children s) /\
  Forall (fun c => oc_wrapper c < next_id s) (rows (children s)).

(** During a pass, [current_vbox] is the box of the frame packed last. *)
Definition frame_last (p : pass) : Prop :=
  match current_vbox p with
  | None => True
  | Some f =>
      exists pre section v vbox,
        children (self p) = pre ++ [SectionFrame f section v vbox] /\
        Forall (not_frame f) pre
  end.

Definition pass_ok (p : pass) : Prop := well_formed (self p) /\ frame_last p.

(** [rendered_for ext gen o c s]: in state [s], [c] is a row as a render
    pass over a form bound to its configuration builds it for the
    descriptor [o] with the generator of default directory [gen]. The
    wrapper of the row was built once, for the effective value of the
    key and for the descriptor with the results of its producers in place
    of the producers (the choices of a "choice_with_search" option
    excepted), and it carries the style providers of the
    classification. *)
Definition rendered_for (ext : Externals) (gen : pyval) (o : option_dict)
    (c : option_container) (s : ConfigBox) : Prop :=
  exists sec rsec out wb,
    config s = Some sec /\
    raw_config s = Some rsec /\
    o_option o = Some (lutris_option_key c) /\
    o_label o = Some (lutris_option_label c) /\
    lutris_option_helptext c = default "" (o_help o) /\
    oc_advanced c = py_truthy (o_get (o_advanced o)) /\
    wrapper_store s !! oc_wrapper c = Some wb /\
    same_static o (w_option wb) /\
    resolved_field (o_visible o) (o_visible (w_option wb)) /\
    resolved_field (o_condition o) (o_condition (w_option wb)) /\
    (if bool_decide (o_type o = Some "choice_with_search")
     then o_choices (w_option wb) = o_choices o
     else resolved_field (o_choices o) (o_choices (w_option wb))) /\
    w_value wb = dict_get (effective_of sec (lutris_config s)) (lutris_option_key c) /\
    w_builds wb = 1 /\
    generate_widget ext gen (w_option wb) (w_value wb) = inr out /\
    w_styles wb =
      styles_for (bool_decide (is_Some (raw_of rsec (lutris_config s) !! lutris_option_key c)))
        (w_value wb) (default_value out).

(** *** The outcomes of a pass *)

(** The outcome of the [try] body for each descriptor, in the order of
    the loop. *)
Fixpoint pass_outcomes (ext : Externals) (gen : pyval) (opts : list option_dict)
    (p : pass) : list (option_dict * outcome unit) :=
  match opts with
  | [] => []
  | o :: rest =>
      (o, (generate_option ext gen o p).1)
        :: pass_outcomes ext gen rest (generate_option_guarded ext gen o p)
  end.

(** The descriptors whose row was built, and the log entries of those
    whose row failed. *)
Definition built (tr : list (option_dict * outcome unit)) : list option_dict :=
  omap (fun e => match e.2 with Normal _ => Some e.1 | _ => None end) tr.

Definition failed (tr : list (option_dict * outcome unit)) : list (pyval * exn) :=
  omap (fun e => match e.2 with
                 | Raise ex => Some (default VNone (VStr <$> o_option e.1), ex)
                 | _ => None
                 end) tr.

(** The producer calls recorded while a descriptor was processed: some of
    the calls it can give rise to, in order, and all of them when its row
    was built. *)
Definition calls_segment (e : option_dict * outcome unit)
    (segment : list (string * string * nat)) : Prop :=
  segment `prefix_of` expected_calls e.1 /\
  match e.2 with
  | Normal _ => segment = expected_calls e.1
  | _ => True
  end.

(** Two rows that differ in their visibility flags only. *)
Definition same_row (c c' : option_container) : Prop :=
  oc_set_visibility false c = oc_set_visibility false c'.

(** *** A schema with a descriptor that the generator rejects *)

Definition broken_options : list option_dict :=
  [ simple_option "a" "bool" "A" (Some "General");
    simple_option "broken" "broken" "Broken" (Some "General");
    simple_option "b" "bool" "B" (Some "General");
    simple_option "c" "bool" "C" None ].

Definition broken_form : ConfigBox := new_box "system" empty_config broken_options.

(** *** A schema with producers

    The first descriptor has a producer in each of the three fields; the
    second is a "choice_with_search" option whose choices are a
    producer. *)
Definition producer_options : list option_dict :=
  [ {| o_option := Some "res"; o_type := Some "choice"; o_label := Some "Resolution";
       o_help := None; o_section := None; o_scope := None; o_advanced := None;
       o_visible := Some (VCallable 1 (inr (VBool true)));
       o_choices := Some (VCallable 2 (inr (VList [VStr "800x600"; VStr "1024x768"])));
       o_condition := Some (VCallable 3 (inr (VBool false)));
       o_warning := None; o_error := None; o_default := None |};
    {| o_option := Some "version"; o_type := Some "choice_with_search";
       o_label := Some "Wine version";
       o_help := None; o_section := None; o_scope := None; o_advanced := None;
       o_visible := None;
       o_choices := Some (VCallable 4 (inr (VList [VStr "9.0"])));
       o_condition := None;
       o_warning := None; o_error := None; o_default := None |} ].

Definition producer_form : ConfigBox := new_box "system" empty_config producer_options.

(** ** Construction of the form (source lines 30-45, 99-118, 362-371) *)

(** [ConfigBox.__init__], for the class whose [config_section] attribute
    is [section]: [None] for [ConfigBox] itself, the section of the
    subclass otherwise. No option, no binding to a configuration section,
    empty registries, advanced options hidden and an empty filter. *)
Definition ConfigBox_init (section : option section_name) (config_level : string)
    (lutris_config : LutrisConfig) (game : option Game) : ConfigBox :=
  {| options := []; config_level := config_level; lutris_config := lutris_config;
     game := game; config_section := section; config := None; raw_config := None;
     reset_buttons := ∅; wrappers := ∅; warning_boxes := []; error_boxes := [];
     _advanced_visibility := false; _filter := ""; children := [];
     button_store := ∅; wrapper_store := ∅; message_store := ∅; next_id := 0;
     log := []; calls := []; validation_log := []; settings_reads := 0 |}.

(** The markup of the title label of the information box. *)
Definition info_markup (text : string) : string := "<i>" +:+ text +:+ "</i>".

(** [generate_top_info_box(text)]: the help box, named by the markup of
    its title label and shown at once, and a separator, both packed at
    the end of the form. *)
Definition generate_top_info_box (text : string) (s : ConfigBox) : ConfigBox :=
  set_children
    (fun ch => ch ++ [Plain (info_markup text) true false; Plain "HSeparator" false false])
    s.

(** [self.options = opts] *)
Definition with_options (opts : list option_dict) (s : ConfigBox) : ConfigBox :=
  {| options := opts; config_level := config_level s;
     lutris_config := lutris_config s; game := game s;
     config_section := config_section s; config := config s;
     raw_config := raw_config s; reset_buttons := reset_buttons s;
     wrappers := wrappers s; warning_boxes := warning_boxes s;
     error_boxes := error_boxes s;
     _advanced_visibility := _advanced_visibility s; _filter := _filter s;
     children := children s; button_store := button_store s;
     wrapper_store := wrapper_store s; message_store := message_store s;
     next_id := next_id s; log := log s; calls := calls s;
     validation_log := validation_log s;
     settings_reads := settings_reads s |}.

(** A runner, as [GameBox] reads it. *)
Record Runner := { game_options : list option_dict }.

(** [GameBox.__init__] (source lines 365-371), [game_runner] being the
    value of [game.runner]: the form, and the warnings written to the
    logger. *)
Definition GameBox_init (config_level : string) (lutris_config : LutrisConfig)
    (game : Game) (game_runner : option Runner) : ConfigBox * list string :=
  let s := ConfigBox_init (Some SecGame) config_level lutris_config (Some game) in
  match game_runner with
  | Some runner => (with_options (game_options runner) s, [])
  | None => (s, ["No runner in game supplied to GameBox"])
  end.

(** [self.config_level in option["scope"]], for a descriptor with a
    scope; a descriptor without one is in scope at every level (source
    lines 165-167). *)
Definition in_scope (level : string) (o : option_dict) : bool :=
  match o_scope o with
  | Some scope => bool_decide (level ∈ scope)
  | None => true
  end.

(** The log entry of a descriptor whose row fails on a form that is not
    bound to a configuration section: the descriptor has no ["option"]
    entry (source line 169), or [self.config] is [None] (line 170). *)
Definition unbound_failure (o : option_dict) : pyval * exn :=
  (default VNone (VStr <$> o_option o),
   match o_option o with
   | None => KeyError "option"
   | Some _ => AttributeError "'NoneType' object has no attribute 'get'"
   end).

(** A descriptor whose [visible] entry is a producer returning false. *)
Definition hidden_option : option_dict :=
  {| o_option := Some "hidden"; o_type := Some "bool"; o_label := Some "Hidden";
     o_help := None; o_section := Some "Extras"; o_scope := None; o_advanced := None;
     o_visible := Some (VCallable 7 (inr (VBool false)));
     o_choices := Some (VCallable 8 (inr (VList [])));
     o_condition := None; o_warning := None; o_error := None; o_default := None |}.

(** ** What the construction of a row leaves in its wrapper *)

(** The tooltip text of a row (source lines 228-236): the help text of
    the descriptor, followed by the default when the generator reports
    one as a string, followed by a note when the value comes from a lower
    configuration level ([from_below]). *)
Definition tooltip_text (help : option string) (tooltip_default : pyval)
    (from_below : bool) : option string :=
  let helptext :=
    match tooltip_default with
    | VStr text => Some (help_prefix help +:+ "<b>Default</b>: " +:+ text)
    | _ => help
    end in
  if from_below then Some (help_prefix helptext +:+ italic_note) else helptext.

(** The tooltip the wrapper gets (source lines 237-239): the text, when
    it is not empty. *)
Definition row_tooltip (help : option string) (tooltip_default : pyval)
    (from_below : bool) : option string :=
  match tooltip_text help tooltip_default from_below with
  | Some text => if str_truthy text then Some text else None
  | None => None
  end.

(** Whether the wrapper stays sensitive (source lines 248-249). *)
Definition row_sensitive (opt : option_dict) : bool :=
  match o_condition opt with
  | Some condition => py_truthy condition
  | None => true
  end.

(** A widget generator that reports a default value with its tooltip
    text and creates one error widget, used to run the model. *)
Definition tooltip_ext : Externals :=
  {| generate_widget := fun _ opt _ =>
       inr {| default_value := o_get (o_default opt);
              tooltip_default := VStr "off";
              error_widgets := [VStr "invalid"] |};
     update_cascaded_config := cascade_update;
     read_setting := fun _ => VStr "True";
     expanduser := fun _ => "/home/user" |}.

(** A descriptor with a help text and a condition that is not met. *)
Definition esync_option : option_dict :=
  {| o_option := Some "esync"; o_type := Some "bool"; o_label := Some "Enable Esync";
     o_help := Some "Reduces overhead"; o_section := None; o_scope := None;
     o_advanced := None; o_visible := None; o_choices := None;
     o_condition := Some (VBool false); o_warning := None; o_error := None;
     o_default := Some (VBool false) |}.

(** ** What the outcome of a descriptor depends on *)

(** An outcome without the value it returns. *)
Definition shape {A} (r : outcome A) : outcome unit :=
  match r with
  | Normal _ => Normal tt
  | Continue => Continue
  | Raise ex => Raise ex
  end.

(** The outcome of the construction of a row (source lines 192-279) for
    the resolved descriptor [opt] and the value [value]: the generator
    may raise (line 193), [self.raw_config] may be unbound (line 199),
    and the descriptor may have no ["label"] entry (line 277). *)
Definition build_outcome (ext : Externals) (gen : pyval) (opt : option_dict)
    (value : pyval) (raw : option section_name) : outcome unit :=
  match generate_widget ext gen opt value with
  | inl ex => Raise ex
  | inr _ =>
      match raw with
      | None => Raise (TypeError "argument of type 'NoneType' is not iterable")
      | Some _ =>
          match o_label opt with
          | Some _ => Normal tt
          | None => Raise (KeyError "label")
          end
      end
  end.

(** Two forms with the same configuration: the same level, the same
    bindings and the same store. *)
Definition agree (s s' : ConfigBox) : Prop :=
  config_level s = config_level s' /\
  config s = config s' /\
  raw_config s = raw_config s' /\
  lutris_config s = lutris_config s'.

(** A computation whose outcome, with the value it returns, depends on
    the configuration of the form only, and which keeps two forms of the
    same configuration so. *)
Definition configuration_only {A} (m : M ConfigBox A) : Prop :=
  forall s s', agree s s' -> (m s).1 = (m s').1 /\ agree (m s).2 (m s').2.

(** The descriptors of a schema whose outcome, each taken by itself, is
    a normal return, and the log entries of those whose outcome is an
    exception. *)
Definition built_alone (alone : option_dict -> outcome unit) (opts : list option_dict)
    : list option_dict :=
  omap (fun o => match alone o with Normal _ => Some o | _ => None end) opts.

Definition failed_alone (alone : option_dict -> outcome unit) (opts : list option_dict)
    : list (pyval * exn) :=
  omap (fun o => match alone o with
                 | Raise ex => Some (default VNone (VStr <$> o_option o), ex)
                 | _ => None
                 end) opts.

(** A widget that is not a section frame, or a section frame whose box
    holds option rows only. *)
Definition flat (w : widget) : Prop :=
  match w with
  | SectionFrame _ _ _ vbox => Forall is_row vbox
  | _ => True
  end.

(** * Properties *)

(** ** Strings *)

Lemma ascii_lower_char_eq_iff (a b : ascii) :
  ascii_lower_char a = ascii_lower_char b <-> same_letter a b.
Proof.
  unfold ascii_lower_char, same_letter, upper_of.
  pose proof (N_ascii_bounded a) as Ha. pose proof (N_ascii_bounded b) as Hb.
  assert (Hinj : forall x y : ascii, N_of_ascii x = N_of_ascii y -> x = y).
  { intros x y E. rewrite <- (ascii_N_embedding x), <- (ascii_N_embedding y).
    now rewrite E. }
  assert (Hemb : forall n, (n < 256)%N -> N_of_ascii (ascii_of_N n) = n)
    by (intros; now apply N_ascii_embedding).
  destruct ((65 <=? N_of_ascii a)%N && (N_of_ascii a <=? 90)%N) eqn:Ea;
    destruct ((65 <=? N_of_ascii b)%N && (N_of_ascii b <=? 90)%N) eqn:Eb;
    rewrite ?andb_true_iff, ?andb_false_iff, ?N.leb_le, ?N.leb_gt in Ea;
    rewrite ?andb_true_iff, ?andb_false_iff, ?N.leb_le, ?N.leb_gt in Eb.
  - split.
    + intros E. left. apply Hinj. apply (f_equal N_of_ascii) in E.
      rewrite !Hemb in E by lia. lia.
    + intros [-> | [[_ E] | [_ E]]]; [done | lia | lia].
  - split.
    + intros E. right; left. split; [lia |]. rewrite <- E. apply Hemb. lia.
    + intros [-> | [[_ E] | [? E]]]; [lia | | lia].
      apply Hinj. rewrite Hemb by lia. lia.
  - split.
    + intros E. right; right. split; [lia |]. rewrite E. apply Hemb. lia.
    + intros [-> | [[? E] | [_ E]]]; [lia | lia |].
      apply Hinj. rewrite Hemb by lia. lia.
  - split.
    + intros ->. now left.
    + intros [-> | [[? E] | [? E]]]; [done | lia | lia].
Qed.

Lemma ascii_lower_eq_iff (s t : string) :
  ascii_lower s = ascii_lower t <-> same_ignoring_case s t.
Proof.
  revert t. induction s as [| a s IH]; intros [| b t]; simpl; try (split; [discriminate | tauto]).
  - tauto.
  - rewrite <- IH, <- ascii_lower_char_eq_iff. split.
    + intros E. injection E. tauto.
    + intros [-> ->]. done.
Qed.

Lemma ascii_lower_app (s t : string) : ascii_lower (s +:+ t) = ascii_lower s +:+ ascii_lower t.
Proof. induction s as [| a s IH]; simpl; [done | now rewrite IH]. Qed.

Lemma ascii_lower_app_inv (h x y : string) :
  ascii_lower h = x +:+ y -> exists h1 h2, h = h1 +:+ h2 /\ ascii_lower h1 = x /\ ascii_lower h2 = y.
Proof.
  revert h. induction x as [| a x IH]; intros h E; simpl in E.
  - exists EmptyString, h. done.
  - destruct h as [| b h]; simpl in E; [discriminate |].
    injection E as Ea E. destruct (IH h E) as (h1 & h2 & -> & <- & <-).
    exists (String b h1), h2. simpl. now rewrite Ea.
Qed.

Lemma is_prefix_spec (p s : string) :
  is_prefix p s = true <-> exists post, s = p +:+ post.
Proof.
  revert s. induction p as [| a p IH]; intros s; simpl.
  - split; [intros _; now exists s | done].
  - destruct s as [| b s].
    + split; [discriminate | intros [post E]; discriminate].
    + rewrite andb_true_iff, Ascii.eqb_eq, IH. split.
      * intros [-> [post ->]]. now exists post.
      * intros [post E]. injection E as -> ->. split; [done | now exists post].
Qed.

Lemma str_in_spec (needle hay : string) :
  str_in needle hay = true <-> exists pre post, hay = pre +:+ needle +:+ post.
Proof.
  induction hay as [| b hay IH]; simpl.
  - destruct (is_prefix needle EmptyString) eqn:E.
    + apply is_prefix_spec in E as [post E]. split; [intros _ | done].
      now exists EmptyString, post.
    + split; [discriminate |]. intros (pre & post & Eq).
      destruct pre; simpl in Eq.
      * assert (is_prefix needle EmptyString = true) by (apply is_prefix_spec; eauto).
        congruence.
      * discriminate.
  - destruct (is_prefix needle (String b hay)) eqn:E.
    + apply is_prefix_spec in E as [post E]. split; [intros _ | done].
      now exists EmptyString, post.
    + rewrite IH. split.
      * intros (pre & post & ->). now exists (String b pre), post.
      * intros (pre & post & Eq). destruct pre as [| c pre]; simpl in Eq.
        -- assert (is_prefix needle (String b hay) = true) by (apply is_prefix_spec; eauto).
           congruence.
        -- injection Eq as -> ->. now exists pre, post.
Qed.

(** The test of the source, [filter.ascii_lower() in text.ascii_lower()], decides
    case-insensitive occurrence. *)
Lemma str_in_ascii_lower_spec (needle hay : string) :
  str_in (ascii_lower needle) (ascii_lower hay) = true <-> caseless_substring needle hay.
Proof.
  rewrite str_in_spec. unfold caseless_substring. split.
  - intros (pre & post & E).
    apply ascii_lower_app_inv in E as (h1 & h23 & -> & <- & E).
    apply ascii_lower_app_inv in E as (h2 & h3 & -> & E & <-).
    exists h1, h2, h3. split; [done |]. now apply ascii_lower_eq_iff.
  - intros (pre & mid & post & -> & E). apply ascii_lower_eq_iff in E.
    exists (ascii_lower pre), (ascii_lower post). now rewrite !ascii_lower_app, E.
Qed.

(** ** Widget trees *)

Lemma widget_nested_ind (P : widget -> Prop) :
  (forall c, P (OptionContainer c)) ->
  (forall name v n, P (Plain name v n)) ->
  (forall id section v vbox, Forall P vbox -> P (SectionFrame id section v vbox)) ->
  forall w, P w.
Proof.
  intros Hrow Hplain Hframe. fix IH 1. intros [c | id section v vbox | name v n].
  - apply Hrow.
  - apply Hframe. induction vbox as [| x xs IHxs]; constructor; [apply IH | apply IHxs].
  - apply Hplain.
Qed.

Lemma widget_in_nil w : ~ widget_in w [].
Proof. intros H. inversion H as [ws Hin | ? ? ? ? ? Hin]; inversion Hin. Qed.

Lemma widget_in_cons w x ws :
  widget_in w (x :: ws) <-> widget_in w [x] \/ widget_in w ws.
Proof.
  split.
  - intros H. inversion H as [? Hin | id section v vbox ? Hin Hsub]; subst.
    + apply elem_of_cons in Hin as [-> | Hin].
      * left. apply widget_in_here. set_solver.
      * right. now apply widget_in_here.
    + apply elem_of_cons in Hin as [<- | Hin].
      * left. apply (widget_in_frame w id section v vbox); [set_solver | exact Hsub].
      * right. eapply widget_in_frame; eauto.
  - intros [H | H]; inversion H as [? Hin | id section v vbox ? Hin Hsub]; subst.
    + apply widget_in_here. set_solver.
    + apply (widget_in_frame w id section v vbox); [set_solver | exact Hsub].
    + apply widget_in_here. set_solver.
    + apply (widget_in_frame w id section v vbox); [set_solver | exact Hsub].
Qed.

Lemma widget_in_single w x :
  widget_in w [x] <->
  w = x \/ match x with
           | SectionFrame _ _ _ vbox => widget_in w vbox
           | _ => False
           end.
Proof.
  split.
  - intros H. inversion H as [? Hin | id section v vbox ? Hin Hsub]; subst.
    + left. set_solver.
    + right. apply list_elem_of_singleton in Hin. now subst.
  - intros [-> | H].
    + apply widget_in_here. set_solver.
    + destruct x as [c | id section v vbox | name v n]; try done.
      apply (widget_in_frame w id section v vbox); [set_solver | exact H].
Qed.

Lemma widget_in_app w ws1 ws2 :
  widget_in w (ws1 ++ ws2) <-> widget_in w ws1 \/ widget_in w ws2.
Proof.
  induction ws1 as [| x ws1 IH]; simpl.
  - split; [now right | intros [H | H]; [now apply widget_in_nil in H | done]].
  - rewrite widget_in_cons, IH, (widget_in_cons w x ws1). tauto.
Qed.

Lemma visible_count_cons x ws :
  visible_count (x :: ws) = visible_leaves x + visible_count ws.
Proof. reflexivity. Qed.

(** A frame counts at least one shown leaf exactly when some leaf below
    it is shown. *)
Lemma visible_count_pos (ws : list widget) :
  0 < visible_count ws <-> exists w, widget_in w ws /\ visible_leaf w.
Proof.
  induction ws as [| x ws IHws].
  - split; [unfold visible_count; simpl; lia |].
    intros (w & H & _). now apply widget_in_nil in H.
  - rewrite visible_count_cons.
    assert (Hx : 0 < visible_leaves x <-> exists w, widget_in w [x] /\ visible_leaf w).
    { clear IHws ws. induction x as [c | name v n | id section v vbox IH] using widget_nested_ind.
      - simpl. split.
        + destruct (oc_visible c) eqn:E; [| lia]. intros _.
          exists (OptionContainer c). split; [apply widget_in_single; now left | done].
        + intros (w & H & Hv). apply widget_in_single in H as [-> | []].
          simpl in Hv. rewrite Hv. lia.
      - simpl. split.
        + destruct v; [| lia]. intros _.
          exists (Plain name true n). split; [apply widget_in_single; now left | done].
        + intros (w & H & Hv). apply widget_in_single in H as [-> | []].
          simpl in Hv. rewrite Hv. lia.
      - change (visible_leaves (SectionFrame id section v vbox)) with (visible_count vbox).
        assert (Hbox : 0 < visible_count vbox <-> exists w, widget_in w vbox /\ visible_leaf w).
        { induction IH as [| y ys Hy _ IHys].
          - split; [unfold visible_count; simpl; lia |].
            intros (w & H & _). now apply widget_in_nil in H.
          - rewrite visible_count_cons. split.
            + intros Hpos. destruct (decide (0 < visible_leaves y)) as [Hy0 | Hy0].
              * apply Hy in Hy0 as (w & H & Hv). exists w. split; [| done].
                apply widget_in_cons. now left.
              * assert (Hys : 0 < visible_count ys) by lia.
                apply IHys in Hys as (w & H & Hv). exists w. split; [| done].
                apply widget_in_cons. now right.
            + intros (w & H & Hv). apply widget_in_cons in H as [H | H].
              * assert (0 < visible_leaves y) by (apply Hy; eauto). lia.
              * assert (0 < visible_count ys) by (apply IHys; eauto). lia. }
        rewrite Hbox. split.
        + intros (w & H & Hv). exists w. split; [| done].
          apply widget_in_single. now right.
        + intros (w & H & Hv). apply widget_in_single in H as [-> | H]; [done |].
          eauto. }
    split.
    + intros Hpos. destruct (decide (0 < visible_leaves x)) as [Hx0 | Hx0].
      * apply Hx in Hx0 as (w & H & Hv). exists w. split; [| done].
        apply widget_in_cons. now left.
      * assert (Hys : 0 < visible_count ws) by lia.
        apply IHws in Hys as (w & H & Hv). exists w. split; [| done].
        apply widget_in_cons. now right.
    + intros (w & H & Hv). apply widget_in_cons in H as [H | H].
      * assert (0 < visible_leaves x) by (apply Hx; eauto). lia.
      * assert (0 < visible_count ws) by (apply IHws; eauto). lia.
Qed.

(** ** The visibility engine *)

Lemma update_widget_frame adv ft id section v vbox :
  update_widget adv ft (SectionFrame id section v vbox) =
  (SectionFrame id section (0 <? (update_widgets adv ft vbox).2) (update_widgets adv ft vbox).1,
   (update_widgets adv ft vbox).2).
Proof.
  simpl. fold (update_widgets adv ft vbox).
  now destruct (update_widgets adv ft vbox).
Qed.

Lemma update_widgets_cons adv ft x xs :
  update_widgets adv ft (x :: xs) =
  ((update_widget adv ft x).1 :: (update_widgets adv ft xs).1,
   (update_widget adv ft x).2 + (update_widgets adv ft xs).2).
Proof.
  unfold update_widgets. simpl.
  now destruct (update_widget adv ft x), (update_each (update_widget adv ft) xs).
Qed.

Lemma row_visible_set_visibility adv ft v c :
  row_visible adv ft (oc_set_visibility v c) = row_visible adv ft c.
Proof. reflexivity. Qed.

(** What one call of [update_widgets] does to a widget: the count it
    returns is the number of leaves it has shown, only visibility flags
    change, and every node below is settled. *)
Lemma update_widget_spec adv ft (w : widget) :
  (update_widget adv ft w).2 = visible_leaves (update_widget adv ft w).1 /\
  erase_visibility (update_widget adv ft w).1 = erase_visibility w /\
  forall x, widget_in x [(update_widget adv ft w).1] -> settled adv ft x.
Proof.
  induction w as [c | name v n | id section v vbox IH] using widget_nested_ind.
  - simpl. split; [| split].
    + now destruct (row_visible adv ft c).
    + done.
    + intros x Hx. apply widget_in_single in Hx as [-> | []]. simpl. done.
  - simpl. split; [done | split; [done |]].
    intros x Hx. apply widget_in_single in Hx as [-> | []]. done.
  - rewrite update_widget_frame. simpl.
    assert (Hbox :
      (update_widgets adv ft vbox).2 = visible_count (update_widgets adv ft vbox).1 /\
      map erase_visibility (update_widgets adv ft vbox).1 = map erase_visibility vbox /\
      forall x, widget_in x (update_widgets adv ft vbox).1 -> settled adv ft x).
    { induction IH as [| y ys (Hy1 & Hy2 & Hy3) _ (IH1 & IH2 & IH3)].
      - simpl. split; [done | split; [done |]].
        intros x Hx. now apply widget_in_nil in Hx.
      - rewrite update_widgets_cons. simpl. split; [| split].
        + rewrite visible_count_cons. congruence.
        + congruence.
        + intros x Hx. apply widget_in_cons in Hx as [Hx | Hx]; auto. }
    destruct Hbox as (H1 & H2 & H3). split; [| split].
    + exact H1.
    + now rewrite H2.
    + intros x Hx. apply widget_in_single in Hx as [-> | Hx]; [| auto].
      simpl. now rewrite H1.
Qed.

Lemma update_widgets_spec adv ft (ws : list widget) :
  (update_widgets adv ft ws).2 = visible_count (update_widgets adv ft ws).1 /\
  map erase_visibility (update_widgets adv ft ws).1 = map erase_visibility ws /\
  forall x, widget_in x (update_widgets adv ft ws).1 -> settled adv ft x.
Proof.
  induction ws as [| y ys (IH1 & IH2 & IH3)].
  - simpl. split; [done | split; [done |]].
    intros x Hx. now apply widget_in_nil in Hx.
  - destruct (update_widget_spec adv ft y) as (Hy1 & Hy2 & Hy3).
    rewrite update_widgets_cons. simpl. split; [| split].
    + rewrite visible_count_cons. congruence.
    + congruence.
    + intros x Hx. apply widget_in_cons in Hx as [Hx | Hx]; auto.
Qed.

(** The decision of the source for a row, whatever [str.lower] does;
    [filter_text] is the lowered filter. *)
Lemma row_visible_spec adv (filter_text : string) (c : option_container) :
  row_visible adv filter_text c = true <->
  (adv = true \/ oc_advanced c = false) /\
  (filter_text = "" \/
   occurs_in filter_text (lower (lutris_option_label c)) \/
   occurs_in filter_text (lower (lutris_option_helptext c))).
Proof.
  unfold row_visible, str_truthy, occurs_in.
  pose proof (String.eqb_eq filter_text "") as Hempty.
  rewrite <- !str_in_spec.
  destruct adv, (oc_advanced c); simpl;
    destruct (String.eqb filter_text "") eqn:E; simpl;
    try (destruct (str_in filter_text (lower (lutris_option_label c))) eqn:E1;
         destruct (str_in filter_text (lower (lutris_option_helptext c))) eqn:E2;
         simpl);
    try (assert (filter_text = "") by (now apply Hempty));
    try (assert (filter_text <> "") by (intros Hf; apply Hempty in Hf; congruence));
    intuition congruence.
Qed.

(** The same decision in the words of the specification, for texts that
    [str.lower] lowers as it lowers ASCII text. *)
Lemma row_visible_ascii adv (filter_text : string) (c : option_container) :
  lowers_as_ascii filter_text ->
  lowers_as_ascii (lutris_option_label c) ->
  lowers_as_ascii (lutris_option_helptext c) ->
  row_visible adv (lower filter_text) c = true <->
  (adv = true \/ oc_advanced c = false) /\
  (filter_text = "" \/
   caseless_substring filter_text (lutris_option_label c) \/
   caseless_substring filter_text (lutris_option_helptext c)).
Proof.
  unfold lowers_as_ascii. intros Hf Hl Hh.
  rewrite row_visible_spec, Hf, Hl, Hh. unfold occurs_in.
  rewrite <- !str_in_spec, !str_in_ascii_lower_spec.
  assert (Hempty : ascii_lower filter_text = "" <-> filter_text = "").
  { destruct filter_text; simpl; split; congruence. }
  rewrite Hempty. reflexivity.
Qed.

Lemma children_update_option_visibility (s : ConfigBox) :
  children (update_option_visibility s) =
  (update_widgets (_advanced_visibility s) (lower (_filter s)) (children s)).1.
Proof. reflexivity. Qed.

Lemma rows_only_leaf (vbox : list widget) :
  Forall is_row vbox ->
  (exists w, widget_in w vbox /\ visible_leaf w) <->
  (exists c, OptionContainer c ∈ vbox /\ oc_visible c = true).
Proof.
  intros Hrows. rewrite Forall_forall in Hrows. split.
  - intros (w & Hin & Hv).
    inversion Hin as [? Hw | id section v sub ? Hframe Hsub]; subst.
    + specialize (Hrows _ Hw). destruct w as [c | |]; try done. eauto.
    + now specialize (Hrows _ Hframe).
  - intros (c & Hin & Hv). exists (OptionContainer c).
    split; [now apply widget_in_here | done].
Qed.

(** C6. After [update_option_visibility] the tree holds the same widgets.
    Whatever [str.lower] does, an option row at any depth is visible
    exactly when (advanced visibility is on or the row is not tagged
    advanced) and (the lowered filter text is empty or occurs in the
    lowered label or in the lowered help text of the row). When
    [str.lower] lowers the filter text, the label and the help text as
    it lowers ASCII text, that is: when (advanced visibility is on or
    the row is not tagged advanced) and (the filter text is empty or
    occurs, ignoring case, in the row's label or in its help text). A
    section frame is visible exactly when at least one leaf below it is
    visible; for a frame holding option rows only, when at least one of
    its child rows is visible. *)
Theorem update_option_visibility_spec (s : ConfigBox) :
  let s' := update_option_visibility s in
  map erase_visibility (children s') = map erase_visibility (children s) /\
  (forall c, widget_in (OptionContainer c) (children s') ->
     (oc_visible c = true <->
      (_advanced_visibility s = true \/ oc_advanced c = false) /\
      (lower (_filter s) = "" \/
       occurs_in (lower (_filter s)) (lower (lutris_option_label c)) \/
       occurs_in (lower (_filter s)) (lower (lutris_option_helptext c)))) /\
     (lowers_as_ascii (_filter s) ->
      lowers_as_ascii (lutris_option_label c) ->
      lowers_as_ascii (lutris_option_helptext c) ->
      (oc_visible c = true <->
       (_advanced_visibility s = true \/ oc_advanced c = false) /\
       (_filter s = "" \/
        caseless_substring (_filter s) (lutris_option_label c) \/
        caseless_substring (_filter s) (lutris_option_helptext c))))) /\
  (forall id section v vbox,
     widget_in (SectionFrame id section v vbox) (children s') ->
     (v = true <-> exists w, widget_in w vbox /\ visible_leaf w) /\
     (Forall is_row vbox ->
      (v = true <-> exists c, OptionContainer c ∈ vbox /\ oc_visible c = true))).
Proof.
  intros s'. subst s'. rewrite children_update_option_visibility.
  destruct (update_widgets_spec (_advanced_visibility s) (lower (_filter s)) (children s))
    as (_ & Hshape & Hsettled).
  split; [exact Hshape | split].
  - intros c Hc. apply Hsettled in Hc. destruct Hc as [Hc _].
    rewrite Hc. split; [apply row_visible_spec |].
    intros Hf Hl Hh. now apply row_visible_ascii.
  - intros id section v vbox Hf. apply Hsettled in Hf. simpl in Hf.
    assert (Hv : v = true <-> exists w, widget_in w vbox /\ visible_leaf w).
    { rewrite <- visible_count_pos, Hf. apply Nat.ltb_lt. }
    split; [exact Hv |].
    intros Hrows. rewrite Hv. now apply rows_only_leaf.
Qed.

(** ** The configuration store *)

Lemma raw_of_update_raw sec f lc :
  raw_of sec (update_raw sec f lc) = f (raw_of sec lc).
Proof. now destruct sec. Qed.

Lemma raw_of_update_raw_ne sec sec' f lc :
  sec <> sec' -> raw_of sec' (update_raw sec f lc) = raw_of sec' lc.
Proof. now destruct sec, sec'. Qed.

Lemma effective_of_update_raw sec sec' f lc :
  effective_of sec' (update_raw sec f lc) = effective_of sec' lc.
Proof. now destruct sec, sec'. Qed.

Lemma inherited_of_update_raw sec sec' f lc :
  inherited_of sec' (update_raw sec f lc) = inherited_of sec' lc.
Proof. now destruct sec, sec'. Qed.

Lemma effective_of_update_effective sec f lc :
  effective_of sec (update_effective sec f lc) = f (effective_of sec lc).
Proof. now destruct sec. Qed.

Lemma effective_of_update_effective_ne sec sec' f lc :
  sec <> sec' -> effective_of sec' (update_effective sec f lc) = effective_of sec' lc.
Proof. now destruct sec, sec'. Qed.

Lemma raw_of_update_effective sec sec' f lc :
  raw_of sec' (update_effective sec f lc) = raw_of sec' lc.
Proof. now destruct sec, sec'. Qed.

Lemma inherited_of_update_effective sec sec' f lc :
  inherited_of sec' (update_effective sec f lc) = inherited_of sec' lc.
Proof. now destruct sec, sec'. Qed.

Lemma effective_of_cascade_update sec lc :
  effective_of sec (cascade_update lc) = raw_of sec lc ∪ inherited_of sec lc.
Proof. now destruct sec. Qed.

Lemma raw_of_cascade_update sec lc :
  raw_of sec (cascade_update lc) = raw_of sec lc.
Proof. now destruct sec. Qed.

Lemma inherited_of_cascade_update sec lc :
  inherited_of sec (cascade_update lc) = inherited_of sec lc.
Proof. now destruct sec. Qed.

(** ** Re-validation *)

Lemma foldl_update_warning (l : list nat) (s : ConfigBox) :
  foldl (fun s box => update_warning box s) s l =
  set_validation_log (fun x => x ++ l) s.
Proof.
  revert s. induction l as [| b l IH]; intros s; simpl.
  - destruct s. unfold set_validation_log. simpl. now rewrite app_nil_r.
  - rewrite IH. unfold update_warning, set_validation_log. simpl.
    now rewrite <- app_assoc.
Qed.

Lemma foldl_update_warning_lists (ls : list (list nat)) (s : ConfigBox) :
  foldl (fun s box_list => foldl (fun s box => update_warning box s) s box_list) s ls =
  set_validation_log (fun x => x ++ concat ls) s.
Proof.
  revert s. induction ls as [| l ls IH]; intros s; simpl.
  - destruct s. unfold set_validation_log. simpl. now rewrite app_nil_r.
  - rewrite IH, foldl_update_warning. unfold set_validation_log. simpl.
    now rewrite <- app_assoc.
Qed.

(** [update_warnings] asks every registered warning box, then every
    registered error box, to re-evaluate, and does nothing else. *)
Lemma update_warnings_eq (s : ConfigBox) :
  update_warnings s =
  set_validation_log
    (fun x => x ++ dd_boxes (warning_boxes s) ++ dd_boxes (error_boxes s)) s.
Proof.
  unfold update_warnings. rewrite !foldl_update_warning_lists.
  unfold set_validation_log, dd_boxes. simpl. now rewrite <- app_assoc.
Qed.

(** ** Styles *)

Lemma style_value_last (property_ value : string) (styles : list (string * string)) :
  style_value property_ (styles ++ [(property_, value)]) = Some value.
Proof.
  unfold style_value. rewrite reverse_app. simpl.
  rewrite filter_cons_True by done. done.
Qed.

Lemma style_value_other (property_ p value : string) (styles : list (string * string)) :
  p <> property_ ->
  style_value property_ (styles ++ [(p, value)]) = style_value property_ styles.
Proof.
  intros Hne. unfold style_value. rewrite reverse_app. simpl.
  rewrite filter_cons_False by done. done.
Qed.

(** ** The edit handler *)

(** The state [on_option_changed] ends in, when the form is bound to a
    configuration section. *)
Lemma on_option_changed_eq (s : ConfigBox) (k : string) (v : pyval) sec rsec :
  config s = Some sec ->
  raw_config s = Some rsec ->
  on_option_changed k v s =
  (Normal tt,
   update_warnings
     (match wrappers s !! k with
      | Some w => set_style_property "font-weight" "bold" w
      | None => fun s => s
      end
        (match reset_buttons s !! k with
         | Some btn => set_button_store (alter (rb_set_visible true) btn)
         | None => fun s => s
         end
           (set_lutris_config (update_effective sec (insert k v))
              (set_lutris_config (update_raw rsec (insert k v)) s))))).
Proof.
  intros Hc Hr.
  unfold on_option_changed, bind, raw_config_setitem, config_setitem, gets, modify, ret.
  rewrite Hr. simpl. rewrite Hc. simpl.
  destruct (reset_buttons s !! k), (wrappers s !! k); reflexivity.
Qed.

(** C2. Once the form is bound to its configuration section,
    [on_option_changed k v] returns normally for every key and value; it
    leaves [v] under [k] in both the raw and the effective dictionary,
    the reset button registered for [k] visible and the wrapper
    registered for [k] with bold weight, and it has asked every
    registered warning box and every registered error box, of all keys,
    to re-evaluate. *)
Theorem on_option_changed_spec (s : ConfigBox) (k : string) (v : pyval)
    (sec rsec : section_name) :
  config s = Some sec ->
  raw_config s = Some rsec ->
  exists s',
    on_option_changed k v s = (Normal tt, s') /\
    raw_of rsec (lutris_config s') !! k = Some v /\
    effective_of sec (lutris_config s') !! k = Some v /\
    (forall btn b, reset_buttons s !! k = Some btn -> button_store s !! btn = Some b ->
       button_store s' !! btn = Some (rb_set_visible true b) /\
       rb_visible (rb_set_visible true b) = true) /\
    (forall w wb, wrappers s !! k = Some w -> wrapper_store s !! w = Some wb ->
       exists wb', wrapper_store s' !! w = Some wb' /\
                   style_value "font-weight" (w_styles wb') = Some "bold" /\
                   rendered_weight wb' = bold) /\
    validation_log s' =
      validation_log s ++ dd_boxes (warning_boxes s) ++ dd_boxes (error_boxes s).
Proof.
  intros Hc Hr. eexists. split; [apply (on_option_changed_eq s k v sec rsec Hc Hr) |].
  rewrite update_warnings_eq.
  split; [| split; [| split; [| split]]].
  - destruct (wrappers s !! k), (reset_buttons s !! k); simpl;
      rewrite raw_of_update_effective, raw_of_update_raw; apply lookup_insert_eq.
  - destruct (wrappers s !! k), (reset_buttons s !! k); simpl;
      rewrite effective_of_update_effective; apply lookup_insert_eq.
  - intros btn b Hb Hs. rewrite Hb. split; [| done].
    destruct (wrappers s !! k); simpl; rewrite lookup_alter_eq, Hs; done.
  - intros w wb Hw Hs. rewrite Hw. exists (w_add_style "font-weight" "bold" wb).
    assert (Hstyle : style_value "font-weight"
                       (w_styles (w_add_style "font-weight" "bold" wb)) = Some "bold").
    { apply style_value_last. }
    split; [| split; [exact Hstyle |]].
    + destruct (reset_buttons s !! k); simpl; rewrite lookup_alter_eq, Hs; done.
    + unfold rendered_weight. rewrite Hstyle. now rewrite decide_True.
  - destruct (wrappers s !! k), (reset_buttons s !! k); reflexivity.
Qed.

(** C10 (as amended). For a key with no registered reset button and no
    registered wrapper (a key that is not in the schema, or one whose row
    failed before its wrapper was registered), [on_option_changed]
    returns normally once the form is bound to its configuration section:
    it writes the value into the raw and the effective dictionary and
    asks every registered message box to re-evaluate, and it changes no
    reset button, no wrapper and no row. *)
Theorem on_option_changed_unregistered (s : ConfigBox) (k : string) (v : pyval)
    (sec rsec : section_name) :
  config s = Some sec ->
  raw_config s = Some rsec ->
  reset_buttons s !! k = None ->
  wrappers s !! k = None ->
  exists s',
    on_option_changed k v s = (Normal tt, s') /\
    raw_of rsec (lutris_config s') !! k = Some v /\
    effective_of sec (lutris_config s') !! k = Some v /\
    button_store s' = button_store s /\
    wrapper_store s' = wrapper_store s /\
    children s' = children s /\
    validation_log s' =
      validation_log s ++ dd_boxes (warning_boxes s) ++ dd_boxes (error_boxes s).
Proof.
  intros Hc Hr Hb Hw. eexists.
  split; [apply (on_option_changed_eq s k v sec rsec Hc Hr) |].
  rewrite update_warnings_eq, Hb, Hw. simpl.
  rewrite raw_of_update_effective, raw_of_update_raw, effective_of_update_effective.
  rewrite !lookup_insert_eq. done.
Qed.

(** ** The reset handler *)

(** Creating message boxes only allocates identities and extends the
    store of message boxes. *)
Lemma new_boxes_eq kind key w (tags : list pyval) (s : ConfigBox) :
  exists ids store',
    new_boxes kind key w tags s =
    (Normal ids,
     set_next_id (fun _ => length tags + next_id s)
       (set_message_store (fun _ => store') s)).
Proof.
  revert s. induction tags as [| tag tags IH]; intros s.
  - exists [], (message_store s). destruct s. reflexivity.
  - simpl. unfold bind, new_message_box, bind, fresh, modify, ret.
    match goal with
    | |- context [new_boxes kind key w tags ?s1] =>
        destruct (IH s1) as (ids & store' & ->)
    end.
    eexists _, store'. unfold ret, set_next_id, set_message_store. simpl.
    repeat f_equal. lia.
Qed.

(** The state the reset handler ends in. [s1] is the state once the key
    is removed and the store has recomputed the cascade. *)
Lemma on_reset_button_clicked_eq (ext : Externals) (s : ConfigBox) (btn : nat)
    (opt : option_dict) (wrapper : nat) (k : string) sec rsec (cur : pyval) :
  o_option opt = Some k ->
  config s = Some sec ->
  raw_config s = Some rsec ->
  effective_of sec (lutris_config s) !! k = Some cur ->
  let s1 :=
    set_lutris_config (update_cascaded_config ext)
      (set_lutris_config (update_raw rsec (delete k))
         (set_style_property "font-weight" "normal" wrapper
            (set_button_store (alter (rb_set_visible false) btn) s))) in
  let reset_value := dict_get (effective_of sec (lutris_config s1)) k in
  on_reset_button_clicked ext btn opt wrapper s =
  if py_eqb cur reset_value then (Normal tt, s1)
  else
    match generate_widget ext (get_widget_generator ext s1) opt reset_value with
    | inl ex => (Raise ex, s1)
    | inr out =>
        (Normal tt,
         update_warnings
           (new_boxes GeneratorErrorBox (o_option opt) (Some wrapper) (error_widgets out)
              (set_wrapper_store (alter (w_rebuild opt reset_value) wrapper) s1)).2)
    end.
Proof.
  intros Hk Hc Hr Hcur. cbv zeta.
  unfold on_reset_button_clicked, bind, getitem, config_getitem, config_get,
    raw_config_pop, gets, modify, ret.
  rewrite Hk. simpl. rewrite Hc, Hcur. simpl. rewrite Hr. simpl. rewrite Hc.
  match goal with |- context [py_eqb cur ?v] => destruct (py_eqb cur v) end;
    [reflexivity |].
  unfold gen_generate_widget, get_widget_generator. simpl.
  match goal with
  | |- context [generate_widget ext ?g opt ?v] =>
      destruct (generate_widget ext g opt v) as [ex | out]
  end; [reflexivity |].
  unfold bind, modify, ret. rewrite ?Hk.
  match goal with
  | |- context [new_boxes ?a ?b ?c ?d ?s2] =>
      destruct (new_boxes_eq a b c d s2) as (ids & store' & E)
  end.
  simpl in E |- *. rewrite !E. reflexivity.
Qed.

(** C3. The reset handler, for a row of key [k] on a bound form. When
    the effective dictionary does not hold [k], the handler raises
    [KeyError] at its first read and leaves the form as it was. When it
    holds [k], the handler removes [k] from the raw dictionary and has
    the store recompute the cascade, hides the reset button (no other
    button changes), sets the weight of the wrapper back to normal, and
    never touches the tree of rows or any other wrapper. If the
    recomputed value equals the value captured before, it stops there:
    the control is the one built before and no message box is
    re-evaluated. Otherwise the widget generator is asked to rebuild the
    control of that row into its existing wrapper; when it returns, this
    wrapper has been built once more, for the descriptor and the
    recomputed value, and every registered message box has been asked
    to re-evaluate; when it raises, nothing was rebuilt. *)
Theorem on_reset_button_clicked_spec (ext : Externals) (s : ConfigBox) (btn : nat)
    (opt : option_dict) (wrapper : nat) (k : string) (sec rsec : section_name) :
  o_option opt = Some k ->
  config s = Some sec ->
  raw_config s = Some rsec ->
  let removed := update_raw rsec (delete k) (lutris_config s) in
  let reset_value := dict_get (effective_of sec (update_cascaded_config ext removed)) k in
  let r := on_reset_button_clicked ext btn opt wrapper s in
  let restyled := alter (w_add_style "font-weight" "normal") wrapper (wrapper_store s) in
  match effective_of sec (lutris_config s) !! k with
  | None => r = (Raise (KeyError k), s)
  | Some cur =>
      raw_of rsec removed = delete k (raw_of rsec (lutris_config s)) /\
      raw_of rsec removed !! k = None /\
      lutris_config r.2 = update_cascaded_config ext removed /\
      button_store r.2 = alter (rb_set_visible false) btn (button_store s) /\
      button_hidden btn (button_store s) (button_store r.2) /\
      (forall b, b <> btn -> button_store r.2 !! b = button_store s !! b) /\
      weight_cleared wrapper (wrapper_store s) (wrapper_store r.2) /\
      (forall w, w <> wrapper -> wrapper_store r.2 !! w = wrapper_store s !! w) /\
      children r.2 = children s /\
      reset_buttons r.2 = reset_buttons s /\
      wrappers r.2 = wrappers s /\
      (py_eqb cur reset_value = true ->
         r.1 = Normal tt /\
         wrapper_store r.2 = restyled /\
         control_kept wrapper (wrapper_store s) (wrapper_store r.2) /\
         validation_log r.2 = validation_log s) /\
      (py_eqb cur reset_value = false ->
         match generate_widget ext
                 (get_widget_generator ext
                    (set_lutris_config (fun _ => update_cascaded_config ext removed) s))
                 opt reset_value with
         | inr _ =>
             r.1 = Normal tt /\
             wrapper_store r.2 = alter (w_rebuild opt reset_value) wrapper restyled /\
             control_rebuilt wrapper opt reset_value (wrapper_store s) (wrapper_store r.2) /\
             validation_log r.2 =
               validation_log s ++ dd_boxes (warning_boxes s) ++ dd_boxes (error_boxes s)
         | inl ex =>
             r.1 = Raise ex /\
             wrapper_store r.2 = restyled /\
             control_kept wrapper (wrapper_store s) (wrapper_store r.2) /\
             validation_log r.2 = validation_log s
         end)
  end.
Proof.
  intros Hk Hc Hr removed reset_value r restyled.
  destruct (effective_of sec (lutris_config s) !! k) as [cur |] eqn:Hcur.
  2: { subst r. unfold on_reset_button_clicked, bind, getitem, config_getitem, ret.
       rewrite Hk. simpl. now rewrite Hc, Hcur. }
  pose proof (on_reset_button_clicked_eq ext s btn opt wrapper k sec rsec cur
                Hk Hc Hr Hcur) as E.
  cbv zeta in E. fold r in E.
  change (dict_get (effective_of sec (lutris_config _)) k) with reset_value in E.
  change (get_widget_generator ext _)
    with (get_widget_generator ext
            (set_lutris_config (fun _ => update_cascaded_config ext removed) s)) in E.
  assert (Hraw : raw_of rsec removed = delete k (raw_of rsec (lutris_config s)))
    by apply raw_of_update_raw.
  split; [exact Hraw |].
  split; [rewrite Hraw; apply lookup_delete_eq |].
  assert (Hbtn : forall st : gmap nat reset_button,
            button_hidden btn st (alter (rb_set_visible false) btn st)).
  { intros st rb Hrb. exists (rb_set_visible false rb).
    rewrite lookup_alter_eq, Hrb. repeat split. }
  assert (Hother : forall (st : gmap nat reset_button) b, b <> btn ->
            alter (rb_set_visible false) btn st !! b = st !! b).
  { intros st b Hb. now apply lookup_alter_ne. }
  assert (Hweight : forall wb : wrapper_box,
            style_value "font-weight" (w_styles (w_add_style "font-weight" "normal" wb))
              = Some "normal" /\
            rendered_weight (w_add_style "font-weight" "normal" wb) <> bold).
  { intros wb.
    assert (Hn : style_value "font-weight"
                   (w_styles (w_add_style "font-weight" "normal" wb)) = Some "normal")
      by apply style_value_last.
    split; [exact Hn |]. unfold rendered_weight. rewrite Hn.
    destruct (decide (Some "normal" = Some "bold")) as [Hd | _]; [discriminate Hd |].
    now destruct (decide _). }
  destruct (py_eqb cur reset_value) eqn:Heq.
  - rewrite E. simpl. repeat split; try done; auto.
    + intros wb Hwb. exists (w_add_style "font-weight" "normal" wb).
      rewrite lookup_alter_eq, Hwb. split; [done | apply Hweight].
    + intros w Hw. now apply lookup_alter_ne.
    + intros wb Hwb. exists (w_add_style "font-weight" "normal" wb).
      rewrite lookup_alter_eq, Hwb. repeat split.
  - destruct (generate_widget ext
                (get_widget_generator ext
                   (set_lutris_config (fun _ => update_cascaded_config ext removed) s))
                opt reset_value) as [ex | out] eqn:Hgen.
    + rewrite E. simpl. repeat split; try done; auto.
      * intros wb Hwb. exists (w_add_style "font-weight" "normal" wb).
        rewrite lookup_alter_eq, Hwb. split; [done | apply Hweight].
      * intros w Hw. now apply lookup_alter_ne.
      * intros wb Hwb. exists (w_add_style "font-weight" "normal" wb).
        rewrite lookup_alter_eq, Hwb. repeat split.
    + match type of E with
      | context [new_boxes ?a ?b ?c ?d ?s2] =>
          destruct (new_boxes_eq a b c d s2) as (ids & store' & E2)
      end.
      rewrite E2, update_warnings_eq in E. rewrite E. simpl.
      repeat split; try done; auto.
      * intros wb Hwb.
        exists (w_rebuild opt reset_value (w_add_style "font-weight" "normal" wb)).
        rewrite !lookup_alter_eq, Hwb. split; [done | apply Hweight].
      * intros w Hw. rewrite !lookup_alter_ne by done. reflexivity.
      * intros wb Hwb.
        exists (w_rebuild opt reset_value (w_add_style "font-weight" "normal" wb)).
        rewrite !lookup_alter_eq, Hwb. repeat split.
Qed.

(** ** Edit, then reset *)

(** In every outcome of the reset handler the references are unchanged,
    and the store is either untouched or has recomputed the cascade with
    the key removed from the raw dictionary. *)
Lemma on_reset_button_clicked_config (ext : Externals) (btn : nat) (opt : option_dict)
    (wrapper : nat) (s : ConfigBox) :
  let s' := (on_reset_button_clicked ext btn opt wrapper s).2 in
  config s' = config s /\
  raw_config s' = raw_config s /\
  (lutris_config s' = lutris_config s \/
   exists k rsec,
     o_option opt = Some k /\
     raw_config s = Some rsec /\
     lutris_config s' =
       update_cascaded_config ext (update_raw rsec (delete k) (lutris_config s))).
Proof.
  cbv zeta.
  destruct (o_option opt) as [k |] eqn:Hk.
  2: { unfold on_reset_button_clicked, bind, getitem. rewrite Hk. simpl. auto. }
  destruct (config s) as [sec |] eqn:Hc.
  2: { unfold on_reset_button_clicked, bind, getitem, config_getitem, ret.
       rewrite Hk. simpl. rewrite Hc. simpl. auto. }
  destruct (effective_of sec (lutris_config s) !! k) as [cur |] eqn:Hcur.
  2: { unfold on_reset_button_clicked, bind, getitem, config_getitem, ret.
       rewrite Hk. simpl. rewrite Hc, Hcur. simpl. auto. }
  destruct (raw_config s) as [rsec |] eqn:Hr.
  2: { unfold on_reset_button_clicked, bind, getitem, config_getitem, raw_config_pop,
         modify, ret.
       rewrite Hk. simpl. rewrite Hc, Hcur. simpl. rewrite Hr. simpl. auto. }
  rewrite (on_reset_button_clicked_eq ext s btn opt wrapper k sec rsec cur Hk Hc Hr Hcur).
  cbv zeta.
  match goal with |- context [py_eqb cur ?v] => destruct (py_eqb cur v) end.
  { simpl. rewrite Hc, Hr. split; [done | split; [done |]]. right. eauto. }
  match goal with
  | |- context [generate_widget ext ?g opt ?v] =>
      destruct (generate_widget ext g opt v) as [ex | out]
  end.
  { simpl. rewrite Hc, Hr. split; [done | split; [done |]]. right. eauto. }
  match goal with
  | |- context [new_boxes ?a ?b ?c ?d ?s2] =>
      destruct (new_boxes_eq a b c d s2) as (ids & store' & E)
  end.
  rewrite E, update_warnings_eq. simpl. rewrite Hc, Hr.
  split; [done | split; [done |]]. right. eauto.
Qed.

Lemma on_option_changed_config (s : ConfigBox) (k : string) (v : pyval) sec :
  config s = Some sec ->
  raw_config s = Some sec ->
  let s' := (on_option_changed k v s).2 in
  config s' = Some sec /\
  raw_config s' = Some sec /\
  lutris_config s' =
    update_effective sec (insert k v) (update_raw sec (insert k v) (lutris_config s)).
Proof.
  intros Hc Hr. cbv zeta.
  rewrite (on_option_changed_eq s k v sec sec Hc Hr), update_warnings_eq.
  destruct (wrappers s !! k), (reset_buttons s !! k); simpl; rewrite Hc, Hr; done.
Qed.

(** C4 (as amended). With the cascade of the specification, and for a
    key that this layer did not override before the edit, so that its
    effective entry was the one the ancestor layers supply: an edit of
    the key followed by the reset of its row restores the effective entry
    and leaves the key out of the raw dictionary. *)
Theorem edit_then_reset_restores (ext : Externals) (s : ConfigBox) (k : string)
    (v : pyval) (btn : nat) (opt : option_dict) (wrapper : nat) (sec : section_name) :
  o_option opt = Some k ->
  config s = Some sec ->
  raw_config s = Some sec ->
  raw_of sec (lutris_config s) !! k = None ->
  effective_of sec (lutris_config s) !! k = inherited_of sec (lutris_config s) !! k ->
  roundtrip_restores (with_cascade ext) k v btn opt wrapper sec s.
Proof.
  intros Hk Hc Hr Hraw Heff. unfold roundtrip_restores, edit_then_reset.
  destruct (on_option_changed_config s k v sec Hc Hr) as (Hc1 & Hr1 & Hlc1).
  set (s1 := (on_option_changed k v s).2) in *.
  destruct (on_reset_button_clicked_config (with_cascade ext) btn opt wrapper s1)
    as (_ & _ & Hlc2).
  set (s2 := (on_reset_button_clicked (with_cascade ext) btn opt wrapper s1).2) in *.
  assert (Hcur : effective_of sec (lutris_config s1) !! k = Some v).
  { rewrite Hlc1, effective_of_update_effective. apply lookup_insert_eq. }
  assert (Hlc : lutris_config s2 =
                cascade_update (update_raw sec (delete k) (lutris_config s1))).
  { subst s2.
    rewrite (on_reset_button_clicked_eq (with_cascade ext) s1 btn opt wrapper k sec sec v
               Hk Hc1 Hr1 Hcur).
    cbv zeta.
    match goal with |- context [py_eqb v ?x] => destruct (py_eqb v x) end; [reflexivity |].
    match goal with
    | |- context [generate_widget ?e ?g opt ?x] =>
        destruct (generate_widget e g opt x) as [ex | out]
    end; [reflexivity |].
    match goal with
    | |- context [new_boxes ?a ?b ?c ?d ?s3] =>
        destruct (new_boxes_eq a b c d s3) as (ids & store' & E)
    end.
    rewrite E, update_warnings_eq. reflexivity. }
  rewrite Hlc, effective_of_cascade_update, raw_of_cascade_update.
  rewrite raw_of_update_raw, inherited_of_update_raw, Hlc1.
  rewrite raw_of_update_effective, raw_of_update_raw.
  rewrite inherited_of_update_effective, inherited_of_update_raw.
  split.
  - rewrite lookup_union_r by apply lookup_delete_eq. now rewrite Heff.
  - apply lookup_delete_eq.
Qed.

(** ** The invariant of the layer state *)

(** C9. The layer-state invariant (every key of the raw dictionary is a
    key of the effective dictionary) is preserved by the edit handler,
    which writes the key into both dictionaries, and, with the cascade of
    the specification, by the reset handler, which removes the key from
    the raw dictionary and has the effective dictionary recomputed; this
    holds for every outcome of the handlers, raised exceptions
    included. *)
Theorem raw_within_effective_preserved (ext : Externals) (s : ConfigBox) (k : string)
    (v : pyval) (btn : nat) (opt : option_dict) (wrapper : nat) :
  raw_within_effective s ->
  raw_within_effective (on_option_changed k v s).2 /\
  raw_within_effective (on_reset_button_clicked (with_cascade ext) btn opt wrapper s).2.
Proof.
  intros [Hbound Hinv]. split.
  - destruct (config s) as [sec |] eqn:Hc.
    + assert (Hr : raw_config s = Some sec) by congruence.
      destruct (on_option_changed_config s k v sec Hc Hr) as (Hc1 & Hr1 & Hlc1).
      split; [congruence |].
      intros sec' Hsec'. rewrite Hc1 in Hsec'. injection Hsec' as <-.
      rewrite Hlc1, raw_of_update_effective, raw_of_update_raw,
        effective_of_update_effective, effective_of_update_raw.
      rewrite !dom_insert. specialize (Hinv sec eq_refl). set_solver.
    + assert (Hr : raw_config s = None) by congruence.
      unfold on_option_changed, bind, raw_config_setitem. rewrite Hr. simpl.
      split; [congruence |]. intros sec' Hsec'. congruence.
  - destruct (on_reset_button_clicked_config (with_cascade ext) btn opt wrapper s)
      as (Hc1 & Hr1 & Hlc).
    split; [congruence |].
    intros sec Hsec. rewrite Hc1 in Hsec. destruct Hlc as [Hlc | (k' & rsec & _ & _ & Hlc)].
    + rewrite Hlc. now apply Hinv.
    + rewrite Hlc. simpl. rewrite effective_of_cascade_update, raw_of_cascade_update.
      rewrite dom_union. set_solver.
Qed.

(** ** Rules for computations *)

Lemma hoare_bind {S A B} (P : S -> Prop) (m : M S A) (f : A -> M S B)
    (R : A -> S -> Prop) (Q : outcome B -> S -> Prop) :
  hoare P m (fun r s => match r with
                        | Normal a => R a s
                        | Continue => Q Continue s
                        | Raise ex => Q (Raise ex) s
                        end) ->
  (forall a, hoare (R a) (f a) Q) ->
  hoare P (bind m f) Q.
Proof.
  intros Hm Hf s HP. specialize (Hm s HP). unfold bind.
  destruct (m s) as [[a | | ex] s']; simpl in *; [now apply Hf | done | done].
Qed.

Lemma hoare_ret {S A} (P : S -> Prop) (a : A) (Q : outcome A -> S -> Prop) :
  (forall s, P s -> Q (Normal a) s) -> hoare P (ret a) Q.
Proof. intros H s HP. now apply H. Qed.

Lemma hoare_raise {S A} (P : S -> Prop) (ex : exn) (Q : outcome A -> S -> Prop) :
  (forall s, P s -> Q (Raise ex) s) -> hoare P (raise ex) Q.
Proof. intros H s HP. now apply H. Qed.

Lemma hoare_continue {S A} (P : S -> Prop) (Q : outcome A -> S -> Prop) :
  (forall s, P s -> Q Continue s) -> hoare P continue Q.
Proof. intros H s HP. now apply H. Qed.

Lemma hoare_modify {S} (P : S -> Prop) (f : S -> S) (Q : outcome unit -> S -> Prop) :
  (forall s, P s -> Q (Normal tt) (f s)) -> hoare P (modify f) Q.
Proof. intros H s HP. now apply H. Qed.

Lemma hoare_gets {S A} (P : S -> Prop) (f : S -> A) (Q : outcome A -> S -> Prop) :
  (forall s, P s -> Q (Normal (f s)) s) -> hoare P (gets f) Q.
Proof. intros H s HP. now apply H. Qed.

Lemma hoare_weaken {S A} (P P' : S -> Prop) (m : M S A) (Q Q' : outcome A -> S -> Prop) :
  hoare P m Q ->
  (forall s, P' s -> P s) ->
  (forall r s, Q r s -> Q' r s) ->
  hoare P' m Q'.
Proof. intros H HP HQ s Hs. apply HQ, H, HP, Hs. Qed.

(** ** Building a row *)

Lemma building_refl (s : ConfigBox) : store_fresh s -> building s s.
Proof. intros H. repeat split; auto; apply H; done. Qed.

Lemma bind_normal {S A B} (m : M S A) (f : A -> M S B) (s s' : S) (a : A) :
  m s = (Normal a, s') -> bind m f s = f a s'.
Proof. intros E. unfold bind. now rewrite E. Qed.

Lemma bind_raise {S A B} (m : M S A) (f : A -> M S B) (s s' : S) (ex : exn) :
  m s = (Raise ex, s') -> bind m f s = (Raise ex, s').
Proof. intros E. unfold bind. now rewrite E. Qed.

Lemma bind_continue {S A B} (m : M S A) (f : A -> M S B) (s s' : S) :
  m s = (Continue, s') -> bind m f s = (Continue, s').
Proof. intros E. unfold bind. now rewrite E. Qed.

(** *** Changes the construction of a row tolerates *)

Lemma benign_refl w s : benign w s s.
Proof.
  unfold benign. repeat (split; [done |]). split; [| done].
  intros wb Hwb. exists wb. done.
Qed.

Lemma benign_trans w s1 s2 s3 : benign w s1 s2 -> benign w s2 s3 -> benign w s1 s3.
Proof.
  intros (He & Hc & Hl & Hcs & Hn & Ho & Hw & Hf) (He' & Hc' & Hl' & Hcs' & Hn' & Ho' & Hw' & Hf').
  unfold benign.
  split; [congruence |]. split; [congruence |]. split; [congruence |].
  split; [congruence |]. split; [lia |]. split; [| split].
  - intros id Hid. rewrite Ho', Ho; auto.
  - intros wb Hwb. destruct (Hw wb Hwb) as (wb1 & Hwb1 & ? & ? & ? & ?).
    destruct (Hw' wb1 Hwb1) as (wb2 & Hwb2 & ? & ? & ? & ?).
    exists wb2. repeat split; congruence.
  - auto.
Qed.

Lemma benign_unrelated w (s s' : ConfigBox) :
  env s' = env s ->
  children s' = children s ->
  log s' = log s ->
  calls s' = calls s ->
  next_id s' = next_id s ->
  wrapper_store s' = wrapper_store s ->
  (forall id, button_store s !! id = None -> button_store s' !! id = None) ->
  (forall id, message_store s !! id = None -> message_store s' !! id = None) ->
  benign w s s'.
Proof.
  intros He Hc Hl Hcs Hn Hw Hb Hm. unfold benign.
  repeat (split; [done || lia |]). split; [| split].
  - intros id _. now rewrite Hw.
  - intros wb Hwb. exists wb. now rewrite Hw.
  - intros Hf id Hid. rewrite Hn in Hid. destruct (Hf id Hid) as (H1 & H2 & H3).
    rewrite Hw. auto.
Qed.

Lemma benign_alter_wrapper w (g : wrapper_box -> wrapper_box) (s : ConfigBox) :
  (forall wb, w_option (g wb) = w_option wb /\ w_value (g wb) = w_value wb /\
              w_builds (g wb) = w_builds wb /\ w_styles (g wb) = w_styles wb) ->
  benign w s (set_wrapper_store (alter g w) s).
Proof.
  intros Hg. unfold benign. simpl.
  repeat (split; [done || lia |]). split; [| split].
  - intros id Hid. now apply lookup_alter_ne.
  - intros wb Hwb. exists (g wb). rewrite lookup_alter_eq, Hwb. split; [done | apply Hg].
  - intros Hf id Hid. simpl in *. destruct (Hf id Hid) as (H1 & H2 & H3).
    split; [| auto]. rewrite lookup_alter. case_decide; [subst; now rewrite H1 | done].
Qed.

Lemma benign_alter_button w (g : reset_button -> reset_button) (b : nat) (s : ConfigBox) :
  benign w s (set_button_store (alter g b) s).
Proof.
  apply benign_unrelated; try done.
  intros id Hid. simpl. rewrite lookup_alter. case_decide; [subst; now rewrite Hid | done].
Qed.

Lemma benign_new_reset_button w (b : reset_button) (s : ConfigBox) :
  benign w s (new_reset_button b s).2.
Proof.
  unfold benign. simpl.
  repeat (split; [done || lia |]). split.
  - intros wb Hwb. exists wb. done.
  - intros Hf id Hid. simpl in *. destruct (Hf id ltac:(lia)) as (H1 & H2 & H3).
    repeat split; auto. rewrite lookup_insert_ne by lia. done.
Qed.

Lemma benign_new_message_box w (b : message_box) (s : ConfigBox) :
  benign w s (new_message_box b s).2.
Proof.
  unfold benign. simpl.
  repeat (split; [done || lia |]). split.
  - intros wb Hwb. exists wb. done.
  - intros Hf id Hid. simpl in *. destruct (Hf id ltac:(lia)) as (H1 & H2 & H3).
    repeat split; auto. rewrite lookup_insert_ne by lia. done.
Qed.

Lemma new_reset_button_normal (b : reset_button) (s : ConfigBox) :
  (new_reset_button b s).1 = Normal (next_id s).
Proof. reflexivity. Qed.

Lemma new_message_box_normal (b : message_box) (s : ConfigBox) :
  (new_message_box b s).1 = Normal (next_id s).
Proof. reflexivity. Qed.

Lemma wrapper_built_benign opt value styles w s0 s s' :
  wrapper_built opt value styles w s0 s ->
  benign w s s' ->
  wrapper_built opt value styles w s0 s'.
Proof.
  intros ((He & Hc & Hl & Hcs & Hn & Ho & Hf) & Hw & Hlt & wb & Hwb & H1 & H2 & H3 & H4)
         (He' & Hc' & Hl' & Hcs' & Hn' & Ho' & Hw' & Hf').
  destruct (Hw' wb Hwb) as (wb' & Hwb' & ? & ? & ? & ?).
  split; [| split; [done | split; [lia |]]].
  - repeat split; try congruence; try lia; try (apply Hf'; auto; fail).
    intros id Hid. rewrite Ho' by lia. now apply Ho.
  - exists wb'. repeat split; congruence.
Qed.

Lemma keeps_bind {A B} w (m : M ConfigBox A) (f : A -> M ConfigBox B) :
  keeps w m -> (forall a, keeps w (f a)) -> keeps w (bind m f).
Proof.
  intros Hm Hf s. specialize (Hm s). unfold bind.
  destruct (m s) as [[a | | ex] s']; simpl in *; try done.
  eapply benign_trans; [exact Hm | apply Hf].
Qed.

Lemma keeps_ret {A} w (a : A) : keeps w (ret a).
Proof. intros s. apply benign_refl. Qed.

Lemma keeps_raise {A} w (ex : exn) : keeps w (@raise ConfigBox A ex).
Proof. intros s. apply benign_refl. Qed.

Lemma keeps_getitem {A} w key (field : option A) : keeps w (getitem key field).
Proof. intros s. destruct field; apply benign_refl. Qed.

Lemma keeps_raw_config_contains w k : keeps w (raw_config_contains k).
Proof. intros s. unfold raw_config_contains. destruct (raw_config s); apply benign_refl. Qed.

Lemma keeps_modify w (u : ConfigBox -> ConfigBox) :
  (forall s, benign w s (u s)) -> keeps w (modify u).
Proof. intros H s. apply H. Qed.

Lemma keeps_new_reset_button w b : keeps w (new_reset_button b).
Proof. intros s. apply benign_new_reset_button. Qed.

Lemma keeps_new_message_box w b : keeps w (new_message_box b).
Proof. intros s. apply benign_new_message_box. Qed.

Lemma keeps_new_boxes w kind key wr tags : keeps w (new_boxes kind key wr tags).
Proof.
  induction tags as [| tag tags IH]; simpl.
  - apply keeps_ret.
  - apply keeps_bind; [apply keeps_new_message_box | intros box].
    apply keeps_bind; [exact IH | intros rest]. apply keeps_ret.
Qed.

Lemma returns_bind {S A B} (W : A -> Prop) (V : B -> Prop) (m : M S A) (f : A -> M S B) :
  returns W m -> (forall a, W a -> returns V (f a)) -> returns V (bind m f).
Proof.
  intros Hm Hf s. specialize (Hm s). unfold bind.
  destruct (m s) as [[a | | ex] s']; simpl in *; try done.
  now apply Hf.
Qed.

Lemma returns_ret {S A} (V : A -> Prop) (a : A) : V a -> returns V (@ret S A a).
Proof. intros H s. exact H. Qed.

Lemma returns_raise {S A} (V : A -> Prop) (ex : exn) : returns V (@raise S A ex).
Proof. intros s. exact I. Qed.

Lemma returns_modify {S} (u : S -> S) : returns (fun _ => True) (modify u).
Proof. intros s. exact I. Qed.

Lemma returns_getitem {S A} key (field : option A) :
  returns (fun a => field = Some a) (@getitem S A key field).
Proof. intros s. destruct field; simpl; done. Qed.

Lemma returns_raw_config_contains k :
  returns (fun _ => True) (raw_config_contains k).
Proof. intros s. unfold raw_config_contains. destruct (raw_config s); simpl; done. Qed.

Lemma returns_new_reset_button b : returns (fun _ => True) (new_reset_button b).
Proof. intros s. exact I. Qed.

Lemma returns_new_message_box b : returns (fun _ => True) (new_message_box b).
Proof. intros s. exact I. Qed.

Lemma returns_weaken {S A} (V W : A -> Prop) (m : M S A) :
  returns V m -> (forall a, V a -> W a) -> returns W m.
Proof.
  intros H HV s. specialize (H s). destruct ((m s).1); auto.
Qed.

Lemma new_boxes_normal kind key wr tags (s : ConfigBox) :
  exists ids, (new_boxes kind key wr tags s).1 = Normal ids.
Proof.
  destruct (new_boxes_eq kind key wr tags s) as (ids & store' & E).
  exists ids. now rewrite E.
Qed.

(** A new wrapper: the generator, given no wrapper, makes one under the
    next identity. *)
Lemma gen_generate_widget_new (ext : Externals) gen opt value (s : ConfigBox) out :
  generate_widget ext gen opt value = inr out ->
  store_fresh s ->
  exists errors s1,
    gen_generate_widget ext gen opt value None s = (Normal (next_id s, out, errors), s1) /\
    wrapper_built opt value [] (next_id s) s s1.
Proof.
  intros Hgen Hf. unfold gen_generate_widget. rewrite Hgen.
  set (sa := set_wrapper_store (insert (next_id s) (new_wrapper opt value)) (set_next_id S s)).
  assert (Ha : wrapper_built opt value [] (next_id s) s sa).
  { split; [| split; [done | split; [simpl; lia |]]].
    - unfold building. simpl. repeat (split; [done || lia |]). split.
      + intros id Hid. rewrite lookup_insert_ne by lia. done.
      + intros id Hid. simpl in *. destruct (Hf id ltac:(lia)) as (H1 & H2 & H3).
        repeat split; auto. rewrite lookup_insert_ne by lia. done.
    - exists (new_wrapper opt value). simpl. rewrite lookup_insert_eq. done. }
  pose proof (keeps_new_boxes (next_id s) GeneratorErrorBox (o_option opt)
                (Some (next_id s)) (error_widgets out) sa) as Hk.
  destruct (new_boxes_normal GeneratorErrorBox (o_option opt) (Some (next_id s))
              (error_widgets out) sa) as (ids & Hn).
  exists ids, (new_boxes GeneratorErrorBox (o_option opt) (Some (next_id s))
                 (error_widgets out) sa).2.
  split; [| eapply wrapper_built_benign; eauto].
  unfold bind at 1. unfold bind at 2. unfold fresh, modify, ret. simpl. fold sa.
  unfold bind.
  destruct (new_boxes GeneratorErrorBox (o_option opt) (Some (next_id s))
              (error_widgets out) sa) as [r s1] eqn:E.
  simpl in Hn. subst r. reflexivity.
Qed.

Lemma wrapper_built_add_style opt value w s0 s property_ v :
  wrapper_built opt value [] w s0 s ->
  wrapper_built opt value [(property_, v)] w s0 (set_style_property property_ v w s).
Proof.
  intros ((He & Hc & Hl & Hcs & Hn & Ho & Hf) & Hw & Hlt & wb & Hwb & H1 & H2 & H3 & H4).
  split; [| split; [done | split; [done |]]].
  - unfold building. simpl. repeat (split; [done || lia |]). split.
    + intros id Hid. rewrite lookup_alter_ne by lia. now apply Ho.
    + intros id Hid. simpl in *. destruct (Hf id Hid) as (F1 & F2 & F3).
      split; [| auto]. rewrite lookup_alter. case_decide; [subst; now rewrite F1 | done].
  - exists (w_add_style property_ v wb). simpl. rewrite lookup_alter_eq, Hwb. simpl.
    rewrite H4. done.
Qed.

(** The end of the construction of a row, from the state in which its
    wrapper is built and styled. *)
Lemma finish_row {A} opt value styles w s0 s (V : A -> Prop) (m : M ConfigBox A) :
  wrapper_built opt value styles w s0 s ->
  keeps w m ->
  returns V m ->
  building s0 (m s).2 /\
  match (m s).1 with
  | Normal a =>
      V a /\ next_id s0 < next_id (m s).2 /\
      exists wb, wrapper_store (m s).2 !! next_id s0 = Some wb /\
                 w_option wb = opt /\ w_value wb = value /\
                 w_builds wb = 1 /\ w_styles wb = styles
  | Continue => False
  | Raise _ => True
  end.
Proof.
  intros Hb Hk Hr. specialize (Hk s). specialize (Hr s).
  pose proof (wrapper_built_benign _ _ _ _ _ _ _ Hb Hk) as (Hb' & Hw & Hlt & Hwb).
  split; [exact Hb' |].
  destruct ((m s).1); try done.
  split; [exact Hr |]. subst w. split; [exact Hlt | exact Hwb].
Qed.

Ltac keeps_step :=
  first
    [ apply keeps_new_reset_button
    | apply keeps_new_message_box
    | apply keeps_ret
    | apply keeps_raise
    | apply keeps_getitem
    | apply keeps_raw_config_contains
    | apply keeps_bind; [| intros ? ]
    | apply keeps_modify; intros ?;
      first [ apply benign_alter_wrapper; intros ?; done
            | apply benign_alter_button
            | apply benign_unrelated; done ]
    | match goal with
      | |- keeps _ (match ?x with _ => _ end) => destruct x
      end ].

Ltac returns_trivial :=
  first
    [ apply returns_new_reset_button
    | apply returns_new_message_box
    | apply returns_ret; exact I
    | apply returns_raise
    | apply returns_modify
    | apply returns_raw_config_contains
    | apply (returns_bind (fun _ => True)); [returns_trivial | intros ? _; returns_trivial]
    | match goal with
      | |- returns _ (match ?x with _ => _ end) => destruct x; returns_trivial
      end ].

(** What the construction of a row leaves behind. On a normal return the
    generator succeeded, the raw dictionary is bound, the descriptor has a
    label, and the new wrapper carries exactly the style providers of
    the classification. *)
Lemma build_row_spec (ext : Externals) gen opt key value (s0 : ConfigBox) :
  store_fresh s0 ->
  building s0 (build_row ext gen opt key value s0).2 /\
  match (build_row ext gen opt key value s0).1 with
  | Normal c =>
      (o_label opt = Some (lutris_option_label c) /\
       lutris_option_key c = key /\
       lutris_option_helptext c = default "" (o_help opt) /\
       oc_advanced c = py_truthy (o_get (o_advanced opt)) /\
       oc_visible c = true /\ oc_no_show_all c = false /\
       oc_wrapper c = next_id s0) /\
      next_id s0 < next_id (build_row ext gen opt key value s0).2 /\
      exists out rsec wb,
        generate_widget ext gen opt value = inr out /\
        raw_config s0 = Some rsec /\
        wrapper_store (build_row ext gen opt key value s0).2 !! next_id s0 = Some wb /\
        w_option wb = opt /\ w_value wb = value /\ w_builds wb = 1 /\
        w_styles wb =
          styles_for (bool_decide (is_Some (raw_of rsec (lutris_config s0) !! key)))
            value (default_value out)
  | Continue => False
  | Raise _ => True
  end.
Proof.
  intros Hf. unfold build_row.
  destruct (generate_widget ext gen opt value) as [ex | out] eqn:Hgen.
  { rewrite (bind_raise _ _ s0 s0 ex)
      by (unfold gen_generate_widget; now rewrite Hgen).
    split; [now apply building_refl | done]. }
  destruct (gen_generate_widget_new ext gen opt value s0 out Hgen Hf)
    as (errors & s1 & E1 & Hb1).
  rewrite (bind_normal _ _ _ _ _ E1). cbn [fst snd].
  set (w := next_id s0) in *.
  rewrite (bind_normal (modify (set_wrappers (insert key w))) _ s1 _ tt eq_refl).
  assert (Hb2 : wrapper_built opt value [] w s0 (set_wrappers (insert key w) s1)).
  { eapply wrapper_built_benign; [exact Hb1 |]. now apply benign_unrelated. }
  set (s2 := set_wrappers (insert key w) s1) in *.
  assert (He2 : env s2 = env s0) by apply Hb2.
  assert (Hraw : raw_config s2 = raw_config s0) by (unfold env in He2; congruence).
  assert (Hlc : lutris_config s2 = lutris_config s0) by (unfold env in He2; congruence).
  destruct (raw_config s0) as [rsec |] eqn:Hr.
  2: { rewrite (bind_raise _ _ s2 s2 (TypeError "argument of type 'NoneType' is not iterable"))
         by (unfold raw_config_contains; now rewrite Hraw).
       split; [apply Hb2 | done]. }
  rewrite (bind_normal _ _ s2 s2 (bool_decide (is_Some (raw_of rsec (lutris_config s0) !! key))))
    by (unfold raw_config_contains; now rewrite Hraw, Hlc).
  set (in_raw := bool_decide (is_Some (raw_of rsec (lutris_config s0) !! key))).
  assert (Hstyle : exists s3,
            (if in_raw
             then modify (set_style_property "font-weight" "bold" w)
             else if py_neb value (default_value out)
                  then modify (set_style_property "font-style" "italic" w)
                  else ret tt) s2 = (Normal tt, s3) /\
            wrapper_built opt value (styles_for in_raw value (default_value out)) w s0 s3).
  { unfold styles_for. destruct in_raw; [| destruct (py_neb value (default_value out))];
      eexists; (split; [reflexivity |]);
      [now apply wrapper_built_add_style | now apply wrapper_built_add_style | exact Hb2]. }
  destruct Hstyle as (s3 & E3 & Hb3).
  rewrite (bind_normal _ _ _ _ _ E3).
  match goal with
  | |- building s0 (?m s3).2 /\ _ =>
      assert (Hk : keeps w m) by (repeat keeps_step);
      assert (Hv : returns
                     (fun c => o_label opt = Some (lutris_option_label c) /\
                               lutris_option_key c = key /\
                               lutris_option_helptext c = default "" (o_help opt) /\
                               oc_advanced c = py_truthy (o_get (o_advanced opt)) /\
                               oc_visible c = true /\ oc_no_show_all c = false /\
                               oc_wrapper c = w) m)
        by (repeat (apply (returns_bind (fun _ => True)); [returns_trivial | intros ? _]);
            eapply returns_bind; [apply returns_getitem | intros label Hlabel];
            apply returns_ret; simpl; repeat split; done);
      destruct (finish_row opt value _ w s0 s3 _ m Hb3 Hk Hv) as [HB HR];
      split; [exact HB |];
      destruct ((m s3).1) as [c | | ex]; try done
  end.
  destruct HR as (HV & Hlt & wb & Hwb & H1 & H2 & H3 & H4).
  split; [exact HV | split; [exact Hlt |]].
  exists out, rsec, wb. done.
Qed.

(** ** Resolution of the producers *)

Lemma add_calls_nil (s : ConfigBox) : add_calls [] s = s.
Proof. destruct s. unfold add_calls, set_calls. simpl. now rewrite app_nil_r. Qed.

Lemma add_calls_app new1 new2 (s : ConfigBox) :
  add_calls new2 (add_calls new1 s) = add_calls (new1 ++ new2) s.
Proof. unfold add_calls, set_calls. simpl. now rewrite app_assoc. Qed.

Lemma call_producer_spec key field c ret (s : ConfigBox) :
  call_producer key field (VCallable c ret) s =
  (match ret with inl ex => Raise ex | inr v => Normal v end,
   add_calls [(key, field, c)] s).
Proof. unfold call_producer, bind, modify. simpl. now destruct ret. Qed.

Lemma resolve_visible_spec key opt (s : ConfigBox) :
  exists new,
    (resolve_visible key opt s).2 = add_calls new s /\
    new = visible_calls key opt /\
    match (resolve_visible key opt s).1 with
    | Normal opt' =>
        same_static opt opt' /\
        resolved_field (o_visible opt) (o_visible opt') /\
        o_choices opt' = o_choices opt /\
        o_condition opt' = o_condition opt
    | _ => True
    end.
Proof.
  unfold resolve_visible, visible_calls.
  destruct (o_visible opt) as [visible |] eqn:Hv.
  2: { exists []. rewrite add_calls_nil. simpl. rewrite Hv. unfold same_static. done. }
  destruct visible as [| b | z | str | l | c res];
    try (simpl; exists []; rewrite add_calls_nil;
         unfold bind, ret, continue; simpl;
         try match goal with |- context [negb ?b] => destruct b end; simpl;
         rewrite ?Hv; unfold same_static; done).
  exists [(key, "visible", c)]. cbn [callable].
  unfold bind. rewrite call_producer_spec.
  destruct res as [ex | v]; simpl; [done |].
  destruct (py_truthy v); simpl; [| done].
  rewrite ?Hv. unfold same_static. repeat split; eauto.
Qed.

Lemma resolve_choices_spec key opt (s : ConfigBox) :
  exists new,
    (resolve_choices key opt s).2 = add_calls new s /\
    (new = [] \/ new = choices_calls key opt) /\
    match (resolve_choices key opt s).1 with
    | Normal opt' =>
        new = choices_calls key opt /\
        same_static opt opt' /\
        o_visible opt' = o_visible opt /\
        o_condition opt' = o_condition opt /\
        (if bool_decide (o_type opt = Some "choice_with_search")
         then o_choices opt' = o_choices opt
         else resolved_field (o_choices opt) (o_choices opt'))
    | Continue => False
    | Raise _ => True
    end.
Proof.
  unfold resolve_choices, choices_calls, resolved_field, o_get.
  destruct (o_choices opt) as [choices |] eqn:Hc; simpl.
  2: { exists []. rewrite add_calls_nil. simpl. rewrite Hc. unfold same_static.
       case_bool_decide; repeat split; auto. }
  destruct choices as [| b | z | str | l | c res];
    try (simpl; exists []; rewrite add_calls_nil; simpl; rewrite Hc; unfold same_static;
         case_bool_decide; repeat split; auto).
  cbn [callable default]. unfold bind, getitem.
  destruct (o_type opt) as [type |] eqn:Ht; simpl.
  2: { exists []. rewrite add_calls_nil. auto. }
  destruct (String.eqb_spec type "choice_with_search") as [-> | Hne]; cbn [negb].
  - exists []. rewrite add_calls_nil. simpl.
    rewrite ?Hc, ?Ht. unfold same_static. repeat split; auto.
  - rewrite ?bool_decide_eq_false_2 by congruence.
    exists [(key, "choices", c)].
    destruct res as [ex | v]; unfold bind, modify, raise, ret; simpl; [auto |].
    rewrite ?Ht. unfold same_static. repeat split; eauto.
Qed.

Lemma resolve_condition_spec key opt (s : ConfigBox) :
  exists new,
    (resolve_condition key opt s).2 = add_calls new s /\
    new = condition_calls key opt /\
    match (resolve_condition key opt s).1 with
    | Normal opt' =>
        same_static opt opt' /\
        o_visible opt' = o_visible opt /\
        o_choices opt' = o_choices opt /\
        resolved_field (o_condition opt) (o_condition opt')
    | Continue => False
    | Raise _ => True
    end.
Proof.
  unfold resolve_condition, condition_calls, resolved_field, o_get.
  destruct (o_condition opt) as [condition |] eqn:Hc; simpl.
  2: { exists []. rewrite add_calls_nil. simpl. rewrite Hc. unfold same_static. done. }
  destruct condition as [| b | z | str | l | c res];
    try (simpl; exists []; rewrite add_calls_nil; simpl; rewrite Hc; unfold same_static; done).
  cbn [callable default].
  exists [(key, "condition", c)]. unfold bind. rewrite call_producer_spec.
  destruct res as [ex | v]; simpl; [done |].
  unfold same_static. repeat split; eauto.
Qed.

(** The three resolutions in sequence. *)
Lemma resolve_fields_spec (key : string) (value : pyval) (o : option_dict) (s : ConfigBox) :
  let m : M ConfigBox (string * pyval * option_dict) :=
    (let* opt := resolve_visible key o in
     let* opt := resolve_choices key opt in
     let* opt := resolve_condition key opt in
     ret (key, value, opt))%py in
  exists new,
    (m s).2 = add_calls new s /\
    new `prefix_of` (visible_calls key o ++ choices_calls key o ++ condition_calls key o) /\
    match (m s).1 with
    | Normal r =>
        new = visible_calls key o ++ choices_calls key o ++ condition_calls key o /\
        r.1.1 = key /\ r.1.2 = value /\
        same_static o r.2 /\
        resolved_field (o_visible o) (o_visible r.2) /\
        resolved_field (o_condition o) (o_condition r.2) /\
        (if bool_decide (o_type o = Some "choice_with_search")
         then o_choices r.2 = o_choices o
         else resolved_field (o_choices o) (o_choices r.2))
    | _ => True
    end.
Proof.
  cbv zeta.
  destruct (resolve_visible_spec key o s) as (n1 & E1 & -> & H1).
  destruct (resolve_visible key o s) as [[o1 | | ex] s1] eqn:R1; simpl in E1, H1; subst s1.
  2: { rewrite (bind_continue _ _ _ _ R1). eexists. split; [reflexivity |].
       split; [apply prefix_app_r; reflexivity | done]. }
  2: { rewrite (bind_raise _ _ _ _ _ R1). eexists. split; [reflexivity |].
       split; [apply prefix_app_r; reflexivity | done]. }
  rewrite (bind_normal _ _ _ _ _ R1).
  destruct H1 as (Hs1 & Hv1 & Hc1 & Hd1).
  assert (Hcc : choices_calls key o1 = choices_calls key o).
  { unfold choices_calls. destruct Hs1 as (_ & -> & _). now rewrite Hc1. }
  assert (Hdc : forall o2, o_condition o2 = o_condition o1 ->
                           condition_calls key o2 = condition_calls key o).
  { intros o2 E. unfold condition_calls. now rewrite E, Hd1. }
  destruct (resolve_choices_spec key o1 (add_calls (visible_calls key o) s))
    as (n2 & E2 & Hn2 & H2).
  destruct (resolve_choices key o1 (add_calls (visible_calls key o) s))
    as [[o2 | | ex] s2] eqn:R2; simpl in E2, H2; subst s2; try done.
  2: { rewrite (bind_raise _ _ _ _ _ R2). rewrite add_calls_app. eexists.
       split; [reflexivity |]. split; [| done].
       apply prefix_app. rewrite Hcc in Hn2.
       destruct Hn2 as [-> | ->]; [apply prefix_nil | apply prefix_app_r; reflexivity]. }
  rewrite (bind_normal _ _ _ _ _ R2).
  destruct H2 as (-> & Hs2 & Hv2 & Hd2 & Hc2). rewrite Hcc.
  destruct (resolve_condition_spec key o2
              (add_calls (choices_calls key o) (add_calls (visible_calls key o) s)))
    as (n3 & E3 & -> & H3).
  rewrite (Hdc o2 Hd2) in *.
  destruct (resolve_condition key o2
              (add_calls (choices_calls key o) (add_calls (visible_calls key o) s)))
    as [[o3 | | ex] s3] eqn:R3; simpl in E3, H3; subst s3; try done.
  2: { rewrite (bind_raise _ _ _ _ _ R3). rewrite !add_calls_app. eexists.
       split; [reflexivity |]. split; [reflexivity | done]. }
  rewrite (bind_normal _ _ _ _ _ R3). simpl.
  rewrite !add_calls_app. eexists. split; [reflexivity |].
  split; [reflexivity |].
  destruct H3 as (Hs3 & Hv3 & Hc3 & Hd3).
  split; [done |]. split; [done |]. split; [done |].
  split.
  { unfold same_static in *. intuition congruence. }
  split.
  { rewrite Hv3, Hv2. exact Hv1. }
  split.
  { rewrite <- Hd1, <- Hd2. exact Hd3. }
  rewrite Hc3. destruct Hs1 as (_ & Ht1 & _). rewrite Ht1 in Hc2. rewrite <- Hc1.
  exact Hc2.
Qed.

(** What the first part of the [try] body does: it only records producer
    calls, a prefix of those the descriptor can give rise to, and on a
    normal return it has made all of them and hands on the descriptor with
    the results in place of the producers. *)
Lemma resolve_option_spec (o : option_dict) (s : ConfigBox) :
  exists new,
    (resolve_option o s).2 = add_calls new s /\
    new `prefix_of` expected_calls o /\
    match (resolve_option o s).1 with
    | Normal r =>
        new = expected_calls o /\
        o_option o = Some r.1.1 /\
        (exists sec, config s = Some sec /\
                     r.1.2 = dict_get (effective_of sec (lutris_config s)) r.1.1) /\
        same_static o r.2 /\
        resolved_field (o_visible o) (o_visible r.2) /\
        resolved_field (o_condition o) (o_condition r.2) /\
        (if bool_decide (o_type o = Some "choice_with_search")
         then o_choices r.2 = o_choices o
         else resolved_field (o_choices o) (o_choices r.2))
    | _ => True
    end.
Proof.
  assert (Hstop : forall r : outcome (string * pyval * option_dict),
            match r with Normal _ => False | _ => True end ->
            exists new : list (string * string * nat),
              s = add_calls new s /\ new `prefix_of` expected_calls o /\
              match r with
              | Normal r =>
                  new = expected_calls o /\ o_option o = Some r.1.1 /\
                  (exists sec, config s = Some sec /\
                               r.1.2 = dict_get (effective_of sec (lutris_config s)) r.1.1) /\
                  same_static o r.2 /\
                  resolved_field (o_visible o) (o_visible r.2) /\
                  resolved_field (o_condition o) (o_condition r.2) /\
                  (if bool_decide (o_type o = Some "choice_with_search")
                   then o_choices r.2 = o_choices o
                   else resolved_field (o_choices o) (o_choices r.2))
              | _ => True
              end).
  { intros r Hr. exists []. rewrite add_calls_nil.
    split; [done | split; [apply prefix_nil |]]. now destruct r. }
  unfold resolve_option.
  rewrite (bind_normal (gets config_level) _ s s (config_level s) eq_refl).
  assert (Hscope : forall k : unit -> M ConfigBox (string * pyval * option_dict),
            (bind match o_scope o with
                  | Some scope =>
                      if negb (bool_decide (config_level s ∈ scope))
                      then continue else ret tt
                  | None => ret tt
                  end k) s = k tt s \/
            (bind match o_scope o with
                  | Some scope =>
                      if negb (bool_decide (config_level s ∈ scope))
                      then continue else ret tt
                  | None => ret tt
                  end k) s = (Continue, s)).
  { intros k. destruct (o_scope o) as [scope |]; [| now left].
    destruct (bool_decide (config_level s ∈ scope)); [now left | now right]. }
  match goal with
  | |- context [bind _ ?k s] => destruct (Hscope k) as [-> | ->]
  end.
  2: { simpl. now apply (Hstop Continue). }
  destruct (o_option o) as [key |] eqn:Hkey.
  2: { rewrite (bind_raise (getitem "option" None) _ s s (KeyError "option") eq_refl). simpl.
       now apply (Hstop Continue). }
  rewrite (bind_normal (getitem "option" (Some key)) _ s s key eq_refl).
  destruct (config s) as [sec |] eqn:Hc.
  2: { rewrite (bind_raise (config_get key) _ s s
                  (AttributeError "'NoneType' object has no attribute 'get'"))
         by (unfold config_get; now rewrite Hc).
       simpl. now apply (Hstop Continue). }
  rewrite (bind_normal (config_get key) _ s s
             (dict_get (effective_of sec (lutris_config s)) key))
    by (unfold config_get; now rewrite Hc).
  destruct (resolve_fields_spec key (dict_get (effective_of sec (lutris_config s)) key) o s)
    as (new & E & Hp & H).
  cbv zeta in E, H. exists new. unfold expected_calls. rewrite Hkey. simpl.
  split; [exact E | split; [exact Hp |]].
  match type of H with
  | match ?x with _ => _ end => destruct x as [r | | ex]; try done
  end.
  destruct H as (H1 & H2 & H3 & H4). split; [exact H1 |].
  split; [now rewrite H2 |]. split; [| exact H4].
  exists sec. rewrite H2, H3. done.
Qed.

(** ** One iteration of the render pass *)

Lemma on_self_eq {A} (m : M ConfigBox A) (p : pass) :
  on_self m p =
  ((m (self p)).1,
   {| self := (m (self p)).2; current_section := current_section p;
      current_vbox := current_vbox p |}).
Proof. unfold on_self. now destruct (m (self p)). Qed.

Lemma rows_app (ws1 ws2 : list widget) : rows (ws1 ++ ws2) = rows ws1 ++ rows ws2.
Proof. unfold rows. apply flat_map_app. Qed.

Lemma pack_in_frame_last f w pre section v vbox :
  Forall (not_frame f) pre ->
  pack_in_frame f w (pre ++ [SectionFrame f section v vbox]) =
  pre ++ [SectionFrame f section v (vbox ++ [w])].
Proof.
  intros Hpre. unfold pack_in_frame. rewrite map_app. simpl.
  rewrite Nat.eqb_refl. f_equal.
  induction Hpre as [| x pre Hx _ IH]; simpl; [done |].
  rewrite IH. f_equal. destruct x as [c | id sec' v' vbox' | name v' n]; try done.
  simpl in Hx. now apply Nat.eqb_neq in Hx as ->.
Qed.

(** Packing a row, into the form or into the frame packed last, adds it
    at the end of the rows. *)
Lemma pack_start_rows (p : pass) (c : option_container) :
  frame_last p ->
  rows (children (pack_start (current_vbox p) (OptionContainer c) (self p))) =
  rows (children (self p)) ++ [c].
Proof.
  unfold frame_last, pack_start. simpl.
  destruct (current_vbox p) as [f |].
  - intros (pre & section & v & vbox & -> & Hpre).
    rewrite pack_in_frame_last by done.
    rewrite !rows_app. unfold rows at 2 4. simpl. rewrite !app_nil_r.
    rewrite flat_map_app. simpl. now rewrite app_assoc.
  - intros _. rewrite rows_app. done.
Qed.

Lemma pack_start_frames (p : pass) (c : option_container) n :
  frame_last p ->
  Forall (frame_below n) (children (self p)) ->
  Forall (frame_below n) (children (pack_start (current_vbox p) (OptionContainer c) (self p))).
Proof.
  unfold frame_last, pack_start. simpl.
  destruct (current_vbox p) as [f |].
  - intros (pre & section & v & vbox & -> & Hpre) H.
    rewrite pack_in_frame_last by done.
    apply Forall_app in H as [H1 H2]. apply Forall_app. split; [done |].
    inversion H2 as [| ? ? H3 _]; subst. constructor; [exact H3 | constructor].
  - intros _ H. apply Forall_app. split; [done |]. constructor; [exact I | constructor].
Qed.

Lemma pack_start_frame_last (p : pass) (c : option_container) :
  frame_last p ->
  frame_last {| self := pack_start (current_vbox p) (OptionContainer c) (self p);
                current_section := current_section p;
                current_vbox := current_vbox p |}.
Proof.
  unfold frame_last, pack_start. simpl.
  destruct (current_vbox p) as [f |]; [| done].
  intros (pre & section & v & vbox & -> & Hpre).
  rewrite pack_in_frame_last by done.
  exists pre, section, v, (vbox ++ [OptionContainer c]). done.
Qed.

Lemma env_fields (s s' : ConfigBox) :
  env s' = env s ->
  options s' = options s /\ config_level s' = config_level s /\
  lutris_config s' = lutris_config s /\ game s' = game s /\
  config_section s' = config_section s /\ config s' = config s /\
  raw_config s' = raw_config s /\ _advanced_visibility s' = _advanced_visibility s /\
  _filter s' = _filter s /\ settings_reads s' = settings_reads s.
Proof.
  unfold env. intros H.
  repeat match type of H with
         | (_, _) = (_, _) =>
             let H1 := fresh in let H2 := fresh in
             pose proof (f_equal fst H) as H1; pose proof (f_equal snd H) as H2;
             simpl in H1, H2; clear H; rename H1 into H
         end.
  repeat split; assumption.
Qed.

Lemma well_formed_building (s s' : ConfigBox) :
  well_formed s -> building s s' -> well_formed s'.
Proof.
  intros (Hf & Hfr & Hr) (He & Hc & Hl & Hcs & Hn & Ho & Hf').
  split; [exact Hf' | split]; rewrite Hc.
  - eapply Forall_impl; [exact Hfr |].
    intros [c | id section v vbox | name v n]; simpl; auto. lia.
  - eapply Forall_impl; [exact Hr |]. simpl. intros c Hc'. lia.
Qed.

Lemma enter_section_spec (opt : option_dict) (p : pass) :
  pass_ok p ->
  exists p',
    enter_section opt p = (Normal tt, p') /\
    pass_ok p' /\
    env (self p') = env (self p) /\
    log (self p') = log (self p) /\
    calls (self p') = calls (self p) /\
    rows (children (self p')) = rows (children (self p)) /\
    next_id (self p) <= next_id (self p') /\
    wrapper_store (self p') = wrapper_store (self p).
Proof.
  intros Hok. pose proof Hok as [(Hf & Hfr & Hr) Hlast]. unfold enter_section.
  rewrite (bind_normal (gets current_section) _ p p (current_section p) eq_refl).
  destruct (bool_decide (o_section opt ≠ current_section p)).
  2: { exists p. split; [reflexivity |]. split; [exact Hok |]. repeat split; auto. }
  rewrite (bind_normal (set_current_section (o_section opt)) _ p _ tt eq_refl).
  assert (Hnone :
    exists p',
      set_current_vbox None
        {| self := self p; current_section := o_section opt;
           current_vbox := current_vbox p |} = (Normal tt, p') /\
      pass_ok p' /\
      env (self p') = env (self p) /\
      log (self p') = log (self p) /\
      calls (self p') = calls (self p) /\
      rows (children (self p')) = rows (children (self p)) /\
      next_id (self p) <= next_id (self p') /\
      wrapper_store (self p') = wrapper_store (self p)).
  { eexists. split; [reflexivity |]. simpl. split; [| repeat split; auto].
    split; [exact (proj1 Hok) | exact I]. }
  destruct (o_section opt) as [name |]; [| exact Hnone].
  destruct (str_truthy name); [| exact Hnone].
  clear Hnone. unfold bind, on_self, fresh, set_current_vbox, modify. simpl.
  eexists. split; [reflexivity |]. simpl.
  split; [| split; [done | split; [done | split; [done | split; [| split; [lia | done]]]]]].
  - split; [split; [| split] |].
    + intros id Hid. simpl in *. apply Hf. lia.
    + simpl. apply Forall_app. split.
      * eapply Forall_impl; [exact Hfr |].
        intros [c | id section v vbox | nm v n]; simpl; auto.
      * constructor; [simpl; lia | constructor].
    + simpl. rewrite rows_app. unfold rows at 2. simpl. rewrite app_nil_r.
      eapply Forall_impl; [exact Hr |]. simpl. intros c Hc. lia.
    + unfold frame_last. simpl. exists (children (self p)), name, false, [].
      split; [done |].
      eapply Forall_impl; [exact Hfr |].
      intros [c | id section v vbox | nm v n]; simpl; auto. lia.
  - rewrite rows_app. unfold rows at 2. simpl. now rewrite app_nil_r.
Qed.

Lemma pass_ok_add_calls new (p : pass) :
  pass_ok p ->
  pass_ok {| self := add_calls new (self p); current_section := current_section p;
             current_vbox := current_vbox p |}.
Proof. intros H. exact H. Qed.

(** One iteration of the loop body, from a well-formed pass. *)
Lemma generate_option_spec (ext : Externals) gen (o : option_dict) (p : pass) :
  pass_ok p ->
  let r := generate_option ext gen o p in
  pass_ok r.2 /\
  env (self r.2) = env (self p) /\
  log (self r.2) = log (self p) /\
  next_id (self p) <= next_id (self r.2) /\
  (forall id, id < next_id (self p) ->
     wrapper_store (self r.2) !! id = wrapper_store (self p) !! id) /\
  (exists segment,
     calls (self r.2) = calls (self p) ++ segment /\ calls_segment (o, r.1) segment) /\
  match r.1 with
  | Normal _ =>
      exists c,
        rows (children (self r.2)) = rows (children (self p)) ++ [c] /\
        next_id (self p) <= oc_wrapper c /\
        rendered_for ext gen o c (self r.2)
  | _ => rows (children (self r.2)) = rows (children (self p))
  end.
Proof.
  intros Hok. cbv zeta. unfold generate_option.
  destruct (resolve_option_spec o (self p)) as (new & E & Hp & H).
  set (p1 := {| self := add_calls new (self p); current_section := current_section p;
                current_vbox := current_vbox p |}).
  assert (Hok1 : pass_ok p1) by (now apply pass_ok_add_calls).
  destruct (resolve_option o (self p)) as [[r | | ex] s1] eqn:R; simpl in E, H; subst s1.
  2: { rewrite (bind_continue (on_self (resolve_option o)) _ p p1)
         by (rewrite on_self_eq, R; reflexivity).
       simpl. repeat (split; [done |]). split; [| done].
       exists new. split; [done | split; done]. }
  2: { rewrite (bind_raise (on_self (resolve_option o)) _ p p1 ex)
         by (rewrite on_self_eq, R; reflexivity).
       simpl. repeat (split; [done |]). split; [| done].
       exists new. split; [done | split; done]. }
  rewrite (bind_normal (on_self (resolve_option o)) _ p p1 r)
    by (rewrite on_self_eq, R; reflexivity).
  destruct r as [[key value] opt']. cbn [fst snd] in *.
  destruct H as (-> & Hkey & (sec & Hsec & Hvalue) & Hstatic & Hvis & Hcond & Hchoices).
  destruct (enter_section_spec opt' p1 Hok1)
    as (p2 & E2 & Hok2 & He2 & Hl2 & Hc2 & Hr2 & Hn2 & Hw2).
  rewrite (bind_normal (enter_section opt') _ p1 p2 tt E2).
  assert (Hn2' : next_id (self p) <= next_id (self p2)) by exact Hn2.
  destruct (build_row_spec ext gen opt' key value (self p2) (proj1 (proj1 Hok2)))
    as [Hb Hres].
  destruct Hb as (He3 & Hc3 & Hl3 & Hcs3 & Hn3 & Ho3 & Hf3).
  set (p3 := {| self := (build_row ext gen opt' key value (self p2)).2;
                current_section := current_section p2;
                current_vbox := current_vbox p2 |}).
  assert (Hwf3 : well_formed (self p3)).
  { apply (well_formed_building (self p2)); [apply Hok2 | done]. }
  assert (Hlast3 : frame_last p3).
  { destruct Hok2 as [_ Hlast2]. unfold frame_last in *. simpl. now rewrite Hc3. }
  assert (Hcalls : calls (self p3) = calls (self p) ++ expected_calls o).
  { simpl. now rewrite Hcs3, Hc2. }
  assert (Hold : forall id, id < next_id (self p) ->
                   wrapper_store (self p3) !! id = wrapper_store (self p) !! id).
  { intros id Hid. simpl. rewrite Ho3 by (simpl in Hn2; lia). now rewrite Hw2. }
  assert (Henv : env (self p3) = env (self p)).
  { simpl. rewrite He3, He2. reflexivity. }
  assert (Hlog : log (self p3) = log (self p)).
  { simpl. rewrite Hl3, Hl2. reflexivity. }
  assert (Hnext : next_id (self p) <= next_id (self p3)).
  { simpl in *. lia. }
  assert (Hrows3' : rows (children (self p3)) = rows (children (self p))).
  { simpl. rewrite Hc3, Hr2. reflexivity. }
  destruct (build_row ext gen opt' key value (self p2)) as [[c | | ex] s3] eqn:B;
    simpl in Hres; try done.
  2: { rewrite (bind_raise (on_self (build_row ext gen opt' key value)) _ p2 p3 ex)
         by (rewrite on_self_eq, B; reflexivity).
       split; [done |]. split; [exact Henv |]. split; [exact Hlog |].
       split; [exact Hnext |]. split; [exact Hold |]. split.
       - exists (expected_calls o). split; [done | split; done].
       - exact Hrows3'. }
  rewrite (bind_normal (on_self (build_row ext gen opt' key value)) _ p2 p3 c)
    by (rewrite on_self_eq, B; reflexivity).
  rewrite (bind_normal (gets current_vbox) _ p3 p3 (current_vbox p3) eq_refl).
  rewrite on_self_eq. unfold modify. cbn [fst snd self current_vbox current_section].
  destruct Hres as ((Hlabel & Hk & Hhelp & Hadv & _ & _ & Hwid) & Hlt & out & rsec & wb &
                    Hgen & Hraw & Hwb & Hwo & Hwv & Hwbuilds & Hwstyles).
  destruct Hwf3 as (Hf3' & Hfr3 & Hrows3).
  assert (Hrows : rows (children (pack_start (current_vbox p3) (OptionContainer c) (self p3))) =
                  rows (children (self p3)) ++ [c]) by (apply (pack_start_rows p3 c Hlast3)).
  cbn [self].
  split; [| split; [exact Henv | split; [exact Hlog | split; [exact Hnext | split; [exact Hold |]]]]].
  - split; [split; [exact Hf3' | split] |]; cbn [self].
    + apply (pack_start_frames p3 c _ Hlast3 Hfr3).
    + rewrite Hrows. apply Forall_app. split; [exact Hrows3 |].
      constructor; [change (oc_wrapper c < next_id s3); lia | constructor].
    + apply (pack_start_frame_last p3 c Hlast3).
  - split.
    + exists (expected_calls o). split; [done | split; done].
    + exists c. rewrite Hrows, Hrows3'. split; [done |]. split; [lia |].
      exists sec, rsec, out, wb. simpl.
      destruct (env_fields _ _ Henv) as (_ & _ & Hlc3 & _ & _ & Hcf3 & Hrc3 & _).
      destruct (env_fields _ _ He2) as (_ & _ & Hlc2 & _ & _ & Hcf2 & Hrc2 & _).
      cbn [self p1 p3 snd] in Hlc3, Hcf3, Hrc3, Hlc2, Hcf2, Hrc2.
      change (lutris_config (add_calls (expected_calls o) (self p)))
        with (lutris_config (self p)) in Hlc2.
      change (raw_config (add_calls (expected_calls o) (self p)))
        with (raw_config (self p)) in Hrc2.
      pose proof Hstatic as (S1 & S2 & S3 & S4 & S5 & S6 & S7 & S8 & S9 & S10).
      rewrite Hlc3, Hwid, Hwb, Hwo, Hwv, Hk.
      split. { rewrite Hcf3. exact Hsec. }
      split. { rewrite Hrc3, <- Hrc2. exact Hraw. }
      split. { exact Hkey. }
      split. { rewrite <- S3. exact Hlabel. }
      split. { rewrite Hhelp, S4. reflexivity. }
      split. { rewrite Hadv, S7. reflexivity. }
      split; [reflexivity |]. split; [exact Hstatic |]. split; [exact Hvis |].
      split; [exact Hcond |]. split; [exact Hchoices |]. split; [exact Hvalue |].
      split; [exact Hwbuilds |]. split; [exact Hgen |].
      rewrite Hwstyles, Hlc2. reflexivity.
Qed.

(** ** The loop of the render pass *)

Lemma same_row_fields (c c' : option_container) :
  same_row c c' ->
  lutris_option_key c = lutris_option_key c' /\
  lutris_option_label c = lutris_option_label c' /\
  lutris_option_helptext c = lutris_option_helptext c' /\
  oc_advanced c = oc_advanced c' /\
  oc_wrapper c = oc_wrapper c' /\
  oc_reset_btn c = oc_reset_btn c'.
Proof.
  unfold same_row. intros H.
  pose proof (f_equal lutris_option_key H). pose proof (f_equal lutris_option_label H).
  pose proof (f_equal lutris_option_helptext H). pose proof (f_equal oc_advanced H).
  pose proof (f_equal oc_wrapper H). pose proof (f_equal oc_reset_btn H).
  simpl in *. done.
Qed.

Lemma rendered_for_same_row ext gen o c c' s :
  same_row c c' -> rendered_for ext gen o c s -> rendered_for ext gen o c' s.
Proof.
  intros Hs. destruct (same_row_fields c c' Hs) as (H1 & H2 & H3 & H4 & H5 & _).
  unfold rendered_for. rewrite H1, H2, H3, H4, H5. done.
Qed.

(** A rendered row stays one as long as the environment and its wrapper
    are left alone. *)
Lemma rendered_for_stable ext gen o c (s s' : ConfigBox) :
  env s' = env s ->
  wrapper_store s' !! oc_wrapper c = wrapper_store s !! oc_wrapper c ->
  rendered_for ext gen o c s -> rendered_for ext gen o c s'.
Proof.
  intros He Hw. destruct (env_fields _ _ He) as (_ & _ & Hlc & _ & _ & Hc & Hr & _).
  unfold rendered_for. rewrite Hlc, Hc, Hr, Hw. done.
Qed.

Lemma generate_option_guarded_spec (ext : Externals) gen (o : option_dict) (p : pass) :
  pass_ok p ->
  let r := (generate_option ext gen o p).1 in
  let p' := generate_option_guarded ext gen o p in
  pass_ok p' /\
  env (self p') = env (self p) /\
  log (self p') = log (self p) ++ failed [(o, r)] /\
  next_id (self p) <= next_id (self p') /\
  (forall id, id < next_id (self p) ->
     wrapper_store (self p') !! id = wrapper_store (self p) !! id) /\
  (exists segment,
     calls (self p') = calls (self p) ++ segment /\ calls_segment (o, r) segment) /\
  match r with
  | Normal _ =>
      exists c,
        rows (children (self p')) = rows (children (self p)) ++ [c] /\
        next_id (self p) <= oc_wrapper c /\
        rendered_for ext gen o c (self p')
  | _ => rows (children (self p')) = rows (children (self p))
  end.
Proof.
  intros Hok. cbv zeta. unfold generate_option_guarded.
  destruct (generate_option_spec ext gen o p Hok)
    as (Hok' & He & Hl & Hn & Hw & Hcalls & Hrows).
  cbv zeta in *.
  destruct (generate_option ext gen o p) as [[[] | | ex] p'] eqn:G; simpl in *.
  - rewrite app_nil_r. done.
  - rewrite app_nil_r. done.
  - split; [exact Hok' |]. split; [exact He |]. split; [now rewrite Hl |]. done.
Qed.

Lemma generate_rows_spec (ext : Externals) gen (opts : list option_dict) (p : pass) :
  pass_ok p ->
  let p' := generate_rows ext gen opts p in
  let tr := pass_outcomes ext gen opts p in
  pass_ok p' /\
  env (self p') = env (self p) /\
  log (self p') = log (self p) ++ failed tr /\
  next_id (self p) <= next_id (self p') /\
  (forall id, id < next_id (self p) ->
     wrapper_store (self p') !! id = wrapper_store (self p) !! id) /\
  (exists segments,
     calls (self p') = calls (self p) ++ concat segments /\
     Forall2 calls_segment tr segments) /\
  exists new_rows,
    rows (children (self p')) = rows (children (self p)) ++ new_rows /\
    Forall2 (fun o c => next_id (self p) <= oc_wrapper c /\
                        rendered_for ext gen o c (self p'))
      (built tr) new_rows.
Proof.
  revert p. induction opts as [| o rest IH]; intros p Hok; cbv zeta.
  - simpl. split; [done |]. split; [done |]. split; [now rewrite app_nil_r |].
    split; [done |]. split; [done |]. split.
    + exists []. simpl. rewrite app_nil_r. split; [done | constructor].
    + exists []. rewrite app_nil_r. split; [done | constructor].
  - destruct (generate_option_guarded_spec ext gen o p Hok)
      as (Hok1 & He1 & Hl1 & Hn1 & Hw1 & (seg & Hc1 & Hseg) & Hrows1).
    cbv zeta in *.
    set (p1 := generate_option_guarded ext gen o p) in *.
    set (r := (generate_option ext gen o p).1) in *.
    destruct (IH p1 Hok1) as (Hok2 & He2 & Hl2 & Hn2 & Hw2 & (segs & Hc2 & Hsegs) & Hrows2).
    cbv zeta in *.
    change (generate_rows ext gen (o :: rest) p) with (generate_rows ext gen rest p1).
    change (pass_outcomes ext gen (o :: rest) p)
      with ((o, r) :: pass_outcomes ext gen rest p1).
    set (p2 := generate_rows ext gen rest p1) in *.
    set (tr := pass_outcomes ext gen rest p1) in *.
    split; [exact Hok2 |]. split; [congruence |].
    split.
    { rewrite Hl2, Hl1, <- app_assoc. f_equal. unfold failed. simpl.
      destruct r as [[] | | ex]; reflexivity. }
    split; [lia |].
    split.
    { intros id Hid. rewrite Hw2 by lia. now apply Hw1. }
    split.
    { exists (seg :: segs). simpl. rewrite Hc2, Hc1, <- app_assoc.
      split; [done | now constructor]. }
    destruct Hrows2 as (new2 & Hr2 & Hf2).
    assert (Hf2' : Forall2 (fun o c => next_id (self p) <= oc_wrapper c /\
                                       rendered_for ext gen o c (self p2))
                     (built tr) new2).
    { eapply Forall2_impl; [exact Hf2 |]. simpl. intros o' c' [H1 H2]. split; [lia | done]. }
    destruct r as [[] | | ex]; simpl in Hrows1.
    + destruct Hrows1 as (c & Hr1 & Hwc & Hrc).
      exists (c :: new2). rewrite Hr2, Hr1, <- app_assoc. split; [done |].
      unfold built. simpl. fold (built tr). constructor; [| exact Hf2'].
      split; [exact Hwc |].
      apply (rendered_for_stable ext gen o c (self p1)); [done | | done].
      apply Hw2.
      destruct Hok1 as [(_ & _ & Hfresh) _]. rewrite Hr1 in Hfresh.
      apply Forall_app in Hfresh as [_ Hfresh]. now inversion Hfresh.
    + exists new2. rewrite Hr2, Hrows1. split; [done | exact Hf2'].
    + exists new2. rewrite Hr2, Hrows1. split; [done | exact Hf2'].
Qed.

(** ** Showing the tree and applying the visibility engine *)

Lemma erase_show_all_widget (w : widget) :
  erase_visibility (show_all_widget w) = erase_visibility w.
Proof.
  induction w as [c | name v n | id section v vbox IH] using widget_nested_ind; simpl.
  - now destruct (oc_no_show_all c).
  - now destruct n.
  - f_equal. induction IH as [| x xs Hx _ IHxs]; simpl; [done |]. now rewrite Hx, IHxs.
Qed.

Lemma erase_show_all (ws : list widget) :
  map erase_visibility (map show_all_widget ws) = map erase_visibility ws.
Proof.
  induction ws as [| w ws IH]; simpl; [done |]. now rewrite erase_show_all_widget, IH.
Qed.

Lemma rows_of_erase (w : widget) :
  rows_of (erase_visibility w) = map (oc_set_visibility false) (rows_of w).
Proof.
  induction w as [c | name v n | id section v vbox IH] using widget_nested_ind; simpl;
    try done.
  induction IH as [| x xs Hx _ IHxs]; simpl; [done |].
  now rewrite map_app, Hx, IHxs.
Qed.

Lemma rows_erase (ws : list widget) :
  rows (map erase_visibility ws) = map (oc_set_visibility false) (rows ws).
Proof.
  unfold rows. induction ws as [| w ws IH]; simpl; [done |].
  now rewrite map_app, rows_of_erase, IH.
Qed.

Lemma cons_eq_parts {A} (a b : A) (l l' : list A) :
  a :: l = b :: l' -> a = b /\ l = l'.
Proof. intros H. injection H. auto. Qed.

Lemma same_rows_split (l l1 l2 : list option_container) :
  map (oc_set_visibility false) l = map (oc_set_visibility false) (l1 ++ l2) ->
  exists l1' l2', l = l1' ++ l2' /\ Forall2 same_row l1 l1' /\ Forall2 same_row l2 l2'.
Proof.
  revert l. induction l1 as [| a l1 IH]; intros l H; simpl in H.
  - exists [], l. split; [done | split; [constructor |]].
    revert l H. induction l2 as [| b l2 IH2]; intros [| x l] H; simpl in H;
      try discriminate; [constructor |].
    apply cons_eq_parts in H as [Hx H].
    constructor; [exact (eq_sym Hx) | now apply IH2].
  - destruct l as [| x l]; simpl in H; [discriminate |].
    apply cons_eq_parts in H as [Hx H]. destruct (IH l H) as (l1' & l2' & -> & H1 & H2).
    exists (x :: l1'), l2'. split; [done | split; [| done]].
    constructor; [exact (eq_sym Hx) | done].
Qed.

Lemma children_show_all (s : ConfigBox) :
  children (show_all s) = map show_all_widget (children s).
Proof. reflexivity. Qed.

(** A complete render pass over a non-empty schema, step by step. *)
Lemma generate_widgets_unfold (ext : Externals) (s : ConfigBox) :
  options s <> [] ->
  generate_widgets ext s =
  set_advanced_visibility_to
    (py_eqb (read_setting ext "show_advanced_options") (VStr "True"))
    (set_settings_reads S
       (show_all
          (self (generate_rows ext (get_widget_generator ext (select_config_section s))
                   (options (select_config_section s))
                   {| self := select_config_section s; current_section := None;
                      current_vbox := None |})))).
Proof.
  intros Hne. unfold generate_widgets. destruct (options s); [done | reflexivity].
Qed.

Lemma select_config_section_eq (s : ConfigBox) :
  exists c r,
    select_config_section s = set_config (fun _ => c) (set_raw_config (fun _ => r) s).
Proof.
  unfold select_config_section. destruct (config_section s) as [[] |]; eauto.
  exists (config s), (raw_config s). now destruct s.
Qed.

Lemma rendered_for_transfer ext gen o c (s s' : ConfigBox) :
  config s' = config s ->
  raw_config s' = raw_config s ->
  lutris_config s' = lutris_config s ->
  wrapper_store s' = wrapper_store s ->
  rendered_for ext gen o c s -> rendered_for ext gen o c s'.
Proof.
  intros Hc Hr Hlc Hw. unfold rendered_for. rewrite Hlc, Hc, Hr, Hw. done.
Qed.

Lemma Forall2_same_row {A} (R : A -> option_container -> Prop) xs l l' :
  (forall x c c', same_row c c' -> R x c -> R x c') ->
  Forall2 same_row l l' ->
  Forall2 R xs l ->
  Forall2 R xs l'.
Proof.
  intros HR Hs. revert xs. induction Hs as [| c c' l l' Hc _ IH]; intros xs H.
  - inversion H; subst. constructor.
  - inversion H as [| x ? xs' ? Hx Hxs]; subst. constructor; [now apply (HR x c) | now apply IH].
Qed.

(** What a complete render pass over a non-empty schema does, in terms
    of the outcomes of the [try] body for the descriptors of the
    schema. *)
Lemma generate_widgets_spec (ext : Externals) (s : ConfigBox) :
  options s <> [] ->
  well_formed s ->
  let s1 := select_config_section s in
  let gen := get_widget_generator ext s1 in
  let tr := pass_outcomes ext gen (options s)
              {| self := s1; current_section := None; current_vbox := None |} in
  let adv := py_eqb (read_setting ext "show_advanced_options") (VStr "True") in
  let s' := generate_widgets ext s in
  log s' = log s ++ failed tr /\
  (exists segments,
     calls s' = calls s ++ concat segments /\ Forall2 calls_segment tr segments) /\
  (exists old_rows new_rows,
     rows (children s') = old_rows ++ new_rows /\
     Forall2 same_row (rows (children s)) old_rows /\
     Forall2 (fun o c => next_id s <= oc_wrapper c /\ rendered_for ext gen o c s')
       (built tr) new_rows) /\
  lutris_config s' = lutris_config s /\
  config s' = config s1 /\
  raw_config s' = raw_config s1 /\
  _filter s' = _filter s /\
  settings_reads s' = S (settings_reads s) /\
  _advanced_visibility s' = adv /\
  (forall x, widget_in x (children s') -> settled adv (lower (_filter s)) x) /\
  (forall id, id < next_id s -> wrapper_store s' !! id = wrapper_store s !! id).
Proof.
  intros Hne Hwf. cbv zeta. rewrite (generate_widgets_unfold ext s Hne).
  destruct (select_config_section_eq s) as (cf & rf & Es). rewrite Es.
  set (s1 := set_config (fun _ => cf) (set_raw_config (fun _ => rf) s)).
  set (gen := get_widget_generator ext s1).
  set (p0 := {| self := s1; current_section := None; current_vbox := None |}).
  assert (Hok0 : pass_ok p0) by (split; [exact Hwf | exact I]).
  change (options s1) with (options s).
  destruct (generate_rows_spec ext gen (options s) p0 Hok0)
    as (Hok & He & Hl & Hn & Hw & Hcalls & (new_rows & Hrows & Hnew)).
  cbv zeta in *.
  set (p' := generate_rows ext gen (options s) p0) in *.
  set (tr := pass_outcomes ext gen (options s) p0) in *.
  set (adv := py_eqb (read_setting ext "show_advanced_options") (VStr "True")).
  destruct (env_fields _ _ He) as (_ & _ & Hlc & _ & _ & Hcf & Hrc & _ & Hfilter & Hreads).
  set (s2 := set_settings_reads S (show_all (self p'))).
  assert (Hch : children (set_advanced_visibility_to adv s2) =
                (update_widgets adv (lower (_filter (self p')))
                   (map show_all_widget (children (self p')))).1) by reflexivity.
  destruct (update_widgets_spec adv (lower (_filter (self p')))
              (map show_all_widget (children (self p'))))
    as (_ & Hshape & Hsettled).
  split; [exact Hl |]. split; [exact Hcalls |]. split.
  { assert (Hmap : map (oc_set_visibility false)
                     (rows (children (set_advanced_visibility_to adv s2))) =
                   map (oc_set_visibility false) (rows (children s) ++ new_rows)).
    { rewrite Hch, <- rows_erase, Hshape, erase_show_all, rows_erase. f_equal. exact Hrows. }
    destruct (same_rows_split _ _ _ Hmap) as (old' & new' & E & Hold & Hnew').
    exists old', new'. split; [exact E | split; [exact Hold |]].
    apply (Forall2_same_row _ _ new_rows new'); [| exact Hnew' | ].
    - intros o c c' Hcc' [H1 H2]. destruct (same_row_fields c c' Hcc') as (_ & _ & _ & _ & Hwc & _).
      split; [now rewrite <- Hwc | now apply (rendered_for_same_row ext gen o c c')].
    - eapply Forall2_impl; [exact Hnew |]. simpl. intros o c [H1 H2]. split; [exact H1 |].
      now apply (rendered_for_transfer ext gen o c (self p')). }
  split; [exact Hlc |]. split; [exact Hcf |]. split; [exact Hrc |].
  split; [exact Hfilter |].
  split; [change (S (settings_reads (self p')) = S (settings_reads s)); now rewrite Hreads |].
  split; [reflexivity |].
  split.
  - intros x Hx. rewrite Hch in Hx. apply Hsettled in Hx.
    change (_filter s1) with (_filter s) in Hfilter. now rewrite Hfilter in Hx.
  - exact Hw.
Qed.

Lemma well_formed_new_box level lc opts : well_formed (new_box level lc opts).
Proof.
  split; [| split; constructor].
  intros id _. simpl. rewrite !lookup_empty. done.
Qed.

Lemma pass_outcomes_fst ext gen opts p :
  map fst (pass_outcomes ext gen opts p) = opts.
Proof.
  revert p. induction opts as [| o rest IH]; intros p; simpl; [done |]. now rewrite IH.
Qed.

(** ** Failures of single rows *)

(** C5. A render pass over a non-empty schema runs the [try] body once
    for every descriptor, in order, whatever the outcomes of the others.
    The log gains, for each descriptor whose body raised, one entry with
    the option key of that descriptor and the exception, and nothing
    else; the tree keeps the rows it had and gains exactly one row for
    each descriptor whose body completed, in the order of the schema,
    carrying the key and the label of that descriptor; a descriptor whose
    body raised, or was skipped, gains none. *)
Theorem generate_widgets_isolates_failures (ext : Externals) (s : ConfigBox) :
  options s <> [] ->
  well_formed s ->
  let s1 := select_config_section s in
  let gen := get_widget_generator ext s1 in
  let tr := pass_outcomes ext gen (options s)
              {| self := s1; current_section := None; current_vbox := None |} in
  let s' := generate_widgets ext s in
  map fst tr = options s /\
  log s' = log s ++ failed tr /\
  exists old_rows new_rows,
    rows (children s') = old_rows ++ new_rows /\
    Forall2 same_row (rows (children s)) old_rows /\
    Forall2 (fun o c => o_option o = Some (lutris_option_key c) /\
                        o_label o = Some (lutris_option_label c))
      (built tr) new_rows.
Proof.
  intros Hne Hwf. cbv zeta.
  destruct (generate_widgets_spec ext s Hne Hwf)
    as (Hlog & _ & (old_rows & new_rows & Hrows & Hold & Hnew) & _).
  cbv zeta in *.
  split; [apply pass_outcomes_fst |]. split; [exact Hlog |].
  exists old_rows, new_rows. split; [exact Hrows | split; [exact Hold |]].
  eapply Forall2_impl; [exact Hnew |]. simpl.
  intros o c [_ (sec & rsec & out & wb & _ & _ & Hk & Hlabel & _)]. done.
Qed.

(** ** The weight of new rows *)

(** The style providers the pass adds render the weight the
    specification assigns. *)
Lemma rendered_weight_styles_for (raw : gmap string pyval) (k : string)
    (value default_ : pyval) (wb : wrapper_box) :
  w_styles wb = styles_for (bool_decide (is_Some (raw !! k))) value default_ ->
  rendered_weight wb = weight_for raw k value default_.
Proof.
  intros Hs. unfold rendered_weight, weight_for, styles_for, py_neb in *. rewrite Hs.
  destruct (raw !! k) as [v |] eqn:Hk.
  - rewrite bool_decide_eq_true_2 by eauto. reflexivity.
  - rewrite bool_decide_eq_false_2 by (intros [? ?]; discriminate).
    destruct (py_eqb value default_); reflexivity.
Qed.

(** C1. A render pass over a non-empty schema leaves the layer state as
    it was, and every row it produces (one for each descriptor whose row
    was built, in order) has a wrapper built for the effective value of
    its key whose style providers are exactly: bold font weight if the
    key is in the raw dictionary; italic font style if it is not and the
    effective value differs from the default the generator reported;
    none otherwise. Its rendered weight is bold, italic or plain
    accordingly. *)
Theorem generate_widgets_weights (ext : Externals) (s : ConfigBox) :
  options s <> [] ->
  well_formed s ->
  let s1 := select_config_section s in
  let gen := get_widget_generator ext s1 in
  let tr := pass_outcomes ext gen (options s)
              {| self := s1; current_section := None; current_vbox := None |} in
  let s' := generate_widgets ext s in
  lutris_config s' = lutris_config s /\
  exists old_rows new_rows,
    rows (children s') = old_rows ++ new_rows /\
    Forall2 same_row (rows (children s)) old_rows /\
    Forall2
      (fun o c =>
         exists sec rsec wb out,
           config s' = Some sec /\
           raw_config s' = Some rsec /\
           o_option o = Some (lutris_option_key c) /\
           wrapper_store s' !! oc_wrapper c = Some wb /\
           w_value wb = dict_get (effective_of sec (lutris_config s)) (lutris_option_key c) /\
           generate_widget ext gen (w_option wb) (w_value wb) = inr out /\
           w_styles wb =
             (if bool_decide (is_Some (raw_of rsec (lutris_config s) !! lutris_option_key c))
              then [("font-weight", "bold")]
              else if py_neb (w_value wb) (default_value out)
                   then [("font-style", "italic")]
                   else []) /\
           rendered_weight wb =
             weight_for (raw_of rsec (lutris_config s)) (lutris_option_key c)
               (w_value wb) (default_value out))
      (built tr) new_rows.
Proof.
  intros Hne Hwf. cbv zeta.
  destruct (generate_widgets_spec ext s Hne Hwf)
    as (_ & _ & (old_rows & new_rows & Hrows & Hold & Hnew) & Hlc & _).
  cbv zeta in *.
  split; [exact Hlc |].
  exists old_rows, new_rows. split; [exact Hrows | split; [exact Hold |]].
  eapply Forall2_impl; [exact Hnew |]. simpl.
  intros o c [_ (sec & rsec & out & wb & Hc & Hr & Hk & _ & _ & _ & Hwb & _ & _ & _ & _ &
                 Hv & _ & Hgen & Hstyles)].
  rewrite Hlc in Hv, Hstyles.
  exists sec, rsec, wb, out.
  split; [exact Hc |]. split; [exact Hr |]. split; [exact Hk |]. split; [exact Hwb |].
  split; [exact Hv |]. split; [exact Hgen |]. split; [exact Hstyles |].
  now apply rendered_weight_styles_for.
Qed.

(** ** Producers *)

Lemma calls_of_app field (l1 l2 : list (string * string * nat)) :
  calls_of field (l1 ++ l2) = calls_of field l1 ++ calls_of field l2.
Proof. unfold calls_of. apply filter_app. Qed.

Lemma calls_of_visible_calls field key o :
  calls_of field (visible_calls key o) =
  if decide ("visible" = field) then visible_calls key o else [].
Proof.
  unfold calls_of, visible_calls.
  destruct (o_visible o) as [[| | | | | c r] |]; try (case_decide; reflexivity).
  case_decide; [rewrite filter_cons_True by done | rewrite filter_cons_False by done];
    reflexivity.
Qed.

Lemma calls_of_choices_calls field key o :
  calls_of field (choices_calls key o) =
  if decide ("choices" = field) then choices_calls key o else [].
Proof.
  unfold calls_of, choices_calls.
  destruct (o_get (o_choices o)) as [| | | | | c r]; try (case_decide; reflexivity).
  case_bool_decide; [case_decide; reflexivity |].
  case_decide; [rewrite filter_cons_True by done | rewrite filter_cons_False by done];
    reflexivity.
Qed.

Lemma calls_of_condition_calls field key o :
  calls_of field (condition_calls key o) =
  if decide ("condition" = field) then condition_calls key o else [].
Proof.
  unfold calls_of, condition_calls.
  destruct (o_get (o_condition o)) as [| | | | | c r]; try (case_decide; reflexivity).
  case_decide; [rewrite filter_cons_True by done | rewrite filter_cons_False by done];
    reflexivity.
Qed.

Lemma visible_calls_length key o : length (visible_calls key o) <= 1.
Proof.
  unfold visible_calls. destruct (o_visible o) as [[| | | | | c r] |]; simpl; lia.
Qed.

Lemma choices_calls_length key o : length (choices_calls key o) <= 1.
Proof.
  unfold choices_calls. destruct (o_get (o_choices o)) as [| | | | | c r]; simpl; try lia.
  case_bool_decide; simpl; lia.
Qed.

Lemma condition_calls_length key o : length (condition_calls key o) <= 1.
Proof.
  unfold condition_calls. destruct (o_get (o_condition o)) as [| | | | | c r]; simpl; lia.
Qed.

(** The calls a descriptor can give rise to: those of each field, and at
    most one per field. *)
Lemma expected_calls_fields (o : option_dict) :
  let key := default "" (o_option o) in
  calls_of "visible" (expected_calls o) = visible_calls key o /\
  calls_of "choices" (expected_calls o) = choices_calls key o /\
  calls_of "condition" (expected_calls o) = condition_calls key o.
Proof.
  cbv zeta. unfold expected_calls.
  rewrite !calls_of_app, !calls_of_visible_calls, !calls_of_choices_calls,
    !calls_of_condition_calls.
  repeat split; repeat case_decide; try discriminate; try done; simpl;
    rewrite ?app_nil_r; reflexivity.
Qed.

Lemma expected_calls_once (o : option_dict) (field : string) :
  length (calls_of field (expected_calls o)) <= 1.
Proof.
  unfold expected_calls.
  rewrite !calls_of_app, calls_of_visible_calls, calls_of_choices_calls,
    calls_of_condition_calls.
  pose proof (visible_calls_length (default "" (o_option o)) o).
  pose proof (choices_calls_length (default "" (o_option o)) o).
  pose proof (condition_calls_length (default "" (o_option o)) o).
  repeat case_decide; subst; try discriminate; rewrite !length_app; simpl; lia.
Qed.

Lemma calls_segment_once (e : option_dict * outcome unit) segment field :
  calls_segment e segment -> length (calls_of field segment) <= 1.
Proof.
  intros [[k Hk] _]. pose proof (expected_calls_once e.1 field) as H.
  rewrite Hk, calls_of_app, length_app in H. lia.
Qed.

(** C7 (as amended). In a render pass over a non-empty schema, the
    producer calls made while a descriptor is processed contain at most
    one call per field. When the row of the descriptor is built, they are
    exactly: one call of [visible] and one of [condition] if the field is
    a producer, and one call of [choices] if it is a producer and the
    option type is not "choice_with_search"; the widget generator is then
    given the descriptor with the results in place of those producers,
    and with the choices of a "choice_with_search" option as they are. *)
Theorem generate_widgets_resolves_producers (ext : Externals) (s : ConfigBox) :
  options s <> [] ->
  well_formed s ->
  let s1 := select_config_section s in
  let gen := get_widget_generator ext s1 in
  let tr := pass_outcomes ext gen (options s)
              {| self := s1; current_section := None; current_vbox := None |} in
  let s' := generate_widgets ext s in
  (exists segments,
     calls s' = calls s ++ concat segments /\
     Forall2
       (fun e segment =>
          (forall field, length (calls_of field segment) <= 1) /\
          (e.2 = Normal tt ->
           let key := default "" (o_option e.1) in
           calls_of "visible" segment = visible_calls key e.1 /\
           calls_of "choices" segment = choices_calls key e.1 /\
           calls_of "condition" segment = condition_calls key e.1))
       tr segments) /\
  exists old_rows new_rows,
    rows (children s') = old_rows ++ new_rows /\
    Forall2 same_row (rows (children s)) old_rows /\
    Forall2
      (fun o c =>
         exists wb out,
           wrapper_store s' !! oc_wrapper c = Some wb /\
           generate_widget ext gen (w_option wb) (w_value wb) = inr out /\
           resolved_field (o_visible o) (o_visible (w_option wb)) /\
           resolved_field (o_condition o) (o_condition (w_option wb)) /\
           (if bool_decide (o_type o = Some "choice_with_search")
            then o_choices (w_option wb) = o_choices o
            else resolved_field (o_choices o) (o_choices (w_option wb))))
      (built tr) new_rows.
Proof.
  intros Hne Hwf. cbv zeta.
  destruct (generate_widgets_spec ext s Hne Hwf)
    as (_ & (segments & Hcalls & Hsegs) & (old_rows & new_rows & Hrows & Hold & Hnew) & _).
  cbv zeta in *. split.
  - exists segments. split; [exact Hcalls |].
    eapply Forall2_impl; [exact Hsegs |]. simpl. intros e segment Hseg. split.
    + intros field. now apply (calls_segment_once e).
    + intros Hn. destruct Hseg as [_ Hall]. rewrite Hn in Hall. subst segment.
      apply expected_calls_fields.
  - exists old_rows, new_rows. split; [exact Hrows | split; [exact Hold |]].
    eapply Forall2_impl; [exact Hnew |]. simpl.
    intros o c [_ (sec & rsec & out & wb & _ & _ & _ & _ & _ & _ & Hwb & _ & Hv & Hc & Hch &
                   _ & _ & Hgen & _)].
    exists wb, out. done.
Qed.

(** ** The end of a render pass *)

Lemma generate_widgets_empty (ext : Externals) (s : ConfigBox) :
  options s = [] ->
  generate_widgets ext s =
  show_all (set_children (fun ch => ch ++ [Plain "no_options_label" false false]) s).
Proof. intros E. unfold generate_widgets. now rewrite E. Qed.

(** C8 (as amended). A render pass over an empty schema does not read the
    application settings and leaves the advanced-mode value and the
    filter as they were. Every render pass over a non-empty schema, not
    only the first one, makes the whole tree visible, reads the
    "show_advanced_options" setting once, makes the result the
    advanced-mode value of the form in place of the last known one, and
    applies the visibility engine with that value and the last known
    filter: afterwards every node of the tree is as the engine leaves it
    for these two settings. *)
Theorem generate_widgets_visibility (ext : Externals) (s : ConfigBox) :
  well_formed s ->
  let adv := py_eqb (read_setting ext "show_advanced_options") (VStr "True") in
  let s' := generate_widgets ext s in
  (options s = [] ->
   settings_reads s' = settings_reads s /\
   _advanced_visibility s' = _advanced_visibility s /\
   _filter s' = _filter s) /\
  (options s <> [] ->
   (exists packed,
      s' = set_advanced_visibility_to adv (set_settings_reads S (show_all packed))) /\
   settings_reads s' = S (settings_reads s) /\
   _advanced_visibility s' = adv /\
   _filter s' = _filter s /\
   (forall x, widget_in x (children s') -> settled adv (lower (_filter s)) x)).
Proof.
  intros Hwf. cbv zeta. split.
  - intros E. rewrite (generate_widgets_empty ext s E). done.
  - intros Hne.
    destruct (generate_widgets_spec ext s Hne Hwf)
      as (_ & _ & _ & _ & _ & _ & Hf & Hr & Ha & Hs & _).
    cbv zeta in *. split; [| done].
    rewrite (generate_widgets_unfold ext s Hne).
    eexists. reflexivity.
Qed.

(** ** The visibility engine: what its result depends on *)

(** The engine reads no visibility flag: it gives the same result on a
    tree and on the tree with every flag erased. *)
Lemma update_widget_erased adv ft (w : widget) :
  update_widget adv ft (erase_visibility w) = update_widget adv ft w.
Proof.
  induction w as [c | name v n | id section v vbox IH] using widget_nested_ind.
  - reflexivity.
  - reflexivity.
  - simpl erase_visibility. rewrite !update_widget_frame.
    assert (E : update_widgets adv ft (map erase_visibility vbox) =
                update_widgets adv ft vbox).
    { induction IH as [| y ys Hy _ IHys]; [reflexivity |].
      simpl map. rewrite !update_widgets_cons, Hy, IHys. reflexivity. }
    now rewrite E.
Qed.

Lemma update_widgets_erased adv ft (ws : list widget) :
  update_widgets adv ft (map erase_visibility ws) = update_widgets adv ft ws.
Proof.
  induction ws as [| y ys IH]; [reflexivity |].
  simpl map. rewrite !update_widgets_cons, update_widget_erased, IH. reflexivity.
Qed.

Lemma update_widgets_same_shape adv ft (ws1 ws2 : list widget) :
  map erase_visibility ws1 = map erase_visibility ws2 ->
  update_widgets adv ft ws1 = update_widgets adv ft ws2.
Proof.
  intros E. rewrite <- (update_widgets_erased adv ft ws1), E.
  apply update_widgets_erased.
Qed.

Lemma update_widgets_again adv ft adv' ft' (ws : list widget) :
  update_widgets adv ft (update_widgets adv' ft' ws).1 = update_widgets adv ft ws.
Proof.
  apply update_widgets_same_shape.
  now destruct (update_widgets_spec adv' ft' ws) as (_ & E & _).
Qed.

(** X1. What [update_option_visibility] leaves in the tree depends on
    nothing but the widgets, the advanced flag and the lowered filter
    text: on two forms whose trees differ in visibility flags only, with
    the same advanced flag and with filter texts that [str.lower] maps
    to the same text, it leaves the same tree. The visibility a row had
    before plays no part. *)
Theorem update_option_visibility_history_free (s1 s2 : ConfigBox) :
  map erase_visibility (children s1) = map erase_visibility (children s2) ->
  _advanced_visibility s1 = _advanced_visibility s2 ->
  lower (_filter s1) = lower (_filter s2) ->
  children (update_option_visibility s1) = children (update_option_visibility s2).
Proof.
  intros Hshape Hadv Hfilter. rewrite !children_update_option_visibility.
  rewrite Hadv, Hfilter.
  f_equal. now apply update_widgets_same_shape.
Qed.

(** *** Reset buttons reached by [show_all] *)

Lemma rb_show_all_idem (b : reset_button) : rb_show_all (rb_show_all b) = rb_show_all b.
Proof. unfold rb_show_all. destruct b as [v [] o w]; reflexivity. Qed.

Lemma show_buttons_cons b bs store :
  show_buttons (b :: bs) store = alter rb_show_all b (show_buttons bs store).
Proof. reflexivity. Qed.

Lemma lookup_show_buttons (bs : list nat) (store : gmap nat reset_button) (b : nat) :
  show_buttons bs store !! b =
  if bool_decide (b ∈ bs) then rb_show_all <$> store !! b else store !! b.
Proof.
  induction bs as [| x bs IH].
  - case_bool_decide; [set_solver | reflexivity].
  - rewrite show_buttons_cons. destruct (decide (b = x)) as [-> | Hne].
    + rewrite lookup_alter_eq, IH.
      repeat case_bool_decide; try set_solver; try reflexivity.
      destruct (store !! x) as [rb |]; simpl; [| reflexivity].
      now rewrite rb_show_all_idem.
    + rewrite lookup_alter_ne by done. rewrite IH.
      repeat case_bool_decide; try reflexivity; set_solver.
Qed.

Lemma show_buttons_idem (bs : list nat) (store : gmap nat reset_button) :
  show_buttons bs (show_buttons bs store) = show_buttons bs store.
Proof.
  apply map_eq. intros b. rewrite !lookup_show_buttons.
  case_bool_decide; [| reflexivity].
  destruct (store !! b) as [rb |]; simpl; [| reflexivity].
  now rewrite rb_show_all_idem.
Qed.

(** X2. [update_option_visibility] is idempotent: applied a second time
    with the settings unchanged, it leaves the whole form, the tree and
    the reset buttons included, as the first application left it. *)
Theorem update_option_visibility_idempotent (s : ConfigBox) :
  update_option_visibility (update_option_visibility s) = update_option_visibility s.
Proof.
  assert (E : (update_widgets (_advanced_visibility s) (lower (_filter s))
                 (children (update_option_visibility s))).1 =
              children (update_option_visibility s)).
  { rewrite children_update_option_visibility. now rewrite update_widgets_again. }
  unfold update_option_visibility at 1.
  change (_filter (update_option_visibility s)) with (_filter s).
  change (_advanced_visibility (update_option_visibility s)) with (_advanced_visibility s).
  rewrite E.
  unfold update_option_visibility, set_button_store, set_children.
  cbn [options config_level lutris_config game config_section config raw_config
       reset_buttons wrappers warning_boxes error_boxes _advanced_visibility _filter
       children button_store wrapper_store message_store next_id log calls
       validation_log settings_reads].
  f_equal. apply show_buttons_idem.
Qed.

Lemma visibility_setters_shape (a : bool) (f : string) (s : ConfigBox) :
  children (set_filter_to f (set_advanced_visibility_to a s)) =
    (update_widgets a (lower f) (children s)).1 /\
  children (set_advanced_visibility_to a (set_filter_to f s)) =
    (update_widgets a (lower f) (children s)).1.
Proof.
  unfold set_filter_to, set_advanced_visibility_to.
  rewrite !children_update_option_visibility.
  change (children (set_filter (fun _ => f) ?x)) with (children x).
  change (children (set_advanced_visibility (fun _ => a) ?x)) with (children x).
  rewrite !children_update_option_visibility.
  change (children (set_filter (fun _ => f) ?x)) with (children x).
  change (children (set_advanced_visibility (fun _ => a) ?x)) with (children x).
  cbn [_advanced_visibility _filter set_filter set_advanced_visibility
       update_option_visibility set_button_store set_children].
  rewrite !update_widgets_again. done.
Qed.

(** X3. The two property setters commute on the tree: setting the
    advanced flag and then the filter, or the filter and then the
    advanced flag, leaves the tree that one run of the visibility engine
    with both final settings gives, and both settings stored. *)
Theorem visibility_setters_commute (a : bool) (f : string) (s : ConfigBox) :
  let s1 := set_filter_to f (set_advanced_visibility_to a s) in
  let s2 := set_advanced_visibility_to a (set_filter_to f s) in
  children s1 = (update_widgets a (lower f) (children s)).1 /\
  children s2 = children s1 /\
  _advanced_visibility s1 = a /\ _filter s1 = f /\
  _advanced_visibility s2 = a /\ _filter s2 = f.
Proof.
  cbv zeta. destruct (visibility_setters_shape a f s) as [E1 E2].
  rewrite E1, E2. done.
Qed.

(** The reset buttons [buttons_of] collects are those of the rows
    satisfying the test, at any depth. *)
Lemma elem_of_buttons_of (P : option_container -> bool) (ws : list widget) (b : nat) :
  b ∈ flat_map (buttons_of P) ws <->
  exists c, widget_in (OptionContainer c) ws /\ P c = true /\ oc_reset_btn c = b.
Proof.
  set (Q := fun ws => exists c, widget_in (OptionContainer c) ws /\ P c = true /\
                                oc_reset_btn c = b).
  assert (Hlist : forall ws,
    Forall (fun w => b ∈ buttons_of P w <-> Q [w]) ws ->
    (b ∈ flat_map (buttons_of P) ws <-> Q ws)).
  { induction 1 as [| y ys Hy _ IHys].
    - simpl. split; [set_solver |]. intros (c & Hin & _). now apply widget_in_nil in Hin.
    - simpl. rewrite elem_of_app, Hy, IHys. unfold Q. split.
      + intros [(c & Hin & H) | (c & Hin & H)]; exists c; (split; [| exact H]);
          apply widget_in_cons; auto.
      + intros (c & Hin & H). apply widget_in_cons in Hin as [Hin | Hin]; eauto. }
  assert (Hone : forall w, b ∈ buttons_of P w <-> Q [w]).
  { induction w as [c | name v n | id section v vbox IH] using widget_nested_ind; unfold Q.
    - simpl. destruct (P c) eqn:E.
      + rewrite list_elem_of_singleton. split.
        * intros ->. exists c. split; [apply widget_in_here; set_solver | done].
        * intros (c' & Hin & _ & Hb). apply widget_in_single in Hin as [Hc | []].
          now inversion Hc; subst.
      + split; [set_solver |].
        intros (c' & Hin & HP & _). apply widget_in_single in Hin as [Hc | []].
        inversion Hc; subst. congruence.
    - simpl. split; [set_solver |].
      intros (c & Hin & _). apply widget_in_single in Hin as [Hc | []]. discriminate.
    - simpl. rewrite (Hlist vbox IH). unfold Q. split.
      + intros (c & Hin & H). exists c. split; [| exact H].
        apply widget_in_single. now right.
      + intros (c & Hin & H). exists c. split; [| exact H].
        apply widget_in_single in Hin as [Hc | Hin]; [discriminate | exact Hin]. }
  apply Hlist. apply Forall_forall. intros w _. apply Hone.
Qed.

(** X4. What [update_option_visibility] does to the reset buttons: a
    button keeps its no-show-all flag and what its handler was connected
    with, and it is never hidden; it is visible afterwards exactly when
    it was visible before, or is not flagged no-show-all and is the reset
    button of a row that the engine has shown. *)
Theorem update_option_visibility_buttons (s : ConfigBox) (b : nat) (rb : reset_button) :
  button_store s !! b = Some rb ->
  let s' := update_option_visibility s in
  exists rb',
    button_store s' !! b = Some rb' /\
    rb_no_show_all rb' = rb_no_show_all rb /\
    rb_option rb' = rb_option rb /\
    rb_wrapper rb' = rb_wrapper rb /\
    (rb_visible rb' = true <->
     rb_visible rb = true \/
     (rb_no_show_all rb = false /\
      exists c, widget_in (OptionContainer c) (children s') /\
                oc_visible c = true /\ oc_reset_btn c = b)).
Proof.
  intros Hb. cbv zeta.
  assert (E : button_store (update_option_visibility s) !! b =
              if bool_decide (b ∈ flat_map (buttons_of oc_visible)
                                    (children (update_option_visibility s)))
              then rb_show_all <$> button_store s !! b else button_store s !! b).
  { unfold update_option_visibility at 1.
    cbn [button_store set_button_store]. rewrite lookup_show_buttons. reflexivity. }
  rewrite E, Hb. case_bool_decide as Hin.
  - apply elem_of_buttons_of in Hin. simpl. eexists. split; [reflexivity |].
    unfold rb_show_all. destruct (rb_no_show_all rb) eqn:Hn; simpl.
    + rewrite Hn. repeat split; auto. intros [H | [H _]]; [done | discriminate].
    + rewrite Hn. repeat split; auto.
  - exists rb. repeat split; auto.
    intros [H | [_ H]]; [done |]. exfalso. apply Hin. now apply elem_of_buttons_of.
Qed.

(** *** Widgets that are not option rows *)

Lemma update_widgets_app adv ft (ws1 ws2 : list widget) :
  (update_widgets adv ft (ws1 ++ ws2)).1 =
  (update_widgets adv ft ws1).1 ++ (update_widgets adv ft ws2).1.
Proof.
  induction ws1 as [| y ys IH]; [reflexivity |].
  rewrite <- app_comm_cons, !update_widgets_cons. cbn [fst]. rewrite IH. reflexivity.
Qed.

(** X5. The information box that [generate_top_info_box] packs, and its
    separator, are shown by every run of the visibility engine, whatever
    the advanced flag and the filter text, also when no option row
    matches the filter: after the two settings are set, the tree is the
    tree of the other widgets as the engine leaves it, followed by the
    box and the separator, both visible. *)
Theorem top_info_box_always_visible (text : string) (a : bool) (f : string)
    (s : ConfigBox) :
  let s1 := generate_top_info_box text s in
  let s2 := set_filter_to f (set_advanced_visibility_to a s1) in
  children s1 =
    children s ++ [Plain (info_markup text) true false; Plain "HSeparator" false false] /\
  children s2 =
    (update_widgets a (lower f) (children s)).1 ++
    [Plain (info_markup text) true false; Plain "HSeparator" true false].
Proof.
  cbv zeta. split; [reflexivity |].
  destruct (visibility_setters_shape a f (generate_top_info_box text s)) as [E _].
  rewrite E. unfold generate_top_info_box. cbn [children set_children].
  now rewrite update_widgets_app.
Qed.

(** ** The edit handler: what it leaves alone *)

Lemma section_name_cases (a b : section_name) : a = b \/ a <> b.
Proof. destruct a, b; auto; right; discriminate. Qed.

(** X6. An edit changes nothing but the entry of its key in the raw and
    in the effective dictionary the form is bound to, the reset button
    and the wrapper registered for the key, and the record of
    re-validations: every other entry of every dictionary of the store,
    the tree of rows with its visibility flags, the registries, the
    schema, the settings, the log and every other button and wrapper are
    as before. *)
Theorem on_option_changed_frame (s : ConfigBox) (k : string) (v : pyval)
    (sec rsec : section_name) :
  config s = Some sec ->
  raw_config s = Some rsec ->
  let s' := (on_option_changed k v s).2 in
  (forall sec' k', sec' <> rsec \/ k' <> k ->
     raw_of sec' (lutris_config s') !! k' = raw_of sec' (lutris_config s) !! k') /\
  (forall sec' k', sec' <> sec \/ k' <> k ->
     effective_of sec' (lutris_config s') !! k' =
     effective_of sec' (lutris_config s) !! k') /\
  children s' = children s /\
  options s' = options s /\
  reset_buttons s' = reset_buttons s /\
  wrappers s' = wrappers s /\
  warning_boxes s' = warning_boxes s /\
  error_boxes s' = error_boxes s /\
  message_store s' = message_store s /\
  _advanced_visibility s' = _advanced_visibility s /\
  _filter s' = _filter s /\
  log s' = log s /\
  (forall b, reset_buttons s !! k <> Some b -> button_store s' !! b = button_store s !! b) /\
  (forall w, wrappers s !! k <> Some w -> wrapper_store s' !! w = wrapper_store s !! w).
Proof.
  intros Hc Hr. cbv zeta.
  rewrite (on_option_changed_eq s k v sec rsec Hc Hr), update_warnings_eq.
  cbn [snd].
  split; [| split].
  - intros sec' k' Hne.
    destruct (wrappers s !! k), (reset_buttons s !! k); simpl;
      rewrite raw_of_update_effective;
      (destruct (section_name_cases rsec sec') as [<- | Hs];
       [rewrite raw_of_update_raw, lookup_insert_ne by (destruct Hne; congruence); done
       | now rewrite raw_of_update_raw_ne]).
  - intros sec' k' Hne.
    destruct (wrappers s !! k), (reset_buttons s !! k); simpl;
      (destruct (section_name_cases sec sec') as [<- | Hs];
       [rewrite effective_of_update_effective, lookup_insert_ne
          by (destruct Hne; congruence);
        now rewrite effective_of_update_raw
       | rewrite effective_of_update_effective_ne by done;
         now rewrite effective_of_update_raw]).
  - destruct (wrappers s !! k) as [w0 |], (reset_buttons s !! k) as [b0 |]; simpl;
      repeat match goal with |- _ /\ _ => split end; try reflexivity;
      intros x Hx; try reflexivity; rewrite lookup_alter_ne by congruence; reflexivity.
Qed.

(** X7. Edits compose as writes to a dictionary: edits of two different
    keys leave the same configuration store in either order, and an edit
    of a key replaces an earlier edit of the same key. *)
Theorem on_option_changed_order (s : ConfigBox) (k1 k2 : string) (v1 v2 : pyval)
    (sec : section_name) :
  config s = Some sec ->
  raw_config s = Some sec ->
  let edit k v s := (on_option_changed k v s).2 in
  (k1 <> k2 ->
   lutris_config (edit k2 v2 (edit k1 v1 s)) = lutris_config (edit k1 v1 (edit k2 v2 s))) /\
  lutris_config (edit k1 v2 (edit k1 v1 s)) = lutris_config (edit k1 v2 s).
Proof.
  intros Hc Hr. cbv zeta.
  destruct (on_option_changed_config s k1 v1 sec Hc Hr) as (Hc1 & Hr1 & E1).
  destruct (on_option_changed_config s k2 v2 sec Hc Hr) as (Hc2 & Hr2 & E2).
  destruct (on_option_changed_config s k1 v2 sec Hc Hr) as (_ & _ & E3).
  destruct (on_option_changed_config _ k2 v2 sec Hc1 Hr1) as (_ & _ & E12).
  destruct (on_option_changed_config _ k1 v1 sec Hc2 Hr2) as (_ & _ & E21).
  destruct (on_option_changed_config _ k1 v2 sec Hc1 Hr1) as (_ & _ & E11).
  cbv zeta in *. split.
  - intros Hne. rewrite E12, E21, E1, E2.
    destruct sec; unfold update_effective, update_raw; simpl; f_equal;
      apply insert_insert_ne; congruence.
  - rewrite E11, E1, E3.
    destruct sec; unfold update_effective, update_raw; simpl; f_equal;
      apply insert_insert_eq.
Qed.

(** ** The handlers on a form that cannot serve them *)

(** X8. Both handlers fail before their first write. On a form that no
    render pass has bound to a configuration section, the edit handler
    raises [TypeError] and the reset handler raises; the reset handler
    raises [KeyError] for a descriptor without an ["option"] entry and
    for a key that the effective dictionary does not hold. In each case
    the form is left exactly as it was: nothing was written, hidden or
    restyled. *)
Theorem handlers_fail_before_writing (ext : Externals) (s : ConfigBox) (k : string)
    (v : pyval) (btn : nat) (opt : option_dict) (wrapper : nat) :
  (raw_config s = None ->
   on_option_changed k v s =
   (Raise (TypeError "'NoneType' object does not support item assignment"), s)) /\
  (o_option opt = None ->
   on_reset_button_clicked ext btn opt wrapper s = (Raise (KeyError "option"), s)) /\
  (forall key, o_option opt = Some key -> config s = None ->
   on_reset_button_clicked ext btn opt wrapper s =
   (Raise (TypeError "'NoneType' object is not subscriptable"), s)) /\
  (forall key sec, o_option opt = Some key -> config s = Some sec ->
   effective_of sec (lutris_config s) !! key = None ->
   on_reset_button_clicked ext btn opt wrapper s = (Raise (KeyError key), s)).
Proof.
  split; [| split; [| split]].
  - intros Hr. unfold on_option_changed, bind, raw_config_setitem. now rewrite Hr.
  - intros Hk. unfold on_reset_button_clicked, bind, getitem. now rewrite Hk.
  - intros key Hk Hc.
    unfold on_reset_button_clicked, bind, getitem, config_getitem, ret.
    rewrite Hk. simpl. now rewrite Hc.
  - intros key sec Hk Hc Hcur.
    unfold on_reset_button_clicked, bind, getitem, config_getitem, ret.
    rewrite Hk. simpl. now rewrite Hc, Hcur.
Qed.

(** ** The reset handler and the visibility engine *)

(** What the reset handler leaves alone, in every outcome, when it gets
    past its reads. *)
Lemma on_reset_button_clicked_frame (ext : Externals) (s : ConfigBox) (btn : nat)
    (opt : option_dict) (wrapper : nat) (k : string) (sec rsec : section_name)
    (cur : pyval) :
  o_option opt = Some k ->
  config s = Some sec ->
  raw_config s = Some rsec ->
  effective_of sec (lutris_config s) !! k = Some cur ->
  let s' := (on_reset_button_clicked ext btn opt wrapper s).2 in
  button_store s' = alter (rb_set_visible false) btn (button_store s) /\
  children s' = children s /\
  _advanced_visibility s' = _advanced_visibility s /\
  _filter s' = _filter s /\
  reset_buttons s' = reset_buttons s /\
  wrappers s' = wrappers s.
Proof.
  intros Hk Hc Hr Hcur. cbv zeta.
  rewrite (on_reset_button_clicked_eq ext s btn opt wrapper k sec rsec cur Hk Hc Hr Hcur).
  cbv zeta.
  match goal with |- context [py_eqb cur ?v] => destruct (py_eqb cur v) end;
    [done |].
  match goal with
  | |- context [generate_widget ext ?g opt ?v] =>
      destruct (generate_widget ext g opt v) as [ex | out]
  end; [done |].
  match goal with
  | |- context [new_boxes ?a ?b ?c ?d ?s2] =>
      destruct (new_boxes_eq a b c d s2) as (ids & store' & E)
  end.
  rewrite E, update_warnings_eq. done.
Qed.

(** A row of the tree is still a row of the tree after a run of the
    engine, with the visibility the engine decided. *)
Lemma widget_in_update_widgets adv ft (c : option_container) (ws : list widget) :
  widget_in (OptionContainer c) ws ->
  widget_in (OptionContainer (oc_set_visibility (row_visible adv ft c) c))
    (update_widgets adv ft ws).1.
Proof.
  set (c' := oc_set_visibility (row_visible adv ft c) c).
  assert (Hlist : forall ws,
    Forall (fun w => widget_in (OptionContainer c) [w] ->
                     widget_in (OptionContainer c') [(update_widget adv ft w).1]) ws ->
    widget_in (OptionContainer c) ws ->
    widget_in (OptionContainer c') (update_widgets adv ft ws).1).
  { induction 1 as [| y ys Hy _ IHys]; intros Hin.
    - now apply widget_in_nil in Hin.
    - rewrite update_widgets_cons. cbn [fst]. apply widget_in_cons.
      apply widget_in_cons in Hin as [Hin | Hin]; auto. }
  assert (Hone : forall w,
    widget_in (OptionContainer c) [w] ->
    widget_in (OptionContainer c') [(update_widget adv ft w).1]).
  { induction w as [c0 | name v n | id section v vbox IH] using widget_nested_ind;
      intros Hin; apply widget_in_single in Hin as [Hc | Hin]; try done.
    - inversion Hc; subst c0. apply widget_in_single. now left.
    - rewrite update_widget_frame. cbn [fst]. apply widget_in_single. right.
      now apply Hlist. }
  intros Hin. apply Hlist; [| exact Hin]. apply Forall_forall. intros w _. apply Hone.
Qed.

(** X9. A reset button that is not flagged no-show-all (the render pass
    flags the buttons of the keys that the raw dictionary does not
    override) is hidden by the reset handler only until the visibility
    engine runs again: when its row passes the advanced and filter
    tests, the next run of the engine shows the button again, whatever
    the raw dictionary holds by then. *)
Theorem reset_button_shown_again (ext : Externals) (s : ConfigBox) (btn : nat)
    (opt : option_dict) (wrapper : nat) (k : string) (sec rsec : section_name)
    (cur : pyval) (c : option_container) (rb : reset_button) :
  o_option opt = Some k ->
  config s = Some sec ->
  raw_config s = Some rsec ->
  effective_of sec (lutris_config s) !! k = Some cur ->
  button_store s !! btn = Some rb ->
  rb_no_show_all rb = false ->
  widget_in (OptionContainer c) (children s) ->
  oc_reset_btn c = btn ->
  row_visible (_advanced_visibility s) (lower (_filter s)) c = true ->
  let s1 := (on_reset_button_clicked ext btn opt wrapper s).2 in
  let s2 := update_option_visibility s1 in
  button_store s1 !! btn = Some (rb_set_visible false rb) /\
  button_store s2 !! btn = Some (rb_set_visible true rb).
Proof.
  intros Hk Hc Hr Hcur Hb Hflag Hin Hbtn Hvis. cbv zeta.
  destruct (on_reset_button_clicked_frame ext s btn opt wrapper k sec rsec cur
              Hk Hc Hr Hcur) as (Hbs & Hch & Ha & Hf & _).
  cbv zeta in *.
  set (s1 := (on_reset_button_clicked ext btn opt wrapper s).2) in *. clearbody s1.
  assert (H1 : button_store s1 !! btn = Some (rb_set_visible false rb))
    by (now rewrite Hbs, lookup_alter_eq, Hb).
  split; [exact H1 |].
  unfold update_option_visibility at 1.
  cbn [button_store set_button_store set_children].
  rewrite lookup_show_buttons, H1, bool_decide_eq_true_2.
  - simpl. unfold rb_show_all. cbn [rb_no_show_all rb_set_visible]. now rewrite Hflag.
  - apply elem_of_buttons_of.
    exists (oc_set_visibility
              (row_visible (_advanced_visibility s1) (lower (_filter s1)) c) c).
    split; [| split].
    + apply widget_in_update_widgets. now rewrite Hch.
    + cbn [oc_visible oc_set_visibility]. now rewrite Ha, Hf.
    + exact Hbtn.
Qed.

(** ** Forms as their constructors leave them *)

Lemma well_formed_init section level lc game opts :
  well_formed (with_options opts (ConfigBox_init section level lc game)).
Proof.
  split; [| split; constructor].
  intros id _. simpl. rewrite !lookup_empty. done.
Qed.

(** X10. A form edits the configuration section of its class only. On a
    form of the class of section [sec] with a non-empty schema, a render
    pass binds both references to [sec] and leaves the store as it was;
    an edit then returns normally and writes its value under its key in
    the raw and in the effective dictionary of [sec], and the
    dictionaries of the two other sections are untouched. *)
Theorem form_edits_its_own_section (ext : Externals) (sec : section_name)
    (level : string) (lc : LutrisConfig) (game : option Game)
    (opts : list option_dict) (k : string) (v : pyval) :
  opts <> [] ->
  let s := generate_widgets ext
             (with_options opts (ConfigBox_init (Some sec) level lc game)) in
  let r := on_option_changed k v s in
  config s = Some sec /\
  raw_config s = Some sec /\
  lutris_config s = lc /\
  r.1 = Normal tt /\
  raw_of sec (lutris_config r.2) !! k = Some v /\
  effective_of sec (lutris_config r.2) !! k = Some v /\
  forall sec', sec' <> sec ->
    raw_of sec' (lutris_config r.2) = raw_of sec' lc /\
    effective_of sec' (lutris_config r.2) = effective_of sec' lc.
Proof.
  intros Hne. cbv zeta.
  set (s0 := with_options opts (ConfigBox_init (Some sec) level lc game)).
  destruct (generate_widgets_spec ext s0 Hne (well_formed_init _ _ _ _ _))
    as (_ & _ & _ & Hlc & Hc & Hr & _).
  cbv zeta in *.
  assert (Hsel : config (select_config_section s0) = Some sec /\
                 raw_config (select_config_section s0) = Some sec)
    by (destruct sec; done).
  destruct Hsel as [Hsc Hsr]. rewrite Hsc in Hc. rewrite Hsr in Hr.
  change (lutris_config s0) with lc in Hlc.
  set (s := generate_widgets ext s0) in *. clearbody s.
  destruct (on_option_changed_config s k v sec Hc Hr) as (_ & _ & E).
  cbv zeta in E. rewrite E, Hlc.
  rewrite (on_option_changed_eq s k v sec sec Hc Hr). cbn [fst].
  repeat match goal with |- _ /\ _ => split end; try done.
  - rewrite raw_of_update_effective, raw_of_update_raw. apply lookup_insert_eq.
  - rewrite effective_of_update_effective. apply lookup_insert_eq.
  - intros sec' Hs. split.
    + rewrite raw_of_update_effective, raw_of_update_raw_ne; done.
    + rewrite effective_of_update_effective_ne, effective_of_update_raw; done.
Qed.

(** X11. A [GameBox] for a game without a runner logs a warning and has
    no option: its render pass packs the "No options available" label
    and shows it, builds no row, reads no setting and binds the form to
    no configuration section, so that an edit handler called on it
    raises. With a runner, the schema is the game options of the
    runner and the form is of the game section. *)
Theorem GameBox_without_runner (ext : Externals) (level : string) (lc : LutrisConfig)
    (game : Game) (runner : Runner) :
  let s := generate_widgets ext (GameBox_init level lc game None).1 in
  (GameBox_init level lc game None).2 = ["No runner in game supplied to GameBox"] /\
  children s = [Plain "no_options_label" true false] /\
  rows (children s) = [] /\
  settings_reads s = 0 /\
  config s = None /\
  raw_config s = None /\
  (forall k v, (on_option_changed k v s).1 =
               Raise (TypeError "'NoneType' object does not support item assignment")) /\
  options (GameBox_init level lc game (Some runner)).1 = game_options runner /\
  config_section (GameBox_init level lc game (Some runner)).1 = Some SecGame /\
  (GameBox_init level lc game (Some runner)).2 = [].
Proof. cbv zeta. repeat split. Qed.

(** ** Descriptors that produce no row *)

(** On a form that is not bound, the body of the [try] statement ends at
    the scope test, at [option["option"]] or at [self.config.get]. *)
Lemma generate_option_unbound (ext : Externals) gen (o : option_dict) (p : pass) :
  config (self p) = None ->
  generate_option ext gen o p =
  (if in_scope (config_level (self p)) o
   then Raise (unbound_failure o).2
   else Continue, p).
Proof.
  intros Hc. destruct p as [s cs cv]. cbn [self] in *.
  unfold generate_option, bind, on_self, resolve_option, bind, gets, in_scope,
    unbound_failure. cbn [self current_section current_vbox].
  destruct (o_scope o) as [scope |]; cbn [negb].
  - case_bool_decide; cbn [negb]; unfold continue, ret; cbn; [| reflexivity].
    destruct (o_option o) as [key |]; cbn; [| reflexivity].
    unfold config_get. rewrite Hc. reflexivity.
  - unfold ret; cbn.
    destruct (o_option o) as [key |]; cbn; [| reflexivity].
    unfold config_get. rewrite Hc. reflexivity.
Qed.

Lemma generate_option_guarded_unbound (ext : Externals) gen (o : option_dict) (p : pass) :
  config (self p) = None ->
  generate_option_guarded ext gen o p =
  if in_scope (config_level (self p)) o
  then {| self := set_log (fun l => l ++ [unbound_failure o]) (self p);
          current_section := current_section p;
          current_vbox := current_vbox p |}
  else p.
Proof.
  intros Hc. unfold generate_option_guarded.
  rewrite (generate_option_unbound ext gen o p Hc).
  destruct (in_scope (config_level (self p)) o); reflexivity.
Qed.

Lemma generate_rows_unbound (ext : Externals) gen (opts : list option_dict) (p : pass) :
  config (self p) = None ->
  generate_rows ext gen opts p =
  {| self := set_log (fun l => l ++ map unbound_failure
                                      (filter (fun o => in_scope (config_level (self p)) o = true)
                                         opts))
               (self p);
     current_section := current_section p;
     current_vbox := current_vbox p |}.
Proof.
  revert p. induction opts as [| o opts IH]; intros p Hc.
  - destruct p as [s cs cv]. destruct s. unfold generate_rows, set_log. cbn.
    now rewrite app_nil_r.
  - change (generate_rows ext gen (o :: opts) p)
      with (generate_rows ext gen opts (generate_option_guarded ext gen o p)).
    rewrite (generate_option_guarded_unbound ext gen o p Hc).
    destruct (in_scope (config_level (self p)) o) eqn:Hs.
    + rewrite IH by exact Hc. cbn [self current_section current_vbox].
      rewrite filter_cons_True by exact Hs.
      destruct p as [s cs cv]. destruct s. unfold set_log, unbound_failure. cbn.
      rewrite <- app_assoc. reflexivity.
    + rewrite IH by exact Hc.
      rewrite filter_cons_False by (rewrite Hs; discriminate). reflexivity.
Qed.

(** X12. On a form of a class that names no configuration section, so
    that a render pass binds nothing, a pass over a non-empty schema
    builds no row and registers nothing: each descriptor in scope at the
    level of the form is logged, with [KeyError] when it has no
    ["option"] entry and with [AttributeError] otherwise; descriptors out
    of scope are skipped; no producer is called, and the tree holds the
    widgets it held. *)
Theorem generate_widgets_unbound (ext : Externals) (s : ConfigBox) :
  options s <> [] ->
  config_section s = None ->
  config s = None ->
  let s' := generate_widgets ext s in
  log s' =
    log s ++ map unbound_failure
               (filter (fun o => in_scope (config_level s) o = true) (options s)) /\
  map erase_visibility (children s') = map erase_visibility (children s) /\
  calls s' = calls s /\
  wrappers s' = wrappers s /\
  reset_buttons s' = reset_buttons s /\
  next_id s' = next_id s /\
  config s' = None.
Proof.
  intros Hne Hsec Hc. cbv zeta. rewrite (generate_widgets_unfold ext s Hne).
  assert (Hsel : select_config_section s = s)
    by (unfold select_config_section; now rewrite Hsec).
  rewrite Hsel.
  rewrite (generate_rows_unbound ext _ (options s)
             {| self := s; current_section := None; current_vbox := None |} Hc).
  cbn [self].
  split; [reflexivity |]. split.
  { unfold set_advanced_visibility_to. rewrite children_update_option_visibility.
    destruct (update_widgets_spec
                (_advanced_visibility
                   (set_advanced_visibility
                      (fun _ => py_eqb (read_setting ext "show_advanced_options") (VStr "True"))
                      (set_settings_reads S
                         (show_all (set_log
                            (fun l => l ++ map unbound_failure
                               (filter (fun o => in_scope (config_level s) o = true)
                                  (options s))) s)))))
                (lower (_filter
                   (set_advanced_visibility
                      (fun _ => py_eqb (read_setting ext "show_advanced_options") (VStr "True"))
                      (set_settings_reads S
                         (show_all (set_log
                            (fun l => l ++ map unbound_failure
                               (filter (fun o => in_scope (config_level s) o = true)
                                  (options s))) s))))))
                (children
                   (set_advanced_visibility
                      (fun _ => py_eqb (read_setting ext "show_advanced_options") (VStr "True"))
                      (set_settings_reads S
                         (show_all (set_log
                            (fun l => l ++ map unbound_failure
                               (filter (fun o => in_scope (config_level s) o = true)
                                  (options s))) s))))))
      as (_ & E & _).
    rewrite E. cbn [children set_advanced_visibility set_settings_reads].
    rewrite children_show_all. apply erase_show_all. }
  repeat split; try reflexivity. exact Hc.
Qed.

(** X13. A descriptor that the loop skips leaves no trace. A descriptor
    out of scope at the level of the form leaves the pass exactly as it
    was, whatever else it holds. On a bound form, a descriptor in scope
    whose [visible] entry is false, or a producer returning a false
    value, leaves the pass as it was but for the record of that one
    call: no section frame is opened for it, nothing is registered or
    logged, and its [choices] and [condition] producers are not
    called. *)
Theorem skipped_descriptor_leaves_no_trace (ext : Externals) (gen : pyval)
    (o : option_dict) (p : pass) :
  (in_scope (config_level (self p)) o = false ->
   generate_option_guarded ext gen o p = p) /\
  (forall k sec v,
     in_scope (config_level (self p)) o = true ->
     o_option o = Some k ->
     config (self p) = Some sec ->
     resolved_field (o_visible o) (Some v) ->
     py_truthy v = false ->
     generate_option_guarded ext gen o p =
     {| self := add_calls (visible_calls k o) (self p);
        current_section := current_section p;
        current_vbox := current_vbox p |}).
Proof.
  destruct p as [s cs cv]. cbn [self current_section current_vbox]. split.
  - intros Hs. unfold in_scope in Hs.
    destruct (o_scope o) as [scope |] eqn:Hscope; [| discriminate].
    unfold generate_option_guarded, generate_option, bind, on_self, resolve_option,
      bind, gets. cbn [self current_section current_vbox].
    rewrite Hscope, Hs. reflexivity.
  - intros k sec v Hs Hk Hc Hv Hfalse.
    assert (Hscope : match o_scope o with
                     | Some scope => if negb (bool_decide (config_level s ∈ scope))
                                     then @continue ConfigBox unit else ret tt
                     | None => ret tt
                     end s = (Normal tt, s)).
    { unfold in_scope in Hs. destruct (o_scope o); [now rewrite Hs | reflexivity]. }
    unfold generate_option_guarded, generate_option, bind, on_self, resolve_option,
      bind, gets. cbn [self current_section current_vbox].
    rewrite Hscope. rewrite Hk. cbn [getitem ret]. unfold config_get. rewrite Hc.
    unfold resolve_visible, visible_calls.
    destruct (o_visible o) as [[| b | z | str | l | c [ex | r]] |]; simpl in Hv.
    all: try (destruct Hv as (v' & Hv' & Hv''); try discriminate Hv';
              injection Hv' as E1; injection Hv'' as E2; subst v' v;
              cbn [callable]; unfold call_producer, bind, modify, ret;
              cbn -[py_truthy]; rewrite Hfalse; reflexivity).
    all: try discriminate Hv.
    all: inversion Hv; subst v; cbn [callable]; unfold bind, ret;
      cbn -[py_truthy]; rewrite Hfalse; cbn; now rewrite add_calls_nil.
Qed.

(** ** The rows of a render pass and the schema *)

Lemma built_sublist (tr : list (option_dict * outcome unit)) :
  built tr `sublist_of` map fst tr.
Proof.
  induction tr as [| [o r] tr IH]; [constructor |].
  unfold built. cbn [omap list_omap map fst snd].
  destruct r; [apply sublist_skip | apply sublist_cons | apply sublist_cons]; exact IH.
Qed.

(** X14. A render pass adds its rows after the rows the tree already
    holds, at most one for each descriptor and in the order of the
    schema: the keys of the new rows are a subsequence of the keys of
    the schema. The new rows have wrappers of their own, and the
    wrappers that existed before the pass are untouched. *)
Theorem generate_widgets_rows_in_schema_order (ext : Externals) (s : ConfigBox) :
  options s <> [] ->
  well_formed s ->
  let s' := generate_widgets ext s in
  exists old_rows new_rows,
    rows (children s') = old_rows ++ new_rows /\
    Forall2 same_row (rows (children s)) old_rows /\
    map (fun c => Some (lutris_option_key c)) new_rows
      `sublist_of` map o_option (options s) /\
    length new_rows <= length (options s) /\
    Forall (fun c => next_id s <= oc_wrapper c) new_rows /\
    (forall id, id < next_id s -> wrapper_store s' !! id = wrapper_store s !! id).
Proof.
  intros Hne Hwf. cbv zeta.
  destruct (generate_widgets_spec ext s Hne Hwf)
    as (_ & _ & (old_rows & new_rows & Hrows & Hold & Hnew) & _ & _ & _ & _ & _ & _ & _ & Hw).
  cbv zeta in *.
  set (tr := pass_outcomes ext (get_widget_generator ext (select_config_section s))
               (options s)
               {| self := select_config_section s; current_section := None;
                  current_vbox := None |}) in *.
  assert (Hkeys : map (fun c => Some (lutris_option_key c)) new_rows =
                  map o_option (built tr)).
  { clear -Hnew. induction Hnew as [| o c os cs [_ Hr] _ IH]; [reflexivity |].
    cbn [map]. rewrite IH. f_equal.
    destruct Hr as (sec & rsec & out & wb & _ & _ & Hk & _). now rewrite Hk. }
  assert (Hsub : map o_option (built tr) `sublist_of` map o_option (options s)).
  { apply fmap_sublist. rewrite <- (pass_outcomes_fst ext
      (get_widget_generator ext (select_config_section s)) (options s)
      {| self := select_config_section s; current_section := None; current_vbox := None |}).
    apply built_sublist. }
  exists old_rows, new_rows.
  split; [exact Hrows | split; [exact Hold | split; [| split; [| split; [| exact Hw]]]]].
  - rewrite Hkeys. exact Hsub.
  - apply sublist_length in Hsub. rewrite <- Hkeys, !length_map in Hsub. exact Hsub.
  - clear -Hnew. induction Hnew as [| o c os cs [Hid _] _ IH]; constructor; auto.
Qed.

(** The state in which the generator leaves a new wrapper. *)
Lemma gen_generate_widget_eq (ext : Externals) gen opt value (s : ConfigBox) out :
  generate_widget ext gen opt value = inr out ->
  exists errors store',
    gen_generate_widget ext gen opt value None s =
    (Normal (next_id s, out, errors),
     set_next_id (fun _ => length (error_widgets out) + S (next_id s))
       (set_message_store (fun _ => store')
          (set_wrapper_store (insert (next_id s) (new_wrapper opt value)) s))).
Proof.
  intros Hgen. unfold gen_generate_widget. rewrite Hgen.
  unfold bind at 1. unfold bind at 2. unfold fresh, modify, ret. cbn [fst snd].
  unfold bind.
  match goal with
  | |- context [new_boxes ?a ?b ?c ?d ?s2] =>
      destruct (new_boxes_eq a b c d s2) as (ids & store' & E)
  end.
  rewrite E. exists ids, store'. destruct s. reflexivity.
Qed.

(** The construction of a row, step by step, when the generator returns
    and the raw dictionary is bound: it fails at the very end when the
    descriptor has no label, and returns the row otherwise; in both cases
    the wrapper and the reset button are built and registered. *)
Lemma build_row_run (ext : Externals) gen opt key value (s0 : ConfigBox) out rsec :
  generate_widget ext gen opt value = inr out ->
  raw_config s0 = Some rsec ->
  let in_raw := bool_decide (is_Some (raw_of rsec (lutris_config s0) !! key)) in
  let from_below := py_neb value (default_value out) && negb in_raw in
  let w := next_id s0 in
  let b := length (error_widgets out) + S (next_id s0) in
  exists r s',
    build_row ext gen opt key value s0 = (r, s') /\
    match o_label opt with
    | Some label =>
        exists c, r = Normal c /\
                  lutris_option_key c = key /\
                  lutris_option_label c = label /\
                  oc_wrapper c = w /\
                  oc_reset_btn c = b
    | None => r = Raise (KeyError "label")
    end /\
    wrappers s' !! key = Some w /\
    reset_buttons s' !! key = Some b /\
    button_store s' !! b =
      Some {| rb_visible := false; rb_no_show_all := negb in_raw;
              rb_option := opt; rb_wrapper := w |} /\
    wrapper_store s' !! w =
      Some {| w_option := opt; w_value := value; w_builds := 1;
              w_styles := styles_for in_raw value (default_value out);
              w_sensitive := row_sensitive opt;
              w_tooltip := row_tooltip (o_help opt) (tooltip_default out) from_below |}.
Proof.
  intros Hgen Hr in_raw from_below w b.
  unfold build_row.
  destruct (gen_generate_widget_eq ext gen opt value s0 out Hgen) as (errors & store' & E1).
  rewrite (bind_normal _ _ _ _ _ E1). cbn [fst snd]. fold w.
  match type of E1 with _ = (_, ?s) => set (s1 := s) in * end.
  rewrite (bind_normal (modify (set_wrappers (insert key w))) _ s1 _ tt eq_refl).
  set (s2 := set_wrappers (insert key w) s1).
  assert (Hcontains : forall s, raw_config s = Some rsec -> lutris_config s = lutris_config s0 ->
            raw_config_contains key s = (Normal in_raw, s)).
  { intros s H1 H2. unfold raw_config_contains. now rewrite H1, H2. }
  rewrite (bind_normal _ _ s2 s2 in_raw) by (apply Hcontains; [exact Hr | reflexivity]).
  assert (Hw2 : wrapper_store s2 !! w = Some (new_wrapper opt value))
    by (cbn; apply lookup_insert_eq).
  assert (Hn2 : next_id s2 = b) by reflexivity.
  (* style providers *)
  set (s3 := (if in_raw then set_style_property "font-weight" "bold" w
              else if py_neb value (default_value out)
                   then set_style_property "font-style" "italic" w
                   else fun s => s) s2).
  rewrite (bind_normal _ _ s2 s3 tt)
    by (unfold s3; destruct in_raw, (py_neb value (default_value out)); reflexivity).
  assert (Hw3 : wrapper_store s3 !! w =
                Some {| w_option := opt; w_value := value; w_builds := 1;
                        w_styles := styles_for in_raw value (default_value out);
                        w_sensitive := true; w_tooltip := None |}).
  { unfold s3, styles_for. destruct in_raw, (py_neb value (default_value out));
      cbn [set_style_property wrapper_store set_wrapper_store];
      rewrite ?lookup_alter_eq, Hw2; reflexivity. }
  assert (Hq3 : wrappers s3 = wrappers s2 /\ next_id s3 = b /\
                raw_config s3 = Some rsec /\ lutris_config s3 = lutris_config s0).
  { unfold s3. destruct in_raw, (py_neb value (default_value out)); cbn; auto. }
  destruct Hq3 as (Hreg3 & Hn3 & Hr3 & Hlc3).
  (* reset button *)
  set (rb0 := {| rb_visible := false; rb_no_show_all := false;
                 rb_option := opt; rb_wrapper := w |}).
  set (s4 := set_button_store (insert b rb0) (set_next_id S s3)).
  rewrite (bind_normal (new_reset_button rb0) _ s3 s4 b)
    by (unfold new_reset_button, bind, fresh, modify, ret; cbn; now rewrite Hn3).
  rewrite (bind_normal (modify (set_reset_buttons (insert key b))) _ s4 _ tt eq_refl).
  set (s5 := set_reset_buttons (insert key b) s4).
  rewrite (bind_normal _ _ s5 s5 in_raw) by (apply Hcontains; [exact Hr3 | exact Hlc3]).
  set (s6 := (if negb in_raw
              then set_button_store
                     (alter (fun b0 => rb_set_no_show_all true (rb_set_visible false b0)) b)
              else fun s => s) s5).
  rewrite (bind_normal _ _ s5 s6 tt) by (unfold s6; destruct in_raw; reflexivity).
  assert (Hb6 : button_store s6 !! b =
                Some {| rb_visible := false; rb_no_show_all := negb in_raw;
                        rb_option := opt; rb_wrapper := w |}).
  { unfold s6. destruct in_raw; cbn; rewrite ?lookup_alter_eq, lookup_insert_eq;
      reflexivity. }
  assert (Hq6 : wrapper_store s6 = wrapper_store s3 /\ wrappers s6 = wrappers s2 /\
                reset_buttons s6 !! key = Some b /\
                raw_config s6 = Some rsec /\ lutris_config s6 = lutris_config s0).
  { unfold s6. destruct in_raw; cbn; rewrite ?lookup_insert_eq; auto. }
  destruct Hq6 as (Hws6 & Hreg6 & Hrb6 & Hr6 & Hlc6).
  (* tooltip *)
  rewrite (bind_normal _ _ s6 s6 from_below).
  2: { unfold from_below. destruct (py_neb value (default_value out)); [| reflexivity].
       unfold bind. rewrite (Hcontains s6 Hr6 Hlc6). reflexivity. }
  match goal with
  | |- context [match ?t with
                | Some text => if str_truthy text then _ else _
                | None => _
                end] =>
      change t with (tooltip_text (o_help opt) (tooltip_default out) from_below)
  end.
  set (tip := tooltip_text (o_help opt) (tooltip_default out) from_below).
  set (s7 := match tip with
             | Some text =>
                 if str_truthy text
                 then set_wrapper_store (alter (w_set_tooltip text) w)
                 else fun s => s
             | None => fun s => s
             end s6).
  rewrite (bind_normal _ _ s6 s7 tt)
    by (unfold s7; destruct tip as [text |]; [destruct (str_truthy text) |]; reflexivity).
  assert (Hw7 : wrapper_store s7 !! w =
                Some {| w_option := opt; w_value := value; w_builds := 1;
                        w_styles := styles_for in_raw value (default_value out);
                        w_sensitive := true;
                        w_tooltip := row_tooltip (o_help opt) (tooltip_default out)
                                       from_below |}).
  { unfold s7, row_tooltip. fold tip.
    destruct tip as [text |]; [destruct (str_truthy text) |];
      cbn [wrapper_store set_wrapper_store];
      rewrite ?lookup_alter_eq, Hws6, Hw3; reflexivity. }
  assert (Hq7 : button_store s7 = button_store s6 /\ wrappers s7 = wrappers s2 /\
                reset_buttons s7 = reset_buttons s6).
  { unfold s7. destruct tip as [text |]; [destruct (str_truthy text) |]; cbn; auto. }
  destruct Hq7 as (Hbs7 & Hreg7 & Hrbs7).
  (* sensitivity *)
  set (s8 := match o_condition opt with
             | Some condition =>
                 if negb (py_truthy condition)
                 then set_wrapper_store (alter (w_set_sensitive false) w)
                 else fun s => s
             | None => fun s => s
             end s7).
  rewrite (bind_normal _ _ s7 s8 tt)
    by (unfold s8; destruct (o_condition opt) as [condition |];
        [destruct (py_truthy condition) |]; reflexivity).
  assert (Hw8 : wrapper_store s8 !! w =
                Some {| w_option := opt; w_value := value; w_builds := 1;
                        w_styles := styles_for in_raw value (default_value out);
                        w_sensitive := row_sensitive opt;
                        w_tooltip := row_tooltip (o_help opt) (tooltip_default out)
                                       from_below |}).
  { unfold s8, row_sensitive.
    destruct (o_condition opt) as [condition |]; [destruct (py_truthy condition) |];
      cbn [wrapper_store set_wrapper_store negb];
      rewrite ?lookup_alter_eq, Hw7; reflexivity. }
  assert (Hq8 : button_store s8 = button_store s6 /\ wrappers s8 = wrappers s2 /\
                reset_buttons s8 = reset_buttons s6).
  { unfold s8. destruct (o_condition opt) as [condition |];
      [destruct (py_truthy condition) |]; cbn; auto. }
  destruct Hq8 as (Hbs8 & Hreg8 & Hrbs8).
  rewrite <- Hbs8 in Hb6. rewrite <- Hrbs8 in Hrb6.
  assert (Hreg : wrappers s8 !! key = Some w)
    by (rewrite Hreg8; cbn; apply lookup_insert_eq).
  clearbody s8. clear - Hw8 Hb6 Hrb6 Hreg.
  (* message boxes and the container *)
  unfold bind, new_message_box, fresh, modify, ret, getitem.
  destruct (o_warning opt) as [wtag |], (o_error opt) as [etag |],
    (o_label opt) as [label |]; cbn;
    eexists _, _; (split; [reflexivity |]); cbn;
    (split; [first [reflexivity | eexists; split; [reflexivity |]; done] |]); done.
Qed.

(** What the construction of a row leaves behind when the generator
    returns, the raw dictionary is bound and the descriptor has a
    label. *)
Lemma build_row_result (ext : Externals) gen opt key value (s0 : ConfigBox)
    out rsec label :
  generate_widget ext gen opt value = inr out ->
  raw_config s0 = Some rsec ->
  o_label opt = Some label ->
  let in_raw := bool_decide (is_Some (raw_of rsec (lutris_config s0) !! key)) in
  let from_below := py_neb value (default_value out) && negb in_raw in
  let w := next_id s0 in
  let b := length (error_widgets out) + S (next_id s0) in
  exists c s',
    build_row ext gen opt key value s0 = (Normal c, s') /\
    lutris_option_key c = key /\
    lutris_option_label c = label /\
    oc_wrapper c = w /\
    oc_reset_btn c = b /\
    wrappers s' !! key = Some w /\
    reset_buttons s' !! key = Some b /\
    button_store s' !! b =
      Some {| rb_visible := false; rb_no_show_all := negb in_raw;
              rb_option := opt; rb_wrapper := w |} /\
    wrapper_store s' !! w =
      Some {| w_option := opt; w_value := value; w_builds := 1;
              w_styles := styles_for in_raw value (default_value out);
              w_sensitive := row_sensitive opt;
              w_tooltip := row_tooltip (o_help opt) (tooltip_default out) from_below |}.
Proof.
  intros Hgen Hr Hlabel. cbv zeta.
  destruct (build_row_run ext gen opt key value s0 out rsec Hgen Hr)
    as (r & s' & E & Hc & Hrest).
  rewrite Hlabel in Hc. destruct Hc as (c & -> & H1 & H2 & H3 & H4).
  exists c, s'. done.
Qed.

(** X15. The row that [build_row] returns is wired to its own objects.
    When the generator returns, the raw dictionary is bound and the
    descriptor has a label, [build_row] returns a row; the registries
    then hold the wrapper and the reset button of that row under its
    key; the button is hidden, and flagged no-show-all exactly when the
    raw dictionary does not hold the key; and a click on the button runs
    the reset handler with the descriptor and the wrapper of that row. *)
Theorem build_row_wires_reset_button (ext : Externals) gen opt key value
    (s0 : ConfigBox) out rsec label :
  generate_widget ext gen opt value = inr out ->
  raw_config s0 = Some rsec ->
  o_label opt = Some label ->
  exists c s' rb,
    build_row ext gen opt key value s0 = (Normal c, s') /\
    lutris_option_key c = key /\
    wrappers s' !! key = Some (oc_wrapper c) /\
    reset_buttons s' !! key = Some (oc_reset_btn c) /\
    button_store s' !! oc_reset_btn c = Some rb /\
    rb_visible rb = false /\
    (rb_no_show_all rb = true <-> raw_of rsec (lutris_config s0) !! key = None) /\
    click_reset ext (oc_reset_btn c) s' =
    on_reset_button_clicked ext (oc_reset_btn c) opt (oc_wrapper c) s'.
Proof.
  intros Hgen Hr Hlabel.
  destruct (build_row_result ext gen opt key value s0 out rsec label Hgen Hr Hlabel)
    as (c & s' & E & Hkey & _ & Hw & Hb & Hreg & Hrb & Hbtn & _).
  cbv zeta in *. rewrite <- Hw in Hreg. rewrite <- Hb in Hrb, Hbtn.
  eexists c, s', _. split; [exact E |]. split; [exact Hkey |].
  split; [exact Hreg |]. split; [exact Hrb |]. split; [exact Hbtn |].
  split; [reflexivity |]. split.
  - cbn [rb_no_show_all]. case_bool_decide as Hin; simpl.
    + split; [discriminate |]. intros Hnone. rewrite Hnone in Hin. now destruct Hin.
    + split; [| done]. intros _. now apply eq_None_not_Some.
  - unfold click_reset, bind, gets. rewrite Hbtn. cbn. now rewrite Hw.
Qed.

(** *** The tooltip *)

Lemma str_truthy_app_r (a b : string) : str_truthy b = true -> str_truthy (a +:+ b) = true.
Proof. destruct a; [done | reflexivity]. Qed.

Lemma str_truthy_false (a : string) : str_truthy a = false <-> a = "".
Proof.
  destruct a as [| c a]; [split; reflexivity |].
  split; intros H; [vm_compute in H |]; discriminate H.
Qed.

(** A row has no tooltip exactly when there is nothing to say: no help
    text, no default reported as a string, and a value that does not come
    from a lower level. *)
Lemma row_tooltip_none (help : option string) (tooltip_default : pyval) (from_below : bool) :
  row_tooltip help tooltip_default from_below = None <->
  from_below = false /\
  (forall text, tooltip_default <> VStr text) /\
  (help = None \/ help = Some "").
Proof.
  unfold row_tooltip, tooltip_text.
  destruct from_below.
  { rewrite str_truthy_app_r by reflexivity. split; [discriminate | intros [[=] _]]. }
  assert (Hhelp : match help with
                  | Some text => if str_truthy text then Some text else None
                  | None => None
                  end = None <-> help = None \/ help = Some "").
  { destruct help as [h |]; [| split; auto].
    destruct (str_truthy h) eqn:Hh.
    - split; [discriminate |]. intros [[=] | [= ->]]. discriminate Hh.
    - apply str_truthy_false in Hh as ->. split; auto. }
  destruct tooltip_default as [| x | z | text | l | c r].
  4: { rewrite str_truthy_app_r by reflexivity. split; [discriminate |].
       intros (_ & Hd & _). now destruct (Hd text). }
  all: rewrite Hhelp; split; [intros H; repeat split; try done | intros (_ & _ & H); exact H].
Qed.

(** X16. The tooltip of a new row. When [build_row] returns a row, the
    wrapper of the row carries the help text of the descriptor, followed
    by the default when the generator reports it as a string, followed
    by the note on italics when the value differs from the default and
    the raw dictionary does not hold the key. The wrapper is rendered
    italic exactly in that last case, so that every italic row explains
    itself in its tooltip; and the wrapper has no tooltip only when there
    is no help text, no default text and no note. *)
Theorem build_row_tooltip (ext : Externals) gen opt key value
    (s0 : ConfigBox) out rsec label :
  generate_widget ext gen opt value = inr out ->
  raw_config s0 = Some rsec ->
  o_label opt = Some label ->
  let from_below :=
    py_neb value (default_value out) &&
    negb (bool_decide (is_Some (raw_of rsec (lutris_config s0) !! key))) in
  exists c s' wb,
    build_row ext gen opt key value s0 = (Normal c, s') /\
    wrapper_store s' !! oc_wrapper c = Some wb /\
    w_tooltip wb = row_tooltip (o_help opt) (tooltip_default out) from_below /\
    (rendered_weight wb = italic <-> from_below = true) /\
    (from_below = true ->
     exists text, w_tooltip wb = Some (text +:+ italic_note)) /\
    (w_tooltip wb = None <->
     from_below = false /\
     (forall text, tooltip_default out <> VStr text) /\
     (o_help opt = None \/ o_help opt = Some "")).
Proof.
  intros Hgen Hr Hlabel from_below.
  destruct (build_row_result ext gen opt key value s0 out rsec label Hgen Hr Hlabel)
    as (c & s' & E & _ & _ & Hw & _ & _ & _ & _ & Hwb).
  cbv zeta in *. rewrite <- Hw in Hwb.
  eexists c, s', _. split; [exact E |]. split; [exact Hwb |].
  cbn [w_tooltip]. fold from_below. split; [reflexivity |]. split; [| split].
  - rewrite (rendered_weight_styles_for (raw_of rsec (lutris_config s0)) key value
               (default_value out)) by reflexivity.
    unfold weight_for, from_below, py_neb.
    case_bool_decide as Hin.
    + destruct Hin as [x Hx]. rewrite Hx, andb_false_r. split; discriminate.
    + apply eq_None_not_Some in Hin. rewrite Hin, andb_true_r.
      destruct (py_eqb value (default_value out)); simpl; split; congruence.
  - intros Hfb. rewrite Hfb. unfold row_tooltip, tooltip_text.
    rewrite str_truthy_app_r by reflexivity. eauto.
  - apply row_tooltip_none.
Qed.

(** X17. A new row is greyed out exactly when its descriptor has a
    [condition] entry that is false: when [build_row] returns a row, the
    wrapper of the row is insensitive if and only if the descriptor
    holds a condition whose truth value is false. *)
Theorem build_row_sensitivity (ext : Externals) gen opt key value
    (s0 : ConfigBox) out rsec label :
  generate_widget ext gen opt value = inr out ->
  raw_config s0 = Some rsec ->
  o_label opt = Some label ->
  exists c s' wb,
    build_row ext gen opt key value s0 = (Normal c, s') /\
    wrapper_store s' !! oc_wrapper c = Some wb /\
    (w_sensitive wb = false <->
     exists condition, o_condition opt = Some condition /\ py_truthy condition = false).
Proof.
  intros Hgen Hr Hlabel.
  destruct (build_row_result ext gen opt key value s0 out rsec label Hgen Hr Hlabel)
    as (c & s' & E & _ & _ & Hw & _ & _ & _ & _ & Hwb).
  cbv zeta in *. rewrite <- Hw in Hwb.
  eexists c, s', _. split; [exact E |]. split; [exact Hwb |].
  cbn [w_sensitive]. unfold row_sensitive.
  destruct (o_condition opt) as [condition |].
  - split; [eauto |]. now intros (x & [= <-] & Hx).
  - split; [discriminate |]. now intros (x & Hx & _).
Qed.

(** ** The default directory of the widget generator *)

(** X18. The default directory that [get_widget_generator] gives a new
    generator follows the edits of the form only through the
    ["game_path"] entry of the system section: any other edit leaves it
    as it was, and on a form without a game an edit of that entry makes
    the new value the default directory when it is true, the home
    directory otherwise. *)
Theorem get_widget_generator_after_edit (ext : Externals) (s : ConfigBox) (k : string)
    (v : pyval) (sec : section_name) :
  config s = Some sec ->
  raw_config s = Some sec ->
  let s' := (on_option_changed k v s).2 in
  (sec <> SecSystem \/ k <> "game_path" ->
   get_widget_generator ext s' = get_widget_generator ext s) /\
  (sec = SecSystem -> k = "game_path" -> game s = None ->
   get_widget_generator ext s' = if py_truthy v then v else VStr (expanduser ext "~")).
Proof.
  intros Hc Hr. cbv zeta.
  destruct (on_option_changed_config s k v sec Hc Hr) as (_ & _ & E). cbv zeta in E.
  assert (Hgame : game (on_option_changed k v s).2 = game s).
  { rewrite (on_option_changed_eq s k v sec sec Hc Hr), update_warnings_eq.
    destruct (wrappers s !! k), (reset_buttons s !! k); reflexivity. }
  unfold get_widget_generator. rewrite Hgame, E.
  change (system_config ?lc) with (effective_of SecSystem lc).
  split.
  - intros Hne. unfold dict_get.
    destruct (section_name_cases sec SecSystem) as [-> | Hs].
    + rewrite effective_of_update_effective, effective_of_update_raw.
      rewrite lookup_insert_ne by (destruct Hne; congruence). reflexivity.
    + rewrite effective_of_update_effective_ne, effective_of_update_raw by done.
      reflexivity.
  - intros -> -> Hg. rewrite Hg. unfold dict_get.
    rewrite effective_of_update_effective, lookup_insert_eq. reflexivity.
Qed.

(** ** What the outcome of a descriptor depends on *)

Lemma agree_refl s : agree s s.
Proof. done. Qed.

Lemma agree_sym s s' : agree s s' -> agree s' s.
Proof. intros (H1 & H2 & H3 & H4). done. Qed.

Lemma agree_trans s1 s2 s3 : agree s1 s2 -> agree s2 s3 -> agree s1 s3.
Proof.
  intros (A1 & A2 & A3 & A4) (B1 & B2 & B3 & B4). repeat split; congruence.
Qed.

Lemma configuration_only_bind {A B} (m : M ConfigBox A) (f : A -> M ConfigBox B) :
  configuration_only m -> (forall a, configuration_only (f a)) ->
  configuration_only (bind m f).
Proof.
  intros Hm Hf s s' Ha. unfold bind. destruct (Hm s s' Ha) as [E Ha'].
  destruct (m s) as [r s1], (m s') as [r' s1']. simpl in *. subst r'.
  destruct r as [a | | ex]; simpl; auto. now apply Hf.
Qed.

Lemma configuration_only_ret {A} (a : A) : configuration_only (ret a).
Proof. intros s s' Ha. done. Qed.

Lemma configuration_only_raise {A} (ex : exn) : configuration_only (@raise ConfigBox A ex).
Proof. intros s s' Ha. done. Qed.

Lemma configuration_only_continue {A} : configuration_only (@continue ConfigBox A).
Proof. intros s s' Ha. done. Qed.

Lemma configuration_only_getitem {A} key (field : option A) :
  configuration_only (getitem key field).
Proof. intros s s' Ha. destruct field; done. Qed.

Lemma configuration_only_level : configuration_only (gets config_level).
Proof.
  intros s s' Ha. split; [| exact Ha].
  unfold gets. cbn. f_equal. exact (proj1 Ha).
Qed.

Lemma configuration_only_config_get k : configuration_only (config_get k).
Proof.
  intros s s' Ha. pose proof Ha as (H1 & H2 & H3 & H4).
  unfold config_get. rewrite H2, H4.
  destruct (config s'); cbn; auto.
Qed.

Lemma configuration_only_call_producer key field f :
  configuration_only (call_producer key field f).
Proof.
  intros s s' Ha. destruct f as [| x | z | str | l | c [ex | v]]; try done.
Qed.

Ltac configuration_step :=
  first
    [ apply configuration_only_ret
    | apply configuration_only_raise
    | apply configuration_only_continue
    | apply configuration_only_getitem
    | apply configuration_only_level
    | apply configuration_only_config_get
    | apply configuration_only_call_producer
    | apply configuration_only_bind; [| intros ? ]
    | match goal with
      | |- configuration_only (match ?x with _ => _ end) => destruct x
      end ].

(** The resolution of a descriptor reads the level of the form, the
    binding of [self.config] and the store, and nothing else. *)
Lemma resolve_option_configuration_only (o : option_dict) :
  configuration_only (resolve_option o).
Proof.
  unfold resolve_option, resolve_visible, resolve_choices, resolve_condition.
  repeat configuration_step.
Qed.

Lemma resolve_option_agree (o : option_dict) (s : ConfigBox) :
  agree s (resolve_option o s).2.
Proof.
  destruct (resolve_option_spec o s) as (new & E & _). rewrite E. done.
Qed.

(** The section switch always returns, and leaves the configuration
    alone. *)
Lemma enter_section_normal (opt : option_dict) (p : pass) :
  exists p', enter_section opt p = (Normal tt, p') /\ agree (self p) (self p').
Proof.
  unfold enter_section, bind, gets, set_current_section, set_current_vbox, on_self,
    fresh, modify, ret.
  cbn. case_bool_decide; [| eexists; split; [reflexivity | done]].
  destruct (o_section opt) as [name |]; [destruct (str_truthy name) |]; cbn;
    eexists; (split; [reflexivity | done]).
Qed.

Lemma building_agree (s s' : ConfigBox) : building s s' -> agree s s'.
Proof.
  intros (He & _). destruct (env_fields _ _ He) as (_ & H1 & H2 & _ & _ & H3 & H4 & _).
  repeat split; congruence.
Qed.

(** The outcome of the construction of a row. *)
Lemma build_row_outcome (ext : Externals) gen opt key value (s : ConfigBox) :
  store_fresh s ->
  shape (build_row ext gen opt key value s).1 =
  build_outcome ext gen opt value (raw_config s) /\
  agree s (build_row ext gen opt key value s).2.
Proof.
  intros Hf. split; [| apply building_agree, (build_row_spec ext gen opt key value s Hf)].
  unfold build_outcome.
  destruct (generate_widget ext gen opt value) as [ex | out] eqn:Hgen.
  { unfold build_row.
    rewrite (bind_raise _ _ s s ex) by (unfold gen_generate_widget; now rewrite Hgen).
    done. }
  destruct (raw_config s) as [rsec |] eqn:Hr.
  - destruct (build_row_run ext gen opt key value s out rsec Hgen Hr)
      as (r & s' & E & Hc & _).
    rewrite E. cbn [fst].
    destruct (o_label opt); [destruct Hc as (c & -> & _) | subst r]; reflexivity.
  - unfold build_row.
    destruct (gen_generate_widget_eq ext gen opt value s out Hgen) as (errors & store' & E1).
    rewrite (bind_normal _ _ _ _ _ E1). cbn [fst snd].
    match type of E1 with _ = (_, ?s1) =>
      rewrite (bind_normal (modify (set_wrappers (insert key (next_id s)))) _ s1 _ tt eq_refl)
    end.
    match goal with
    | |- shape (bind (raw_config_contains key) ?f ?s2).1 = _ =>
        rewrite (bind_raise (raw_config_contains key) f s2 s2
                   (TypeError "argument of type 'NoneType' is not iterable"))
          by (unfold raw_config_contains; cbn; now rewrite Hr)
    end.
    reflexivity.
Qed.

(** The outcome of the body of the [try] statement for a descriptor:
    that of its resolution, and when the resolution returns, that of the
    construction of the row; the section switch and the packing of the
    row always return. *)
Lemma generate_option_outcome (ext : Externals) gen (o : option_dict) (p : pass) :
  pass_ok p ->
  (generate_option ext gen o p).1 =
  match (resolve_option o (self p)).1 with
  | Normal r => build_outcome ext gen r.2 r.1.2 (raw_config (self p))
  | Continue => Continue
  | Raise ex => Raise ex
  end.
Proof.
  intros Hok. unfold generate_option.
  destruct (resolve_option_spec o (self p)) as (new & E & _).
  set (p1 := {| self := add_calls new (self p); current_section := current_section p;
                current_vbox := current_vbox p |}).
  assert (Hok1 : pass_ok p1) by (now apply pass_ok_add_calls).
  destruct (resolve_option o (self p)) as [[r | | ex] s1] eqn:R; simpl in E; subst s1.
  2: { rewrite (bind_continue (on_self (resolve_option o)) _ p p1)
         by (rewrite on_self_eq, R; reflexivity). reflexivity. }
  2: { rewrite (bind_raise (on_self (resolve_option o)) _ p p1 ex)
         by (rewrite on_self_eq, R; reflexivity). reflexivity. }
  rewrite (bind_normal (on_self (resolve_option o)) _ p p1 r)
    by (rewrite on_self_eq, R; reflexivity).
  destruct (enter_section_spec r.2 p1 Hok1) as (p2 & E2 & Hok2 & He2 & _).
  rewrite (bind_normal (enter_section r.2) _ p1 p2 tt E2).
  destruct (env_fields _ _ He2) as (_ & _ & _ & _ & _ & _ & Hraw & _).
  change (raw_config (self p1)) with (raw_config (self p)) in Hraw.
  destruct (build_row_outcome ext gen r.2 r.1.1 r.1.2 (self p2) (proj1 (proj1 Hok2)))
    as [Hshape _].
  rewrite Hraw in Hshape. cbn [fst]. rewrite <- Hshape.
  set (p3 := {| self := (build_row ext gen r.2 r.1.1 r.1.2 (self p2)).2;
                current_section := current_section p2;
                current_vbox := current_vbox p2 |}).
  destruct (build_row ext gen r.2 r.1.1 r.1.2 (self p2)) as [[c | | ex] s3] eqn:B.
  - rewrite (bind_normal (on_self (build_row ext gen r.2 r.1.1 r.1.2)) _ p2 p3 c)
      by (rewrite on_self_eq, B; reflexivity).
    rewrite (bind_normal (gets current_vbox) _ p3 p3 (current_vbox p3) eq_refl).
    rewrite on_self_eq. reflexivity.
  - rewrite (bind_continue (on_self (build_row ext gen r.2 r.1.1 r.1.2)) _ p2 p3)
      by (rewrite on_self_eq, B; reflexivity). reflexivity.
  - rewrite (bind_raise (on_self (build_row ext gen r.2 r.1.1 r.1.2)) _ p2 p3 ex)
      by (rewrite on_self_eq, B; reflexivity). reflexivity.
Qed.

Lemma env_agree (s s' : ConfigBox) : env s' = env s -> agree s s'.
Proof.
  intros He. destruct (env_fields _ _ He) as (_ & H1 & H2 & _ & _ & H3 & H4 & _).
  repeat split; congruence.
Qed.

Lemma generate_option_outcome_agree (ext : Externals) gen (o : option_dict) (p1 p2 : pass) :
  pass_ok p1 -> pass_ok p2 -> agree (self p1) (self p2) ->
  (generate_option ext gen o p1).1 = (generate_option ext gen o p2).1.
Proof.
  intros Hok1 Hok2 Ha.
  rewrite (generate_option_outcome ext gen o p1 Hok1),
    (generate_option_outcome ext gen o p2 Hok2).
  destruct (resolve_option_configuration_only o _ _ Ha) as [E _]. rewrite E.
  destruct Ha as (_ & _ & Hraw & _). now rewrite Hraw.
Qed.

(** In a pass, the outcome of each descriptor is the outcome it has when
    it is processed by itself. *)
Lemma pass_outcomes_alone (ext : Externals) gen (opts : list option_dict) (p p0 : pass) :
  pass_ok p -> pass_ok p0 -> agree (self p0) (self p) ->
  pass_outcomes ext gen opts p =
  map (fun o => (o, (generate_option ext gen o p0).1)) opts.
Proof.
  intros Hok Hok0. revert p Hok. induction opts as [| o rest IH]; intros p Hok Ha.
  - reflexivity.
  - cbn [pass_outcomes map]. f_equal.
    + f_equal. now apply generate_option_outcome_agree; [| | apply agree_sym].
    + destruct (generate_option_guarded_spec ext gen o p Hok) as (Hok1 & He1 & _).
      cbv zeta in *. apply IH; [exact Hok1 |].
      eapply agree_trans; [exact Ha |]. now apply env_agree.
Qed.

Lemma built_alone_eq (alone : option_dict -> outcome unit) (opts : list option_dict) :
  built (map (fun o => (o, alone o)) opts) = built_alone alone opts.
Proof.
  unfold built, built_alone. induction opts as [| o rest IH]; [reflexivity |].
  cbn [map omap list_omap fst snd]. rewrite IH. reflexivity.
Qed.

Lemma failed_alone_eq (alone : option_dict -> outcome unit) (opts : list option_dict) :
  failed (map (fun o => (o, alone o)) opts) = failed_alone alone opts.
Proof.
  unfold failed, failed_alone. induction opts as [| o rest IH]; [reflexivity |].
  cbn [map omap list_omap fst snd]. rewrite IH. reflexivity.
Qed.

(** X19. Whether a descriptor gets a row does not depend on the other
    descriptors of the schema. In a render pass over a non-empty schema,
    the outcome of each descriptor is the outcome it has when it is
    processed by itself on the form as the pass found it: that of its
    resolution (scope, key, visibility, producers), and when the
    resolution returns, that of the widget generator, followed by the
    test that the raw dictionary is bound and that the descriptor has a
    label. The pass logs exactly the descriptors that fail by
    themselves, and adds a row, in the order of the schema, for exactly
    those that return by themselves. *)
Theorem generate_widgets_rows_independent (ext : Externals) (s : ConfigBox) :
  options s <> [] ->
  well_formed s ->
  let s1 := select_config_section s in
  let gen := get_widget_generator ext s1 in
  let alone o :=
    (generate_option ext gen o
       {| self := s1; current_section := None; current_vbox := None |}).1 in
  let s' := generate_widgets ext s in
  (forall o,
     alone o =
     match (resolve_option o s1).1 with
     | Normal r => build_outcome ext gen r.2 r.1.2 (raw_config s1)
     | Continue => Continue
     | Raise ex => Raise ex
     end) /\
  log s' = log s ++ failed_alone alone (options s) /\
  exists old_rows new_rows,
    rows (children s') = old_rows ++ new_rows /\
    Forall2 same_row (rows (children s)) old_rows /\
    map (fun c => Some (lutris_option_key c)) new_rows =
    map o_option (built_alone alone (options s)).
Proof.
  intros Hne Hwf. cbv zeta.
  set (s1 := select_config_section s).
  set (gen := get_widget_generator ext s1).
  set (p0 := {| self := s1; current_section := None; current_vbox := None |}).
  assert (Hok0 : pass_ok p0).
  { split; [| exact I]. destruct (select_config_section_eq s) as (cf & rf & Es).
    unfold p0, s1. rewrite Es. exact Hwf. }
  destruct (generate_widgets_spec ext s Hne Hwf)
    as (Hlog & _ & (old_rows & new_rows & Hrows & Hold & Hnew) & _).
  cbv zeta in *. fold s1 gen p0 in Hlog, Hnew.
  rewrite (pass_outcomes_alone ext gen (options s) p0 p0 Hok0 Hok0 (agree_refl _))
    in Hlog, Hnew.
  rewrite failed_alone_eq in Hlog. rewrite built_alone_eq in Hnew.
  split; [| split; [exact Hlog |]].
  - intros o. apply (generate_option_outcome ext gen o p0 Hok0).
  - exists old_rows, new_rows. split; [exact Hrows | split; [exact Hold |]].
    clear -Hnew. induction Hnew as [| o c os cs [_ Hr] _ IH]; [reflexivity |].
    cbn [map]. rewrite IH. f_equal.
    destruct Hr as (sec & rsec & out & wb & _ & _ & Hk & _). now rewrite Hk.
Qed.

(** ** The shape of a rendered tree *)

Lemma is_row_erase (w : widget) : is_row (erase_visibility w) <-> is_row w.
Proof. destruct w; done. Qed.

Lemma flat_erase (w : widget) : flat (erase_visibility w) <-> flat w.
Proof.
  destruct w as [c | id section v vbox | name v n]; try done.
  simpl. change (map erase_visibility vbox) with (erase_visibility <$> vbox).
  rewrite Forall_fmap. apply Forall_iff. intros x. apply is_row_erase.
Qed.

Lemma flat_same_shape (ws ws' : list widget) :
  map erase_visibility ws' = map erase_visibility ws ->
  Forall flat ws -> Forall flat ws'.
Proof.
  intros E H. change (map erase_visibility) with (fmap (M := list) erase_visibility) in E.
  assert (H' : Forall flat (erase_visibility <$> ws')).
  { rewrite E. apply Forall_fmap. eapply Forall_impl; [exact H |].
    intros x. apply flat_erase. }
  rewrite Forall_fmap in H'. eapply Forall_impl; [exact H' |]. intros x. apply flat_erase.
Qed.

Lemma flat_pack_start (vbox : option nat) (c : option_container) (s : ConfigBox) :
  Forall flat (children s) ->
  Forall flat (children (pack_start vbox (OptionContainer c) s)).
Proof.
  intros H. unfold pack_start. cbn [children set_children].
  destruct vbox as [f |].
  - unfold pack_in_frame.
    match goal with |- Forall flat (map ?g ?l) => change (Forall flat (g <$> l)) end.
    apply Forall_fmap. eapply Forall_impl; [exact H |].
    intros [c0 | id section v box | name v n] Hx; try done.
    cbn. destruct (Nat.eqb id f); [| exact Hx].
    cbn. apply Forall_app. split; [exact Hx | repeat constructor].
  - apply Forall_app. split; [exact H | repeat constructor].
Qed.

Lemma enter_section_flat (opt : option_dict) (p : pass) :
  Forall flat (children (self p)) ->
  Forall flat (children (self (enter_section opt p).2)).
Proof.
  intros H.
  unfold enter_section, bind, gets, set_current_section, set_current_vbox, on_self,
    fresh, modify, ret.
  cbn. case_bool_decide; [| exact H].
  destruct (o_section opt) as [name |]; [destruct (str_truthy name) |]; cbn;
    try exact H.
  apply Forall_app. split; [exact H |]. repeat constructor.
Qed.

Lemma generate_option_flat (ext : Externals) gen (o : option_dict) (p : pass) :
  pass_ok p ->
  Forall flat (children (self p)) ->
  Forall flat (children (self (generate_option ext gen o p).2)).
Proof.
  intros Hok Hflat. unfold generate_option.
  destruct (resolve_option_spec o (self p)) as (new & E & _).
  set (p1 := {| self := add_calls new (self p); current_section := current_section p;
                current_vbox := current_vbox p |}).
  assert (Hok1 : pass_ok p1) by (now apply pass_ok_add_calls).
  assert (Hflat1 : Forall flat (children (self p1))) by exact Hflat.
  destruct (resolve_option o (self p)) as [[r | | ex] s1] eqn:R; simpl in E; subst s1.
  2: { rewrite (bind_continue (on_self (resolve_option o)) _ p p1)
         by (rewrite on_self_eq, R; reflexivity). exact Hflat1. }
  2: { rewrite (bind_raise (on_self (resolve_option o)) _ p p1 ex)
         by (rewrite on_self_eq, R; reflexivity). exact Hflat1. }
  rewrite (bind_normal (on_self (resolve_option o)) _ p p1 r)
    by (rewrite on_self_eq, R; reflexivity).
  destruct (enter_section_spec r.2 p1 Hok1) as (p2 & E2 & Hok2 & _).
  pose proof (enter_section_flat r.2 p1 Hflat1) as Hflat2. rewrite E2 in Hflat2.
  cbn [snd] in Hflat2.
  rewrite (bind_normal (enter_section r.2) _ p1 p2 tt E2).
  destruct (build_row_spec ext gen r.2 r.1.1 r.1.2 (self p2) (proj1 (proj1 Hok2)))
    as [(_ & Hc3 & _) _].
  set (p3 := {| self := (build_row ext gen r.2 r.1.1 r.1.2 (self p2)).2;
                current_section := current_section p2;
                current_vbox := current_vbox p2 |}).
  assert (Hflat3 : Forall flat (children (self p3))) by (cbn [self p3]; now rewrite Hc3).
  destruct (build_row ext gen r.2 r.1.1 r.1.2 (self p2)) as [[c | | ex] s3] eqn:B.
  - rewrite (bind_normal (on_self (build_row ext gen r.2 r.1.1 r.1.2)) _ p2 p3 c)
      by (rewrite on_self_eq, B; reflexivity).
    rewrite (bind_normal (gets current_vbox) _ p3 p3 (current_vbox p3) eq_refl).
    rewrite on_self_eq. unfold modify. cbn [fst snd self].
    now apply flat_pack_start.
  - rewrite (bind_continue (on_self (build_row ext gen r.2 r.1.1 r.1.2)) _ p2 p3)
      by (rewrite on_self_eq, B; reflexivity). exact Hflat3.
  - rewrite (bind_raise (on_self (build_row ext gen r.2 r.1.1 r.1.2)) _ p2 p3 ex)
      by (rewrite on_self_eq, B; reflexivity). exact Hflat3.
Qed.

Lemma generate_rows_flat (ext : Externals) gen (opts : list option_dict) (p : pass) :
  pass_ok p ->
  Forall flat (children (self p)) ->
  Forall flat (children (self (generate_rows ext gen opts p))).
Proof.
  revert p. induction opts as [| o rest IH]; intros p Hok Hflat; [exact Hflat |].
  change (generate_rows ext gen (o :: rest) p)
    with (generate_rows ext gen rest (generate_option_guarded ext gen o p)).
  destruct (generate_option_guarded_spec ext gen o p Hok) as (Hok1 & _).
  cbv zeta in Hok1. apply IH; [exact Hok1 |].
  pose proof (generate_option_flat ext gen o p Hok Hflat) as H.
  unfold generate_option_guarded.
  destruct (generate_option ext gen o p) as [[[] | | ex] p']; exact H.
Qed.

(** X20. A render pass keeps the tree flat: when every section frame of
    the tree holds option rows only (an empty tree, or one with the
    information box, is so), the same holds after a pass over a
    non-empty schema, whatever the descriptors. In the rendered tree a
    section frame is therefore visible exactly when one of the rows in
    its box is visible. *)
Theorem generate_widgets_flat (ext : Externals) (s : ConfigBox) :
  options s <> [] ->
  well_formed s ->
  Forall flat (children s) ->
  let s' := generate_widgets ext s in
  Forall flat (children s') /\
  forall id section v vbox,
    SectionFrame id section v vbox ∈ children s' ->
    Forall is_row vbox /\
    (v = true <-> exists c, OptionContainer c ∈ vbox /\ oc_visible c = true).
Proof.
  intros Hne Hwf Hflat. cbv zeta.
  assert (Hflat' : Forall flat (children (generate_widgets ext s))).
  { rewrite (generate_widgets_unfold ext s Hne).
    destruct (select_config_section_eq s) as (cf & rf & Es). rewrite Es.
    set (s1 := set_config (fun _ => cf) (set_raw_config (fun _ => rf) s)).
    set (p0 := {| self := s1; current_section := None; current_vbox := None |}).
    assert (Hok0 : pass_ok p0) by (split; [exact Hwf | exact I]).
    pose proof (generate_rows_flat ext (get_widget_generator ext s1) (options s1) p0 Hok0
                  Hflat) as H.
    set (p' := generate_rows ext (get_widget_generator ext s1) (options s1) p0) in *.
    unfold set_advanced_visibility_to. rewrite children_update_option_visibility.
    eapply flat_same_shape; [| exact H].
    match goal with
    | |- map erase_visibility (update_widgets ?a ?f ?ws).1 = _ =>
        destruct (update_widgets_spec a f ws) as (_ & E & _); rewrite E
    end.
    cbn [children set_advanced_visibility set_settings_reads].
    rewrite children_show_all. apply erase_show_all. }
  split; [exact Hflat' |].
  intros id section v vbox Hin.
  assert (Hrows : Forall is_row vbox).
  { rewrite Forall_forall in Hflat'. exact (Hflat' _ Hin). }
  split; [exact Hrows |].
  destruct (generate_widgets_spec ext s Hne Hwf)
    as (_ & _ & _ & _ & _ & _ & _ & _ & _ & Hsettled & _).
  cbv zeta in Hsettled.
  specialize (Hsettled (SectionFrame id section v vbox) (widget_in_here _ _ Hin)).
  simpl in Hsettled.
  assert (Hv : v = true <-> exists w, widget_in w vbox /\ visible_leaf w).
  { rewrite <- visible_count_pos, Hsettled. apply Nat.ltb_lt. }
  rewrite Hv. now apply rows_only_leaf.
Qed.

End Text.

(** * The properties at sample forms

    The sample forms are run with the lowering of ASCII text. *)

#[global] Existing Instance ascii_lowering.

Example ascii_lower_example : ascii_lower "Wine Version" = "wine version".
Proof. reflexivity. Qed.

Example str_in_example :
  str_in "wine" (ascii_lower "Wine version") = true /\
  str_in "zz-nomatch" (ascii_lower "Wine version") = false /\
  str_in "" "" = true.
Proof. repeat split; reflexivity. Qed.

(** The theorem at the sample form, filtered by "WINE", for the row that
    is packed last. *)
Lemma update_option_visibility_witness :
  let s := set_filter (fun _ => "WINE") wine_box in
  match last (children (update_option_visibility s)) with
  | Some (OptionContainer c) =>
      oc_visible c = true <->
      (_advanced_visibility s = true \/ oc_advanced c = false) /\
      (_filter s = "" \/
       caseless_substring (_filter s) (lutris_option_label c) \/
       caseless_substring (_filter s) (lutris_option_helptext c))
  | _ => False
  end.
Proof.
  cbv zeta.
  pose proof (proj1 (proj2 (update_option_visibility_spec
                              (set_filter (fun _ => "WINE") wine_box)))) as H.
  cbv zeta in H.
  remember (last (children (update_option_visibility
                              (set_filter (fun _ => "WINE") wine_box)))) as row eqn:E.
  pose proof E as E'. vm_compute in E'. rewrite E'. rewrite E' in E.
  apply H.
  - apply widget_in_here. vm_compute. repeat constructor.
  - vm_compute. reflexivity.
  - vm_compute. reflexivity.
  - vm_compute. reflexivity.
Defined.

(** The matching of the source is not matching with case ignored. With
    the lowering of Greek text, the label of the only row holds the
    filter text letter for letter, and the row is hidden: the filter
    text, a capital sigma alone, lowers to the sigma used inside a word,
    and the capital sigma that ends the label lowers to the final
    sigma. *)
Lemma final_sigma_counterexample :
  let s := set_filter (fun _ => "Σ") (@odos_box greek_lowering) in
  (lower (Lowering := greek_lowering) "Σ" = "σ" /\
   lower (Lowering := greek_lowering) "ΟΔΟΣ" = "οδος") /\
  match rows (children (@update_option_visibility greek_lowering s)) with
  | [c] =>
      lutris_option_label c = "ΟΔΟΣ" /\
      (_advanced_visibility s = true \/ oc_advanced c = false) /\
      caseless_substring (_filter s) (lutris_option_label c) /\
      oc_visible c = false
  | _ => False
  end.
Proof.
  cbv zeta. split; [split; vm_compute; reflexivity |].
  remember (rows (children (@update_option_visibility greek_lowering
                              (set_filter (fun _ => "Σ") (@odos_box greek_lowering)))))
    as l eqn:E.
  vm_compute in E. subst l.
  split; [reflexivity |]. split; [right; reflexivity |]. split; [| reflexivity].
  exists "ΟΔΟ", "Σ", "". split; [vm_compute; reflexivity |].
  simpl. repeat split; left; reflexivity.
Qed.

Example filter_wine_rows :
  map (fun c => (lutris_option_key c, oc_visible c))
      (rows (children (set_filter_to "WINE" wine_box))) =
  [("version", true); ("dxvk", false); ("prefix", false)] /\
  map (fun c => (lutris_option_key c, oc_visible c))
      (rows (children (set_filter_to "zz-nomatch" wine_box))) =
  [("version", false); ("dxvk", false); ("prefix", false)] /\
  map (fun c => (lutris_option_key c, oc_visible c))
      (rows (children (set_advanced_visibility_to true wine_box))) =
  [("version", true); ("dxvk", true); ("prefix", true)].
Proof. repeat split; vm_compute; reflexivity. Qed.

(** The theorem at the sample form, for an edit of its ["dxvk"] option. *)
Lemma on_option_changed_witness :
  config wine_box = Some SecSystem /\
  raw_config wine_box = Some SecSystem /\
  exists s',
    on_option_changed "dxvk" (VBool false) wine_box = (Normal tt, s') /\
    raw_of SecSystem (lutris_config s') !! "dxvk" = Some (VBool false) /\
    effective_of SecSystem (lutris_config s') !! "dxvk" = Some (VBool false).
Proof.
  assert (Hc : config wine_box = Some SecSystem) by (vm_compute; reflexivity).
  assert (Hr : raw_config wine_box = Some SecSystem) by (vm_compute; reflexivity).
  split; [exact Hc | split; [exact Hr |]].
  destruct (on_option_changed_spec wine_box "dxvk" (VBool false) SecSystem SecSystem Hc Hr)
    as (s' & H1 & H2 & H3 & _).
  exists s'. split; [exact H1 | split; [exact H2 | exact H3]].
Defined.

(** The theorem at the sample form, for a key that is not in its schema. *)
Lemma on_option_changed_unregistered_witness :
  exists s',
    on_option_changed "gamemode" (VBool true) wine_box = (Normal tt, s') /\
    raw_of SecSystem (lutris_config s') !! "gamemode" = Some (VBool true) /\
    button_store s' = button_store wine_box /\
    wrapper_store s' = wrapper_store wine_box.
Proof.
  assert (Hc : config wine_box = Some SecSystem) by (vm_compute; reflexivity).
  assert (Hr : raw_config wine_box = Some SecSystem) by (vm_compute; reflexivity).
  assert (Hb : reset_buttons wine_box !! "gamemode" = None) by (vm_compute; reflexivity).
  assert (Hw : wrappers wine_box !! "gamemode" = None) by (vm_compute; reflexivity).
  destruct (on_option_changed_unregistered wine_box "gamemode" (VBool true)
              SecSystem SecSystem Hc Hr Hb Hw)
    as (s' & H1 & H2 & _ & H4 & H5 & _).
  exists s'. split; [exact H1 | split; [exact H2 | split; [exact H4 | exact H5]]].
Defined.

(** C10 as stated fails for a row omitted after its wrapper and reset
    button were registered: the row of ["nolabel"] is not in the tree and
    its failure is logged, yet the edit handler finds the registered reset
    button and wrapper, shows the former and makes the latter bold. *)
Lemma on_option_changed_omitted_row_counterexample :
  map lutris_option_key (rows (children unlabelled_box)) = ["ok"] /\
  log unlabelled_box = [(VStr "nolabel", KeyError "label")] /\
  reset_buttons unlabelled_box !! "nolabel" = Some 1 /\
  wrappers unlabelled_box !! "nolabel" = Some 0 /\
  rb_visible <$> button_store unlabelled_box !! 1 = Some false /\
  w_styles <$> wrapper_store unlabelled_box !! 0 = Some [] /\
  exists s',
    on_option_changed "nolabel" (VBool true) unlabelled_box = (Normal tt, s') /\
    rb_visible <$> button_store s' !! 1 = Some true /\
    w_styles <$> wrapper_store s' !! 0 = Some [("font-weight", "bold")].
Proof.
  repeat (split; [vm_compute; reflexivity |]).
  eexists. split; [vm_compute; reflexivity |].
  split; vm_compute; reflexivity.
Qed.

(** The theorem at the sample form, for the reset of its "version" row,
    which the raw dictionary overrides: the inherited value differs, so
    the control is rebuilt; the button is hidden. *)
Lemma on_reset_button_clicked_witness :
  let r := on_reset_button_clicked (sample_ext "False") 2 version_option 1 wine_box in
  lutris_config r.2 =
    cascade_update (update_raw SecSystem (delete "version") (lutris_config wine_box)) /\
  children r.2 = children wine_box /\
  button_hidden 2 (button_store wine_box) (button_store r.2) /\
  control_rebuilt 1 version_option (VStr "8.0") (wrapper_store wine_box) (wrapper_store r.2).
Proof.
  assert (Hc : config wine_box = Some SecSystem) by (vm_compute; reflexivity).
  assert (Hr : raw_config wine_box = Some SecSystem) by (vm_compute; reflexivity).
  assert (Hcur : effective_of SecSystem (lutris_config wine_box) !! "version"
                 = Some (VStr "9.0")) by (vm_compute; reflexivity).
  pose proof (on_reset_button_clicked_spec (sample_ext "False") wine_box 2
                version_option 1 "version" SecSystem SecSystem
                eq_refl Hc Hr) as H.
  cbv zeta in H. rewrite Hcur in H.
  destruct H as (_ & _ & H3 & _ & H5 & _ & _ & _ & H9 & _ & _ & _ & Hne).
  assert (Hv : dict_get
                 (effective_of SecSystem
                    (update_cascaded_config (sample_ext "False")
                       (update_raw SecSystem (delete "version") (lutris_config wine_box))))
                 "version" = VStr "8.0") by (vm_compute; reflexivity).
  rewrite Hv in Hne. specialize (Hne eq_refl).
  assert (Hgen : exists out,
            generate_widget (sample_ext "False")
              (get_widget_generator (sample_ext "False")
                 (set_lutris_config
                    (fun _ => update_cascaded_config (sample_ext "False")
                       (update_raw SecSystem (delete "version") (lutris_config wine_box)))
                    wine_box))
              version_option (VStr "8.0") = inr out)
    by (eexists; vm_compute; reflexivity).
  destruct Hgen as [out Hgen]. rewrite Hgen in Hne.
  destruct Hne as (_ & _ & Hbuilt & _).
  split; [exact H3 | split; [exact H9 | split; [exact H5 | exact Hbuilt]]].
Defined.

(** The rebuild count of the wrapper of the "version" row: a reset that
    changes the value rebuilds the control once and hides the button; a
    reset after an edit to the inherited value rebuilds nothing. *)
Example reset_rebuild_count :
  w_builds <$> wrapper_store wine_box !! 1 = Some 1 /\
  rb_visible <$> button_store wine_box !! 2 = Some true /\
  w_builds <$>
    wrapper_store (on_reset_button_clicked (sample_ext "False") 2 version_option 1 wine_box).2
      !! 1 = Some 2 /\
  rb_visible <$>
    button_store (on_reset_button_clicked (sample_ext "False") 2 version_option 1 wine_box).2
      !! 2 = Some false /\
  w_builds <$>
    wrapper_store
      (edit_then_reset (sample_ext "False") "version" (VStr "8.0") 2 version_option 1
         (on_reset_button_clicked (sample_ext "False") 2 version_option 1 wine_box).2)
      !! 1 = Some 2.
Proof. repeat split; vm_compute; reflexivity. Qed.

(** The claim read for every key fails on a form that two clicks reach.
    The only option of the form is overridden and nothing is inherited.
    The first click on its reset button removes the key from both
    dictionaries and hides the button; the next run of the visibility
    engine shows the button again; the second click raises [KeyError]
    and leaves the form as it was: nothing is removed from the raw
    dictionary, the button stays visible and the store is not asked to
    recompute. *)
Lemma second_reset_counterexample :
  let ext := sample_ext "False" in
  let first := on_reset_button_clicked ext 1 only_option 0 only_box in
  let shown := update_option_visibility first.2 in
  let second := on_reset_button_clicked ext 1 only_option 0 shown in
  (rb_option <$> button_store only_box !! 1 = Some only_option /\
   rb_wrapper <$> button_store only_box !! 1 = Some 0) /\
  first.1 = Normal tt /\
  effective_of SecSystem (lutris_config first.2) !! "only" = None /\
  rb_visible <$> button_store shown !! 1 = Some true /\
  second.1 = Raise (KeyError "only") /\
  second.2 = shown /\
  rb_visible <$> button_store second.2 !! 1 = Some true.
Proof.
  cbv zeta.
  repeat match goal with |- _ /\ _ => split end; vm_compute; reflexivity.
Qed.

(** The theorem at the sample form, for its "prefix" row, which the raw
    dictionary does not override. *)
Lemma edit_then_reset_restores_witness :
  roundtrip_restores (with_cascade (sample_ext "False")) "prefix" (VStr "/q") 6
    (simple_option "prefix" "directory" "Prefix" None) 5 SecSystem wine_box.
Proof.
  apply edit_then_reset_restores; vm_compute; reflexivity.
Defined.

(** C4 as stated fails for a key that this layer already overrode before
    the edit: the "version" entry of the sample form is "9.0" in the raw
    dictionary and "8.0" in the ancestor layers; after an edit and a
    reset the effective entry is the ancestors' "8.0", not the "9.0" it
    was before the edit. *)
Lemma edit_then_reset_overridden_counterexample :
  raw_of SecSystem (lutris_config wine_box) !! "version" = Some (VStr "9.0") /\
  effective_of SecSystem (lutris_config wine_box) !! "version" = Some (VStr "9.0") /\
  effective_of SecSystem
    (lutris_config
       (edit_then_reset (sample_ext "False") "version" (VStr "10.0") 2 version_option 1
          wine_box)) !! "version" = Some (VStr "8.0") /\
  ~ roundtrip_restores (sample_ext "False") "version" (VStr "10.0") 2 version_option 1
      SecSystem wine_box.
Proof.
  split; [vm_compute; reflexivity |].
  split; [vm_compute; reflexivity |].
  split; [vm_compute; reflexivity |].
  intros [H _]. vm_compute in H. discriminate H.
Qed.

(** The theorem at the sample form. *)
Lemma raw_within_effective_preserved_witness :
  raw_within_effective wine_box /\
  raw_within_effective (on_option_changed "dxvk" (VBool false) wine_box).2 /\
  raw_within_effective
    (on_reset_button_clicked (with_cascade (sample_ext "False")) 2 version_option 1
       wine_box).2.
Proof.
  assert (H : raw_within_effective wine_box).
  { split; [vm_compute; reflexivity |].
    intros sec Hsec. vm_compute in Hsec. injection Hsec as <-.
    apply (bool_decide_unpack _). vm_compute. exact I. }
  split; [exact H |].
  exact (raw_within_effective_preserved (sample_ext "False") wine_box "dxvk" (VBool false)
           2 version_option 1 H).
Defined.

(** The theorem at a schema whose second descriptor the generator
    rejects. *)
Lemma generate_widgets_isolates_failures_witness :
  options broken_form <> [] /\
  well_formed broken_form /\
  log (generate_widgets (sample_ext "True") broken_form) =
    log broken_form ++
    failed (pass_outcomes (sample_ext "True")
              (get_widget_generator (sample_ext "True") (select_config_section broken_form))
              (options broken_form)
              {| self := select_config_section broken_form; current_section := None;
                 current_vbox := None |}).
Proof.
  assert (Hne : options broken_form <> []) by discriminate.
  assert (Hwf : well_formed broken_form) by apply well_formed_new_box.
  split; [exact Hne | split; [exact Hwf |]].
  exact (proj1 (proj2 (generate_widgets_isolates_failures (sample_ext "True")
                         broken_form Hne Hwf))).
Defined.

(** The pass over that schema: the rows of the three other descriptors,
    in order, and one log entry naming "broken". *)
Example broken_row_omitted :
  map lutris_option_key (rows (children (generate_widgets (sample_ext "True") broken_form))) =
    ["a"; "b"; "c"] /\
  log (generate_widgets (sample_ext "True") broken_form) =
    [(VStr "broken", Raised "unknown widget type")].
Proof. split; vm_compute; reflexivity. Qed.

(** The theorem at the sample schema. *)
Lemma generate_widgets_weights_witness :
  lutris_config
    (generate_widgets (sample_ext "False") (new_box "system" wine_config wine_options)) =
  lutris_config (new_box "system" wine_config wine_options).
Proof.
  refine (proj1 (generate_widgets_weights (sample_ext "False")
                   (new_box "system" wine_config wine_options) _ _)).
  - discriminate.
  - apply well_formed_new_box.
Defined.

(** The sample form: "version" is overridden at this level, "dxvk" holds
    a value that differs from its default, "prefix" has no default and
    holds a value. *)
Example wine_box_weights :
  map (fun c => (lutris_option_key c,
                 rendered_weight <$> wrapper_store wine_box !! oc_wrapper c))
      (rows (children wine_box)) =
  [("version", Some bold); ("dxvk", Some italic); ("prefix", Some italic)].
Proof. vm_compute. reflexivity. Qed.

(** The theorem at the schema with producers. *)
Lemma generate_widgets_resolves_producers_witness :
  exists old_rows new_rows,
    rows (children (generate_widgets (sample_ext "True") producer_form)) =
    old_rows ++ new_rows /\
    Forall2 same_row (rows (children producer_form)) old_rows.
Proof.
  assert (Hne : options producer_form <> []) by discriminate.
  assert (Hwf : well_formed producer_form) by apply well_formed_new_box.
  destruct (generate_widgets_resolves_producers (sample_ext "True") producer_form Hne Hwf)
    as (_ & old_rows & new_rows & H1 & H2 & _).
  exists old_rows, new_rows. split; [exact H1 | exact H2].
Defined.

(** C7 as stated fails for the choices of a "choice_with_search" option:
    the pass over the schema with producers calls the three producers of
    its first descriptor once each and does not call the choices
    producer of its second descriptor, whose row is built; the generator
    was given that descriptor with the producer still in place. *)
Lemma choice_with_search_counterexample :
  let s' := generate_widgets (sample_ext "True") producer_form in
  calls s' = [("res", "visible", 1); ("res", "choices", 2); ("res", "condition", 3)] /\
  calls_of "choices" (filter (fun e => e.1.1 = "version") (calls s')) = [] /\
  map (fun c => (lutris_option_key c,
                 (fun wb => o_choices (w_option wb)) <$> wrapper_store s' !! oc_wrapper c))
      (rows (children s')) =
  [("res", Some (Some (VList [VStr "800x600"; VStr "1024x768"])));
   ("version", Some (Some (VCallable 4 (inr (VList [VStr "9.0"])))))].
Proof. repeat split; vm_compute; reflexivity. Qed.

(** The theorem at the form with three rows. *)
Lemma generate_widgets_visibility_witness :
  settings_reads (generate_widgets (sample_ext "True")
                    (new_box "system" wine_config wine_options)) = 1 /\
  _advanced_visibility (generate_widgets (sample_ext "True")
                          (new_box "system" wine_config wine_options)) = true.
Proof.
  assert (Hwf : well_formed (new_box "system" wine_config wine_options))
    by apply well_formed_new_box.
  assert (Hne : options (new_box "system" wine_config wine_options) <> [])
    by discriminate.
  destruct (generate_widgets_visibility (sample_ext "True")
              (new_box "system" wine_config wine_options) Hwf) as [_ H].
  destruct (H Hne) as (_ & Hr & Ha & _). split; [exact Hr | exact Ha].
Defined.

(** C8 as stated fails on a second render pass: with the setting at
    "False", a form is rendered, the user turns advanced options on, and
    the form is rendered again. The second pass reads the setting a
    second time and replaces the last known advanced-mode value by it, so
    the advanced row that was visible is hidden again. *)
Lemma second_render_counterexample :
  let ext := sample_ext "False" in
  let s1 := generate_widgets ext (new_box "system" wine_config wine_options) in
  let s2 := set_advanced_visibility_to true s1 in
  let s3 := generate_widgets ext s2 in
  settings_reads s1 = 1 /\
  _advanced_visibility s2 = true /\
  visible_count (children s2) = 3 /\
  settings_reads s3 = 2 /\
  _advanced_visibility s3 = false /\
  length (rows (children s3)) = 6 /\
  visible_count (children s3) = 4.
Proof. repeat split; vm_compute; reflexivity. Qed.

(** The theorem for the sample form filtered by "WINE", and for the same
    form filtered by "wine" after advanced options were shown and hidden
    again. *)
Lemma update_option_visibility_history_free_witness :
  children (update_option_visibility (set_filter (fun _ => "WINE") wine_box)) =
  children (update_option_visibility
              (set_filter (fun _ => "wine")
                 (set_advanced_visibility_to false
                    (set_advanced_visibility_to true wine_box)))).
Proof.
  apply update_option_visibility_history_free.
  - vm_compute. reflexivity.
  - vm_compute. reflexivity.
  - vm_compute. reflexivity.
Defined.

(** The theorem for the reset button of the first row of the sample
    form. *)
Lemma update_option_visibility_buttons_witness :
  exists rb',
    button_store (update_option_visibility wine_box) !! 2 = Some rb' /\
    rb_no_show_all rb' = false /\
    rb_wrapper rb' = 1.
Proof.
  assert (Hb : button_store wine_box !! 2 =
               Some {| rb_visible := true; rb_no_show_all := false;
                       rb_option := version_option; rb_wrapper := 1 |})
    by (vm_compute; reflexivity).
  destruct (update_option_visibility_buttons wine_box 2 _ Hb)
    as (rb' & H1 & H2 & _ & H4 & _).
  exists rb'. split; [exact H1 | split; [exact H2 | exact H4]].
Defined.

(** The theorem at the sample form, for an edit of its ["dxvk"] option:
    the entry of ["version"] and the tree are untouched. *)
Lemma on_option_changed_frame_witness :
  let s' := (on_option_changed "dxvk" (VBool false) wine_box).2 in
  raw_of SecSystem (lutris_config s') !! "version" = Some (VStr "9.0") /\
  children s' = children wine_box.
Proof.
  assert (Hc : config wine_box = Some SecSystem) by (vm_compute; reflexivity).
  assert (Hr : raw_config wine_box = Some SecSystem) by (vm_compute; reflexivity).
  destruct (on_option_changed_frame wine_box "dxvk" (VBool false) SecSystem SecSystem Hc Hr)
    as (H1 & _ & H3 & _).
  cbv zeta. split; [| exact H3].
  rewrite (H1 SecSystem "version") by (right; discriminate).
  vm_compute. reflexivity.
Defined.

(** The theorem at the sample form. *)
Lemma on_option_changed_order_witness :
  lutris_config
    (on_option_changed "dxvk" (VBool true)
       (on_option_changed "dxvk" (VBool false) wine_box).2).2 =
  lutris_config (on_option_changed "dxvk" (VBool true) wine_box).2.
Proof.
  assert (Hc : config wine_box = Some SecSystem) by (vm_compute; reflexivity).
  assert (Hr : raw_config wine_box = Some SecSystem) by (vm_compute; reflexivity).
  exact (proj2 (on_option_changed_order wine_box "dxvk" "dxvk" (VBool false) (VBool true)
                  SecSystem Hc Hr)).
Defined.

(** The theorem on a form as its constructor leaves it, and for a key
    outside the effective dictionary of the sample form. *)
Lemma handlers_fail_before_writing_witness :
  (on_option_changed "dxvk" (VBool true)
     (ConfigBox_init (Some SecSystem) "system" wine_config None)).1 =
  Raise (TypeError "'NoneType' object does not support item assignment") /\
  on_reset_button_clicked (sample_ext "False") 2
    (simple_option "gamemode" "bool" "Gamemode" None) 1 wine_box =
  (Raise (KeyError "gamemode"), wine_box).
Proof.
  pose proof (handlers_fail_before_writing (sample_ext "False")
                (ConfigBox_init (Some SecSystem) "system" wine_config None)
                "dxvk" (VBool true) 0 empty_option 0) as (H1 & _).
  pose proof (handlers_fail_before_writing (sample_ext "False") wine_box
                "dxvk" (VBool true) 2 (simple_option "gamemode" "bool" "Gamemode" None) 1)
    as (_ & _ & _ & H4).
  split.
  - rewrite H1 by reflexivity. reflexivity.
  - apply (H4 "gamemode" SecSystem); vm_compute; reflexivity.
Defined.

(** The theorem at the sample form, for the reset of its "version" row,
    which the raw dictionary overrides. *)
Lemma reset_button_shown_again_witness :
  let s1 := (on_reset_button_clicked (sample_ext "False") 2 version_option 1 wine_box).2 in
  (rb_visible <$> button_store s1 !! 2) = Some false /\
  (rb_visible <$> button_store (update_option_visibility s1) !! 2) = Some true /\
  raw_of SecSystem (lutris_config (update_option_visibility s1)) !! "version" = None.
Proof.
  assert (Hb : button_store wine_box !! 2 =
               Some {| rb_visible := true; rb_no_show_all := false;
                       rb_option := version_option; rb_wrapper := 1 |})
    by (vm_compute; reflexivity).
  assert (Hin : widget_in
                  (OptionContainer
                     {| lutris_option_key := "version";
                        lutris_option_label := "Wine version";
                        lutris_option_helptext := "";
                        oc_advanced := false; oc_visible := true;
                        oc_no_show_all := false; oc_wrapper := 1;
                        oc_reset_btn := 2; oc_messages := [] |})
                  (children wine_box)).
  { apply (widget_in_frame _ 0 "Wine" true
             [OptionContainer
                {| lutris_option_key := "version";
                   lutris_option_label := "Wine version";
                   lutris_option_helptext := "";
                   oc_advanced := false; oc_visible := true;
                   oc_no_show_all := false; oc_wrapper := 1;
                   oc_reset_btn := 2; oc_messages := [] |};
              OptionContainer
                {| lutris_option_key := "dxvk";
                   lutris_option_label := "Enable DXVK";
                   lutris_option_helptext := "Use the Vulkan backend";
                   oc_advanced := true; oc_visible := false;
                   oc_no_show_all := true; oc_wrapper := 3;
                   oc_reset_btn := 4; oc_messages := [5] |}]).
    - vm_compute. repeat constructor.
    - apply widget_in_here. repeat constructor. }
  assert (Hvis : row_visible (_advanced_visibility wine_box) (lower (_filter wine_box))
                    {| lutris_option_key := "version";
                       lutris_option_label := "Wine version";
                       lutris_option_helptext := "";
                       oc_advanced := false; oc_visible := true;
                       oc_no_show_all := false; oc_wrapper := 1;
                       oc_reset_btn := 2; oc_messages := [] |} = true)
    by (vm_compute; reflexivity).
  assert (Hc : config wine_box = Some SecSystem) by (vm_compute; reflexivity).
  assert (Hr : raw_config wine_box = Some SecSystem) by (vm_compute; reflexivity).
  assert (Hcur : effective_of SecSystem (lutris_config wine_box) !! "version"
                 = Some (VStr "9.0")) by (vm_compute; reflexivity).
  destruct (reset_button_shown_again (sample_ext "False") wine_box 2 version_option 1
              "version" SecSystem SecSystem (VStr "9.0") _ _
              eq_refl Hc Hr Hcur Hb eq_refl Hin eq_refl Hvis)
    as [H1 H2].
  cbv zeta. rewrite H1, H2. split; [reflexivity | split; [reflexivity |]].
  vm_compute. reflexivity.
Defined.

(** The theorem for a form of the runner section. *)
Lemma form_edits_its_own_section_witness :
  let s := generate_widgets (sample_ext "False")
             (with_options wine_options
                (ConfigBox_init (Some SecRunner) "runner" wine_config None)) in
  config s = Some SecRunner /\
  raw_of SecRunner (lutris_config (on_option_changed "dxvk" (VBool false) s).2) !! "dxvk" =
  Some (VBool false) /\
  raw_of SecSystem (lutris_config (on_option_changed "dxvk" (VBool false) s).2) =
  raw_of SecSystem wine_config.
Proof.
  assert (Hne : wine_options <> []) by discriminate.
  destruct (form_edits_its_own_section (sample_ext "False") SecRunner "runner"
              wine_config None wine_options "dxvk" (VBool false) Hne)
    as (H1 & _ & _ & _ & H5 & _ & H7).
  cbv zeta in *. split; [exact H1 | split; [exact H5 |]].
  apply (H7 SecSystem). discriminate.
Defined.

(** The theorem for a form of the base class with the schema of the
    sample form. *)
Lemma generate_widgets_unbound_witness :
  let s' := generate_widgets (sample_ext "False")
              (with_options wine_options (ConfigBox_init None "system" wine_config None)) in
  map fst (log s') = [VStr "version"; VStr "dxvk"; VStr "prefix"] /\
  children s' = [].
Proof.
  assert (Hne : wine_options <> []) by discriminate.
  destruct (generate_widgets_unbound (sample_ext "False")
              (with_options wine_options (ConfigBox_init None "system" wine_config None))
              Hne eq_refl eq_refl) as (H1 & H2 & _).
  cbv zeta in *. split.
  - rewrite H1. reflexivity.
  - match type of H2 with ?l = _ => change (l = []) in H2 end.
    destruct (children _); [reflexivity | discriminate H2].
Defined.

(** The theorem for a descriptor whose [visible] producer returns false,
    on the sample form. *)
Lemma skipped_descriptor_leaves_no_trace_witness :
  generate_option_guarded (sample_ext "False") VNone hidden_option
    {| self := wine_box; current_section := Some "Wine"; current_vbox := Some 0 |} =
  {| self := add_calls [("hidden", "visible", 7)] wine_box;
     current_section := Some "Wine"; current_vbox := Some 0 |}.
Proof.
  assert (Hc : config wine_box = Some SecSystem) by (vm_compute; reflexivity).
  destruct (skipped_descriptor_leaves_no_trace (sample_ext "False") VNone hidden_option
              {| self := wine_box; current_section := Some "Wine"; current_vbox := Some 0 |})
    as [_ H].
  exact (H "hidden" SecSystem (VBool false) eq_refl eq_refl Hc
           (ex_intro _ (VBool false) (conj eq_refl eq_refl)) eq_refl).
Defined.

(** The theorem for the schema with a descriptor that the generator
    rejects. *)
Lemma generate_widgets_rows_in_schema_order_witness :
  exists new_rows,
    length new_rows <= 4 /\
    map (fun c => Some (lutris_option_key c)) new_rows
      `sublist_of` [Some "a"; Some "broken"; Some "b"; Some "c"].
Proof.
  assert (Hne : options broken_form <> []) by discriminate.
  destruct (generate_widgets_rows_in_schema_order (sample_ext "True") broken_form Hne
              (well_formed_new_box _ _ _))
    as (old_rows & new_rows & _ & _ & Hsub & Hlen & _).
  exists new_rows. split; [exact Hlen | exact Hsub].
Defined.

(** The theorem for a new row of the sample form. *)
Lemma build_row_wires_reset_button_witness :
  exists c s',
    build_row tooltip_ext VNone esync_option "esync" VNone wine_box = (Normal c, s') /\
    wrappers s' !! "esync" = Some (oc_wrapper c) /\
    reset_buttons s' !! "esync" = Some (oc_reset_btn c).
Proof.
  assert (Hr : raw_config wine_box = Some SecSystem) by (vm_compute; reflexivity).
  destruct (build_row_wires_reset_button tooltip_ext VNone esync_option "esync" VNone
              wine_box _ SecSystem "Enable Esync" eq_refl Hr eq_refl)
    as (c & s' & rb & E & _ & H1 & H2 & _).
  exists c, s'. split; [exact E | split; [exact H1 | exact H2]].
Defined.

(** The theorem for a new row of the sample form: its value differs from
    the default and the raw dictionary does not hold its key. *)
Lemma build_row_tooltip_witness :
  exists c s' wb,
    build_row tooltip_ext VNone esync_option "esync" (VBool true) wine_box = (Normal c, s') /\
    wrapper_store s' !! oc_wrapper c = Some wb /\
    w_tooltip wb =
      Some ("Reduces overhead" +:+ newlines +:+ "<b>Default</b>: off" +:+ newlines +:+
            italic_note) /\
    rendered_weight wb = italic.
Proof.
  assert (Hr : raw_config wine_box = Some SecSystem) by (vm_compute; reflexivity).
  destruct (build_row_tooltip tooltip_ext VNone esync_option "esync" (VBool true)
              wine_box _ SecSystem "Enable Esync" eq_refl Hr eq_refl)
    as (c & s' & wb & E & Hwb & Htip & Hit & _).
  exists c, s', wb. split; [exact E | split; [exact Hwb | split]].
  - rewrite Htip. vm_compute. reflexivity.
  - apply Hit. vm_compute. reflexivity.
Defined.

(** The theorem for a new row of the sample form whose condition is not
    met. *)
Lemma build_row_sensitivity_witness :
  exists c s' wb,
    build_row tooltip_ext VNone esync_option "esync" VNone wine_box = (Normal c, s') /\
    wrapper_store s' !! oc_wrapper c = Some wb /\
    w_sensitive wb = false.
Proof.
  assert (Hr : raw_config wine_box = Some SecSystem) by (vm_compute; reflexivity).
  destruct (build_row_sensitivity tooltip_ext VNone esync_option "esync" VNone
              wine_box _ SecSystem "Enable Esync" eq_refl Hr eq_refl)
    as (c & s' & wb & E & Hwb & Hs).
  exists c, s', wb. split; [exact E | split; [exact Hwb |]].
  apply Hs. exists (VBool false). split; reflexivity.
Defined.

(** The theorem for the sample form, which has no game. *)
Lemma get_widget_generator_after_edit_witness :
  get_widget_generator (sample_ext "False")
    (on_option_changed "game_path" (VStr "/games") wine_box).2 = VStr "/games".
Proof.
  assert (Hc : config wine_box = Some SecSystem) by (vm_compute; reflexivity).
  assert (Hr : raw_config wine_box = Some SecSystem) by (vm_compute; reflexivity).
  destruct (get_widget_generator_after_edit (sample_ext "False") wine_box "game_path"
              (VStr "/games") SecSystem Hc Hr) as [_ H].
  apply (H eq_refl eq_refl). vm_compute. reflexivity.
Defined.

(** The theorem for the schema with a descriptor that the generator
    rejects: the pass adds the rows of the three other descriptors. *)
Lemma generate_widgets_rows_independent_witness :
  exists old_rows new_rows,
    rows (children (generate_widgets (sample_ext "True") broken_form)) =
    old_rows ++ new_rows /\
    map (fun c => Some (lutris_option_key c)) new_rows = [Some "a"; Some "b"; Some "c"].
Proof.
  assert (Hne : options broken_form <> []) by discriminate.
  destruct (generate_widgets_rows_independent (sample_ext "True") broken_form Hne
              (well_formed_new_box _ _ _))
    as (_ & _ & old_rows & new_rows & H1 & _ & H3).
  exists old_rows, new_rows. split; [exact H1 |].
  etransitivity; [exact H3 |]. vm_compute. reflexivity.
Defined.

(** The theorem for the sample schema rendered on a new form. *)
Lemma generate_widgets_flat_witness :
  Forall flat (children wine_box).
Proof.
  assert (Hne : options (new_box "system" wine_config wine_options) <> []) by discriminate.
  exact (proj1 (generate_widgets_flat (sample_ext "False")
                  (new_box "system" wine_config wine_options) Hne
                  (well_formed_new_box _ _ _) (Forall_nil_2 _))).
Defined.
